(** * Arbitrage detection and risk classification engine

    A shallow embedding of the decision logic of the sports arbitrage
    monitor:

    - [src/calculators/arbitrage.py]    (class [ArbitrageCalculator])
    - [src/utils/advanced_monitors.py]  (classes [DriftTracker], [RiskReporter])
    - [src/utils/bookmaker_classifier.py] (class [BookmakerClassifier])
    - [config/settings.py]              (the configuration constants)

    Conventions of the embedding.

    - Prices, ROI figures and stakes are Python floats (IEEE 754
      binary64).  They are read twice.  The functions at top level read
      them as exact rationals ([Q]); that reading carries the properties
      that do not turn on how a result is rounded: the order of the
      tests, what is stored and what is left alone, which inputs are
      refused, the tiers of the stake rounding.  Module [B64] reads the
      same functions operation by operation over [spec_float] at
      precision 53, round to nearest even; every property that turns on
      a computed number meeting a threshold, or on an equality between
      computed numbers, is stated over [B64].
    - Python's [/] raises [ZeroDivisionError] on a zero divisor; every
      division of the source is a [truediv] in the [result] monad, so a
      function that can raise has a [result] type and one that cannot
      is shown to always be [Returned].
    - [dict] objects whose iteration order is observable are kept as
      insertion-ordered association lists ([dict]); the caches of the
      trackers, which are only read by key, are [gmap]s.
    - Calls to the logger do not influence any returned value or any
      stored state and are left out; the formatted rejection strings
      are kept as a structured [rejection] value carrying the data the
      f-string interpolates.
    - Bookmaker, outcome and sport identifiers are ASCII strings. *)

From Stdlib Require Import QArith Qround Qabs Lqa Lia Bool Ascii String List SpecFloat.
From stdpp Require Import base option list gmap strings.

Local Open Scope string_scope.
Local Open Scope Q_scope.

(** ** Python primitives *)

Module Py.

Inductive exn : Type := ZeroDivisionError.

Inductive result (A : Type) : Type :=
| Returned (a : A)
| Raised (e : exn).
Arguments Returned {A} a.
Arguments Raised {A} e.

#[export] Instance result_ret : MRet result := @Returned.
#[export] Instance result_bind : MBind result := fun A B f m =>
  match m with
  | Returned a => f a
  | Raised e => Raised e
  end.

(** [x / y] on numbers. *)
Definition truediv (x y : Q) : result Q :=
  if Qeq_bool y 0 then Raised ZeroDivisionError else Returned (x / y).

(** Comparisons as the booleans Python computes. *)
Definition lt (x y : Q) : bool := negb (Qle_bool y x).
Definition le (x y : Q) : bool := Qle_bool x y.
Definition gt (x y : Q) : bool := lt y x.

(** [round(x)] with one argument: nearest integer, ties to even. *)
Definition round (x : Q) : Z :=
  let f := Qfloor x in
  match Qcompare (x - inject_Z f) (1 # 2) with
  | Lt => f
  | Gt => (f + 1)%Z
  | Eq => if Z.even f then f else (f + 1)%Z
  end.

(** [sum(...)] of a list of numbers: left to right from [0]. *)
Definition sum (l : list Q) : Q := fold_left Qplus l 0.

(** [str.lower()] on ASCII text. *)
Definition lower_ascii (c : ascii) : ascii :=
  let n := nat_of_ascii c in
  if ((65 <=? n)%nat && (n <=? 90)%nat)%bool then ascii_of_nat (n + 32) else c.

Fixpoint lower (s : string) : string :=
  match s with
  | EmptyString => EmptyString
  | String c r => String (lower_ascii c) (lower r)
  end.

(** [s.split(sep)[0]]: the text before the first separator. *)
Fixpoint split_head (sep : ascii) (s : string) : string :=
  match s with
  | EmptyString => EmptyString
  | String c r => if Ascii.eqb c sep then EmptyString else String c (split_head sep r)
  end.

(** [needle in hay] on strings. *)
Fixpoint contains (needle hay : string) : bool :=
  (String.prefix needle hay ||
   match hay with
   | EmptyString => false
   | String _ r => contains needle r
   end)%bool.

(** [x in l] for a list of strings. *)
Definition mem (x : string) (l : list string) : bool :=
  existsb (String.eqb x) l.

(** Insertion-ordered dictionaries with string keys. *)
Definition dict (V : Type) : Type := list (string * V).

Fixpoint dict_get {V} (d : dict V) (k : string) : option V :=
  match d with
  | [] => None
  | (k', v) :: r => if String.eqb k' k then Some v else dict_get r k
  end.

(** [d[k] = v]: an existing key keeps its position, a new key goes last. *)
Fixpoint dict_set {V} (d : dict V) (k : string) (v : V) : dict V :=
  match d with
  | [] => [(k, v)]
  | (k', v') :: r =>
      if String.eqb k' k then (k', v) :: r else (k', v') :: dict_set r k v
  end.

(** A dict display [{k1: v1, k2: v2, ...}], evaluated left to right. *)
Definition dict_display {V} (items : list (string * V)) : dict V :=
  fold_left (fun d kv => dict_set d (fst kv) (snd kv)) items [].

(** [str(x)] of an optional string ([None] prints as its name). *)
Definition str_opt (o : option string) : string :=
  match o with
  | Some s => s
  | None => "None"
  end.

End Py.
Import Py.

(** ** config/settings.py *)

Record Settings : Type := {
  SHARP_BOOKMAKERS : list string;
  SOFT_BOOKMAKERS : list string;
  MAX_ROI_THRESHOLD : Q;
  MIN_ROI_THRESHOLD : Q;
  BOOKMAKER_OVERTIME_RULES : dict string;
  HIGH_RISK_BOOKMAKERS : list string;
  DEFAULT_TOTAL_INVESTMENT : Q;
  ENABLE_SMART_ROUNDING : bool;
  ENABLE_DRIFT_TRACKER : bool;
  DRIFT_THRESHOLD_PERCENT : Q;
  DRIFT_SHARP_BOOKMAKERS : list string;
  DRIFT_VALUE_THRESHOLD : Q;
  ENABLE_RISK_REPORTER : bool
}.

(** The values of the shipped configuration file.  The rule table is
    written as in the file, repeated keys included: the later entry
    replaces the value, the key keeps its first position. *)
Definition settings : Settings := {|
  SHARP_BOOKMAKERS := ["pinnacle"; "betfair"; "bet365"];
  SOFT_BOOKMAKERS := ["1xbet"; "unibet"; "williamhill"; "marathonbet"];
  MAX_ROI_THRESHOLD := 15;
  MIN_ROI_THRESHOLD := 1.5;
  BOOKMAKER_OVERTIME_RULES := dict_display [
    ("PointsBet", "includes_overtime");
    ("DraftKings", "includes_overtime");
    ("FanDuel", "includes_overtime");
    ("BetMGM", "includes_overtime");
    ("Caesars", "includes_overtime");
    ("Unibet", "includes_overtime");
    ("William Hill", "includes_overtime");
    ("1xBet", "includes_overtime");
    ("Pinnacle", "includes_overtime");
    ("Kwiff", "regulation_only");
    ("Betfair", "regulation_only");
    ("Bet365", "regulation_only");
    ("Ladbrokes", "regulation_only");
    ("William Hill", "regulation_only");
    ("Unibet", "regulation_only");
    ("1xBet", "regulation_only");
    ("Pinnacle", "regulation_only")
  ];
  HIGH_RISK_BOOKMAKERS := ["Kwiff"; "InternationalBookieX"];
  DEFAULT_TOTAL_INVESTMENT := 1000;
  ENABLE_SMART_ROUNDING := true;
  ENABLE_DRIFT_TRACKER := true;
  DRIFT_THRESHOLD_PERCENT := 5;
  DRIFT_SHARP_BOOKMAKERS := ["pinnacle"; "betfair"];
  DRIFT_VALUE_THRESHOLD := 5;
  ENABLE_RISK_REPORTER := true
|}.

(** ** ArbitrageCalculator: detection and stakes *)

Definition detect_two_way_arbitrage (odds_a odds_b : Q) : result (bool * Q) :=
  if (le odds_a 0 || le odds_b 0)%bool then mret (false, 0)
  else
    pa ← truediv 1 odds_a;
    pb ← truediv 1 odds_b;
    let implied_total := pa + pb in
    if Qeq_bool implied_total 0 then mret (false, 0)
    else if lt implied_total 1 then
      inv ← truediv 1 implied_total;
      mret (true, (inv - 1) * 100)
    else mret (false, 0).

Definition detect_three_way_arbitrage (odds_1 odds_x odds_2 : Q) : result (bool * Q) :=
  if (le odds_1 0 || le odds_x 0 || le odds_2 0)%bool then mret (false, 0)
  else
    p1 ← truediv 1 odds_1;
    px ← truediv 1 odds_x;
    p2 ← truediv 1 odds_2;
    let implied_total := p1 + px + p2 in
    if Qeq_bool implied_total 0 then mret (false, 0)
    else if lt implied_total 1 then
      inv ← truediv 1 implied_total;
      mret (true, (inv - 1) * 100)
    else mret (false, 0).

(** [calculate_stakes].  The generator [sum(1 / odds for odds in odds_list)]
    is evaluated first; the loop then computes [stake] for every leg and
    rounds it. *)
Definition inverse_odds_sum (odds_list : list Q) : result Q :=
  inverses ← mapM (truediv 1) odds_list; mret (sum inverses).

(** The local [stake] of the loop body, before any rounding. *)
Definition stake_for (total_investment inverse_sum odds : Q) : result Q :=
  weight ← truediv 1 odds; truediv (total_investment * weight) inverse_sum.

Definition _smart_round (amount : Q) : Q :=
  if gt amount 1000 then inject_Z (round (amount / 100) * 100)
  else if gt amount 100 then inject_Z (round (amount / 50) * 50)
  else inject_Z (round (amount / 5) * 5).

Definition rounded_stake (cfg : Settings) (stake : Q) : Q :=
  if ENABLE_SMART_ROUNDING cfg then _smart_round stake
  else inject_Z (round (stake / 5) * 5).

Definition calculate_stakes (cfg : Settings) (total_investment : Q)
    (odds_list : list Q) : result (list Q) :=
  inverse_sum ← inverse_odds_sum odds_list;
  mapM (fun odds =>
          stake ← stake_for total_investment inverse_sum odds;
          mret (rounded_stake cfg stake))
       odds_list.

(** ** ArbitrageCalculator: the safety filters *)

(** What the rejection f-strings interpolate. *)
Inductive rejection : Type :=
| PALPABLE_ERROR (roi threshold : Q)
| LOW_PROFIT (roi threshold : Q)
| RULE_MISMATCH (bookmaker_a rule_a bookmaker_b rule_b : string).

(** [BOOKMAKER_OVERTIME_RULES.get(bookmaker, 'unknown')]. *)
Definition overtime_rule (cfg : Settings) (bookmaker : string) : string :=
  default "unknown" (dict_get (BOOKMAKER_OVERTIME_RULES cfg) bookmaker).

(** Filter 3, the block under [if ENABLE_RISK_REPORTER].  The loop over
    [HIGH_RISK_BOOKMAKERS] and the soccer/football branch only log. *)
Definition rule_mismatch_check (cfg : Settings) (bookmaker_a bookmaker_b sport : string)
    : option rejection :=
  if contains "basketball" (lower sport) then
    let rule_a := overtime_rule cfg bookmaker_a in
    let rule_b := overtime_rule cfg bookmaker_b in
    if (negb (String.eqb rule_a rule_b)
        && negb (String.eqb rule_a "unknown")
        && negb (String.eqb rule_b "unknown"))%bool
    then Some (RULE_MISMATCH bookmaker_a rule_a bookmaker_b rule_b)
    else None
  else None.

Definition apply_safety_filters (cfg : Settings) (roi : Q)
    (bookmaker_a bookmaker_b sport : string) : bool * option rejection :=
  if gt roi (MAX_ROI_THRESHOLD cfg) then
    (false, Some (PALPABLE_ERROR roi (MAX_ROI_THRESHOLD cfg)))
  else if lt roi (MIN_ROI_THRESHOLD cfg) then
    (false, Some (LOW_PROFIT roi (MIN_ROI_THRESHOLD cfg)))
  else if ENABLE_RISK_REPORTER cfg then
    match rule_mismatch_check cfg bookmaker_a bookmaker_b sport with
    | Some reason => (false, Some reason)
    | None => (true, None)
    end
  else (true, None).

(** ** RiskReporter: the rule database lookup *)

(** The loop of [_get_settlement_rule] over [rules_database.items()]:
    the first key that contains the cleaned name, or is contained in it,
    decides. *)
Fixpoint first_rule_match (clean_name : string) (items : dict string) : string :=
  match items with
  | [] => "unknown"
  | (key, rule) :: rest =>
      if (contains (lower key) (lower clean_name)
          || contains (lower clean_name) (lower key))%bool
      then rule
      else first_rule_match clean_name rest
  end.

Definition _get_settlement_rule (cfg : Settings) (bookmaker sport : string) : string :=
  let clean_name := split_head "_" bookmaker in
  first_rule_match clean_name (BOOKMAKER_OVERTIME_RULES cfg).

(** ** BookmakerClassifier *)

Definition sharps (cfg : Settings) : list string := map lower (SHARP_BOOKMAKERS cfg).
Definition softs (cfg : Settings) : list string := map lower (SOFT_BOOKMAKERS cfg).

Definition classify_bookmaker (cfg : Settings) (bookmaker : string) : string :=
  let clean_name := lower (split_head "_" bookmaker) in
  if mem clean_name (sharps cfg) then "sharp"
  else if mem clean_name (softs cfg) then "soft"
  else "unknown".

Definition get_sharp_bookmaker (cfg : Settings) (bookmaker_a bookmaker_b : string)
    : option string :=
  let class_a := classify_bookmaker cfg bookmaker_a in
  let class_b := classify_bookmaker cfg bookmaker_b in
  if String.eqb class_a "sharp" then Some bookmaker_a
  else if String.eqb class_b "sharp" then Some bookmaker_b
  else None.

(** ** DriftTracker: value-bet tracking *)

(** An entry of [sharp_prices].  The ['timestamp'] entry is written but
    never read and is left out. *)
Record SharpPrice : Type := {
  sp_bookmaker : string;
  sp_odds : Q
}.

(** The value-bet alert, without its constant ['type'] tag and its
    formatted ['recommendation'] text. *)
Record ValueBet : Type := {
  vb_event_id : string;
  vb_outcome : string;
  soft_bookmaker : string;
  soft_odds : Q;
  sharp_bookmaker : string;
  sharp_odds : Q;
  value_gap : Q
}.

(** [f"{event_id}:{outcome}"]. *)
Definition event_outcome_key (event_id outcome : string) : string :=
  event_id ++ ":" ++ outcome.

(** [track_value_opportunity] reads and updates [self.sharp_prices]; the
    second component is that dictionary after the call.  When a division
    raises nothing has been stored yet. *)
Definition track_value_opportunity (cfg : Settings)
    (sharp_prices : gmap string SharpPrice)
    (event_id bookmaker outcome : string) (current_odds : Q)
    : result (option ValueBet) * gmap string SharpPrice :=
  let clean_bookie := lower (split_head "_" bookmaker) in
  let bookie_class := classify_bookmaker cfg bookmaker in
  if mem clean_bookie (map lower (DRIFT_SHARP_BOOKMAKERS cfg)) then
    let key := event_outcome_key event_id outcome in
    match sharp_prices !! key with
    | None =>
        (Returned None,
         <[key := {| sp_bookmaker := bookmaker; sp_odds := current_odds |}]> sharp_prices)
    | Some stored =>
        let prev_sharp := sp_odds stored in
        if lt current_odds prev_sharp then
          match truediv (prev_sharp - current_odds) prev_sharp with
          | Raised e => (Raised e, sharp_prices)
          | Returned q =>
              let drop_pct := q * 100 in
              if gt drop_pct 3 then
                (Returned None,
                 <[key := {| sp_bookmaker := bookmaker; sp_odds := current_odds |}]>
                   sharp_prices)
              else (Returned None, sharp_prices)
          end
        else (Returned None, sharp_prices)
    end
  else if String.eqb bookie_class "soft" then
    let key := event_outcome_key event_id outcome in
    match sharp_prices !! key with
    | Some stored =>
        let sharp_price := sp_odds stored in
        let sharp_bookie := sp_bookmaker stored in
        match truediv (current_odds - sharp_price) sharp_price with
        | Raised e => (Raised e, sharp_prices)
        | Returned q =>
            let value_gap_pct := q * 100 in
            if gt value_gap_pct (DRIFT_VALUE_THRESHOLD cfg) then
              (Returned (Some {| vb_event_id := event_id;
                                 vb_outcome := outcome;
                                 soft_bookmaker := bookmaker;
                                 soft_odds := current_odds;
                                 sharp_bookmaker := sharp_bookie;
                                 sharp_odds := sharp_price;
                                 value_gap := value_gap_pct |}),
               sharp_prices)
            else (Returned None, sharp_prices)
        end
    | None => (Returned None, sharp_prices)
    end
  else (Returned None, sharp_prices).

(** ** ArbitrageCalculator: plain drift tracking *)

Record DriftAlert : Type := {
  da_event_id : string;
  da_outcome : string;
  da_previous_odds : Q;
  da_current_odds : Q;
  drift_percent : Q
}.

(** The loop over [current_odds.items()]: the first outcome that moved
    by more than the threshold returns from the whole method. *)
Fixpoint drift_scan (cfg : Settings) (event_id : string) (prev items : dict Q)
    : result (option DriftAlert) :=
  match items with
  | [] => Returned None
  | (outcome, current_value) :: rest =>
      match dict_get prev outcome with
      | Some prev_value =>
          q ← truediv (current_value - prev_value) prev_value;
          let change_pct := Qabs q * 100 in
          if gt change_pct (DRIFT_THRESHOLD_PERCENT cfg) then
            mret (Some {| da_event_id := event_id;
                          da_outcome := outcome;
                          da_previous_odds := prev_value;
                          da_current_odds := current_value;
                          drift_percent := change_pct |})
          else drift_scan cfg event_id prev rest
      | None => drift_scan cfg event_id prev rest
      end
  end.

(** [track_odds_drift] reads and updates [self.previous_odds]; the second
    component is that dictionary after the call.  The assignment
    [self.previous_odds[event_id] = current_odds.copy()] is only reached
    when the loop ran to its end. *)
Definition track_odds_drift (cfg : Settings) (previous_odds : gmap string (dict Q))
    (event_id : string) (current_odds : dict Q)
    : result (option DriftAlert) * gmap string (dict Q) :=
  if negb (ENABLE_DRIFT_TRACKER cfg) then (Returned None, previous_odds)
  else
    let scanned :=
      match previous_odds !! event_id with
      | Some prev => drift_scan cfg event_id prev current_odds
      | None => Returned None
      end in
    match scanned with
    | Raised e => (Raised e, previous_odds)
    | Returned (Some alert) => (Returned (Some alert), previous_odds)
    | Returned None => (Returned None, <[event_id := current_odds]> previous_odds)
    end.

(** ** ArbitrageCalculator: scanning one event *)

(** An element of [parsed_odds] (its ['last_update'] is not read here). *)
Record Entry : Type := {
  bookmaker : string;
  outcome : string;
  odds : Q
}.

(** The event dictionary of the provider; the keys read with
    [event.get] may be missing. *)
Record Event : Type := {
  id : string;
  sport_key : option string;
  sport_title : option string;
  home_team : option string;
  away_team : option string;
  commence_time : option string
}.

Record Bet : Type := {
  bet_outcome : string;
  bet_odds : Q;
  bet_bookmaker : string
}.

Record Opportunity : Type := {
  opp_event_id : string;
  opp_sport : string;
  opp_event_name : string;
  opp_commence_time : option string;
  opp_roi : Q;
  bets : list Bet;
  stakes : list Q
}.

Definition bet_of (outcome_name : string) (entry : Entry) : Bet :=
  {| bet_outcome := outcome_name;
     bet_odds := odds entry;
     bet_bookmaker := bookmaker entry |}.

Definition make_opportunity (event : Event) (roi : Q) (legs : list Bet)
    (rounded : list Q) : Opportunity :=
  {| opp_event_id := id event;
     opp_sport := default "Unknown" (sport_title event);
     opp_event_name := str_opt (home_team event) ++ " vs " ++ str_opt (away_team event);
     opp_commence_time := commence_time event;
     opp_roi := roi;
     bets := legs;
     stakes := rounded |}.

(** The grouping loop: [outcomes_map[outcome].append(entry)], with a new
    empty list the first time an outcome is seen. *)
Definition group_step (outcomes_map : dict (list Entry)) (entry : Entry)
    : dict (list Entry) :=
  match dict_get outcomes_map (outcome entry) with
  | None => dict_set outcomes_map (outcome entry) [entry]
  | Some entries => dict_set outcomes_map (outcome entry) (entries ++ [entry])%list
  end.

Definition group_by_outcome (parsed_odds : list Entry) : dict (list Entry) :=
  fold_left group_step parsed_odds [].

(** The value-betting loop: one [track_value_opportunity] call per entry,
    in the order of [outcomes_map.items()]; the alerts are discarded. *)
Fixpoint track_entries (cfg : Settings) (sharp_prices : gmap string SharpPrice)
    (event_id : string) (calls : list (string * Entry))
    : result unit * gmap string SharpPrice :=
  match calls with
  | [] => (Returned tt, sharp_prices)
  | (outcome_name, entry) :: rest =>
      match track_value_opportunity cfg sharp_prices event_id
              (bookmaker entry) outcome_name (odds entry) with
      | (Raised e, after) => (Raised e, after)
      | (Returned _, after) => track_entries cfg after event_id rest
      end
  end.

Definition tracking_calls (outcomes_map : dict (list Entry)) : list (string * Entry) :=
  flat_map (fun item => map (pair (fst item)) (snd item)) outcomes_map.

(** The body of the two nested loops of the two-way branch: the list of
    opportunities appended for one pair of entries (none or one). *)
Definition two_way_candidate (cfg : Settings) (event : Event)
    (outcome_a outcome_b : string) (odds_a_entry odds_b_entry : Entry)
    : result (list Opportunity) :=
  if String.eqb (bookmaker odds_a_entry) (bookmaker odds_b_entry) then Returned []
  else
    '(is_arb, roi) ← detect_two_way_arbitrage (odds odds_a_entry) (odds odds_b_entry);
    if (is_arb : bool) then
      let verdict := apply_safety_filters cfg roi (bookmaker odds_a_entry)
                       (bookmaker odds_b_entry) (default "" (sport_key event)) in
      if fst verdict then
        rounded ← calculate_stakes cfg (DEFAULT_TOTAL_INVESTMENT cfg)
                    [odds odds_a_entry; odds odds_b_entry];
        mret [make_opportunity event roi
                [bet_of outcome_a odds_a_entry; bet_of outcome_b odds_b_entry]
                rounded]
      else Returned []
    else Returned [].

(** [bookies = {b1, bx, b2}] and the test [len(bookies) < 2]. *)
Definition bookies (b1 bx b2 : string) : gset string := {[ b1; bx; b2 ]}.

Definition three_way_candidate (cfg : Settings) (event : Event)
    (outcome_1 outcome_x outcome_2 : string) (odds_1 odds_x odds_2 : Entry)
    : result (list Opportunity) :=
  if (size (bookies (bookmaker odds_1) (bookmaker odds_x) (bookmaker odds_2)) <? 2)%nat
  then Returned []
  else
    '(is_arb, roi) ← detect_three_way_arbitrage (odds odds_1) (odds odds_x) (odds odds_2);
    if (is_arb : bool) then
      let verdict := apply_safety_filters cfg roi (bookmaker odds_1)
                       (bookmaker odds_2) (default "" (sport_key event)) in
      if fst verdict then
        rounded ← calculate_stakes cfg (DEFAULT_TOTAL_INVESTMENT cfg)
                    [odds odds_1; odds odds_x; odds odds_2];
        mret [make_opportunity event roi
                [bet_of outcome_1 odds_1; bet_of outcome_x odds_x; bet_of outcome_2 odds_2]
                rounded]
      else Returned []
    else Returned [].

(** A [for] loop whose body appends to [opportunities] and may raise. *)
Definition for_each {A} (xs : list A) (body : A → result (list Opportunity))
    : result (list Opportunity) :=
  chunks ← mapM body xs; mret (concat chunks).

(** [find_arbitrage_opportunities] with the [sharp_prices] of the shared
    [drift_tracker] threaded through.  [outcomes] lists the keys of
    [outcomes_map] and each [outcomes_map[outcomes[i]]] is the list at
    that key, so the branches destructure the items of the dictionary. *)
Definition find_arbitrage_opportunities (cfg : Settings)
    (sharp_prices : gmap string SharpPrice) (event : Event) (parsed_odds : list Entry)
    : result (list Opportunity) * gmap string SharpPrice :=
  let outcomes_map := group_by_outcome parsed_odds in
  match track_entries cfg sharp_prices (id event) (tracking_calls outcomes_map) with
  | (Raised e, after) => (Raised e, after)
  | (Returned _, after) =>
      (match outcomes_map with
       | [(outcome_a, entries_a); (outcome_b, entries_b)] =>
           for_each entries_a (fun odds_a_entry =>
             for_each entries_b (fun odds_b_entry =>
               two_way_candidate cfg event outcome_a outcome_b odds_a_entry odds_b_entry))
       | [(outcome_1, entries_1); (outcome_x, entries_x); (outcome_2, entries_2)] =>
           for_each entries_1 (fun odds_1 =>
             for_each entries_x (fun odds_x =>
               for_each entries_2 (fun odds_2 =>
                 three_way_candidate cfg event outcome_1 outcome_x outcome_2
                   odds_1 odds_x odds_2)))
       | _ => Returned []
       end,
       after)
  end.

(** ** BookmakerClassifier: tags and recommendations *)

(** [get_priority_tag]: the triple [(tag_emoji, tag_text, explanation)].
    The texts of this class and of [RiskReporter] carry non-ASCII
    symbols, kept as their UTF-8 bytes. *)
Definition get_priority_tag (cfg : Settings) (bookmaker_a bookmaker_b : string)
    : string * string * string :=
  let class_a := classify_bookmaker cfg bookmaker_a in
  let class_b := classify_bookmaker cfg bookmaker_b in
  if ((String.eqb class_a "sharp" && String.eqb class_b "soft")
      || (String.eqb class_a "soft" && String.eqb class_b "sharp"))%bool
  then ("⭐", "HIGH CONFIDENCE",
        "Sharp bookmaker vs Soft bookmaker - High probability profit")
  else if (String.eqb class_a "soft" && String.eqb class_b "soft")%bool
  then ("⚡", "FAST MOVE",
        "Both bookmakers are slow movers - Temporary pricing lag")
  else if (String.eqb class_a "sharp" && String.eqb class_b "sharp")%bool
  then ("🔹", "SHARP ARB",
        "Rare arbitrage between market leaders - Act quickly")
  else ("📊", "STANDARD", "Standard arbitrage opportunity").

(** [str.title()] on ASCII text: a letter that follows a non-letter is
    upper-cased, a letter that follows a letter is lower-cased. *)
Definition is_upper (c : ascii) : bool :=
  let n := nat_of_ascii c in ((65 <=? n)%nat && (n <=? 90)%nat)%bool.

Definition is_lower (c : ascii) : bool :=
  let n := nat_of_ascii c in ((97 <=? n)%nat && (n <=? 122)%nat)%bool.

Definition upper_ascii (c : ascii) : ascii :=
  if is_lower c then ascii_of_nat (nat_of_ascii c - 32) else c.

Fixpoint title_from (previous_is_cased : bool) (s : string) : string :=
  match s with
  | EmptyString => EmptyString
  | String c r =>
      let c' :=
        if is_lower c then (if previous_is_cased then c else upper_ascii c)
        else if is_upper c then (if previous_is_cased then lower_ascii c else c)
        else c in
      String c' (title_from (is_lower c || is_upper c)%bool r)
  end.

Definition title (s : string) : string := title_from false s.

(** The truth value of a string: empty is false. *)
Definition str_truthy (s : string) : bool :=
  match s with
  | EmptyString => false
  | String _ _ => true
  end.

Definition get_betting_recommendation (cfg : Settings) (bookmaker_a bookmaker_b : string)
    : string :=
  let sharp := get_sharp_bookmaker cfg bookmaker_a bookmaker_b in
  match sharp with
  | Some name =>
      if str_truthy name then
        "💡 **Pro Tip**: " ++ title (split_head "_" name)
        ++ " is a Sharp bookmaker. "
        ++ "Their price is the market consensus. Bet the opposite side."
      else
        let class_a := classify_bookmaker cfg bookmaker_a in
        let class_b := classify_bookmaker cfg bookmaker_b in
        if (String.eqb class_a "soft" && String.eqb class_b "soft")%bool
        then "⏱️ **Time Sensitive**: Both bookmakers are slow movers. "
             ++ "This gap may close within 2-3 minutes."
        else ""
  | None =>
      let class_a := classify_bookmaker cfg bookmaker_a in
      let class_b := classify_bookmaker cfg bookmaker_b in
      if (String.eqb class_a "soft" && String.eqb class_b "soft")%bool
      then "⏱️ **Time Sensitive**: Both bookmakers are slow movers. "
           ++ "This gap may close within 2-3 minutes."
      else ""
  end.

(** ** RiskReporter: risk status and pair validation *)

(** The loop of [risk_check] over [HIGH_RISK_BOOKMAKERS]: the first
    name found in either cleaned bookmaker. *)
Fixpoint high_risk_match (clean_a clean_b : string) (risky_names : list string)
    : option string :=
  match risky_names with
  | [] => None
  | risky :: rest =>
      if (contains (lower risky) (lower clean_a)
          || contains (lower risky) (lower clean_b))%bool
      then Some risky
      else high_risk_match clean_a clean_b rest
  end.

Definition risk_check (cfg : Settings) (market_type bookie_a bookie_b : string)
    : string :=
  let clean_a := split_head "_" bookie_a in
  let clean_b := split_head "_" bookie_b in
  match high_risk_match clean_a clean_b (HIGH_RISK_BOOKMAKERS cfg) with
  | Some risky =>
      "🔴 HIGH RISK: " ++ risky ++ " has non-standard " ++ market_type
      ++ " rules - VERIFY MANUALLY"
  | None =>
      if contains "basketball" (lower market_type) then
        let rule_a := _get_settlement_rule cfg bookie_a "basketball" in
        let rule_b := _get_settlement_rule cfg bookie_b "basketball" in
        if (String.eqb rule_a "unknown" || String.eqb rule_b "unknown")%bool then
          "⚠️ WARNING: Unknown Overtime rules - CHECK BOTH SITES"
        else if negb (String.eqb rule_a rule_b) then
          "🔴 RULE MISMATCH: " ++ bookie_a ++ " (" ++ rule_a ++ ") vs "
          ++ bookie_b ++ " (" ++ rule_b ++ ") - REJECT ARB"
        else "✅ Rules Match: Both include Overtime"
      else if (contains "soccer" (lower market_type)
               || contains "football" (lower market_type))%bool then
        "ℹ️ Check: Ensure both settle at 90 Mins + Injury Time (NOT 'To Advance')"
      else "✅ Rules Match"
  end.

(** The dictionary returned by [validate_bookmaker_pair]. *)
Record PairValidation : Type := {
  compatible : bool;
  warning : option string;
  recommendation : string
}.

Definition validate_bookmaker_pair (cfg : Settings) (bookie_a bookie_b sport : string)
    : PairValidation :=
  let rule_a := _get_settlement_rule cfg bookie_a sport in
  let rule_b := _get_settlement_rule cfg bookie_b sport in
  if (String.eqb rule_a "unknown" || String.eqb rule_b "unknown")%bool then
    {| compatible := false;
       warning := Some ("Unknown settlement rules for " ++ bookie_a ++ " or " ++ bookie_b);
       recommendation := "MANUALLY VERIFY terms on both sites before betting" |}
  else if negb (String.eqb rule_a rule_b) then
    {| compatible := false;
       warning := Some ("RULE MISMATCH: " ++ bookie_a ++ " uses " ++ rule_a ++ ", "
                        ++ bookie_b ++ " uses " ++ rule_b);
       recommendation := "REJECT THIS ARB - High void risk" |}
  else
    {| compatible := true;
       warning := None;
       recommendation := "Safe: Both settle on " ++ rule_a |}.

(** ** MultiMarketScanner *)

(** The parts of the provider's event data that [scan_markets] reads. *)
Record Market : Type := {
  market_key : option string
}.

Record BookmakerData : Type := {
  markets : list Market
}.

Record EventData : Type := {
  bookmakers : list BookmakerData
}.

Definition _check_totals_arb (market : Market) (event : EventData)
    : option Opportunity := None.

Definition _check_spreads_arb (market : Market) (event : EventData)
    : option Opportunity := None.

(** The body of the inner loop: what one market appends. *)
Definition scan_market (event_data : EventData) (market : Market)
    : list Opportunity :=
  match market_key market with
  | Some key =>
      if String.eqb key "totals" then
        match _check_totals_arb market event_data with
        | Some opp => [opp]
        | None => []
        end
      else if String.eqb key "spreads" then
        match _check_spreads_arb market event_data with
        | Some opp => [opp]
        | None => []
        end
      else []
  | None => []
  end.

(** [scan_markets]; the switch [ENABLE_MULTIMARKET_SCAN] of the settings
    file is its first argument. *)
Definition scan_markets (enable_multimarket_scan : bool) (event_data : EventData)
    : list Opportunity :=
  if negb enable_multimarket_scan then []
  else
    flat_map (fun bookmaker => flat_map (scan_market event_data) (markets bookmaker))
      (bookmakers event_data).

(** ** DriftTracker: consensus movement *)

Record MovementAlert : Type := {
  ma_event_id : string;
  ma_outcome : string;
  lagging_bookies : list string;
  dropping_bookies : list string
}.

(** The truth value of a number: zero is false. *)
Definition num_truthy (x : Q) : bool := negb (Qeq_bool x 0).

(** One turn of the loop over [current_odds.keys()] for a fixed outcome;
    the accumulator is [(bookmakers_dropped, bookmakers_stable)]. *)
Definition movement_step (prev_odds : dict (dict Q)) (outcome_name : string)
    (acc : list string * list string) (item : string * dict Q)
    : result (list string * list string) :=
  let bookie := fst item in
  match dict_get prev_odds bookie with
  | None => Returned acc
  | Some prev_quotes =>
      match dict_get prev_quotes outcome_name with
      | None => Returned acc
      | Some prev_value =>
          match dict_get (snd item) outcome_name with
          | None => Returned acc
          | Some curr_value =>
              if (num_truthy prev_value && num_truthy curr_value)%bool then
                q ← truediv (curr_value - prev_value) prev_value;
                let change_pct := q * 100 in
                if lt change_pct (-3) then
                  Returned ((fst acc ++ [bookie])%list, snd acc)
                else if lt (Qabs change_pct) 1 then
                  Returned (fst acc, (snd acc ++ [bookie])%list)
                else Returned acc
              else Returned acc
          end
      end
  end.

Fixpoint movement_loop (prev_odds : dict (dict Q)) (outcome_name : string)
    (acc : list string * list string) (items : dict (dict Q))
    : result (list string * list string) :=
  match items with
  | [] => Returned acc
  | item :: rest =>
      acc' ← movement_step prev_odds outcome_name acc item;
      movement_loop prev_odds outcome_name acc' rest
  end.

(** The loop over the outcomes: the first outcome with three droppers
    and one stable bookmaker returns the alert. *)
Fixpoint movement_scan (prev_odds current_odds : dict (dict Q)) (event_id : string)
    (outcomes : list string) : result (option MovementAlert) :=
  match outcomes with
  | [] => Returned None
  | outcome_name :: rest =>
      lists ← movement_loop prev_odds outcome_name ([], []) current_odds;
      if ((3 <=? length (fst lists))%nat && (1 <=? length (snd lists))%nat)%bool then
        Returned (Some {| ma_event_id := event_id;
                          ma_outcome := outcome_name;
                          lagging_bookies := snd lists;
                          dropping_bookies := fst lists |})
      else movement_scan prev_odds current_odds event_id rest
  end.

(** [track_movement] reads and updates [self.historical_odds]; every
    return is preceded by the assignment of [current_odds]. *)
Definition track_movement (historical_odds : gmap string (dict (dict Q)))
    (event_id : string) (current_odds : dict (dict Q))
    : result (option MovementAlert) * gmap string (dict (dict Q)) :=
  match historical_odds !! event_id with
  | None => (Returned None, <[event_id := current_odds]> historical_odds)
  | Some prev_odds =>
      match movement_scan prev_odds current_odds event_id ["home"; "away"; "draw"] with
      | Raised e => (Raised e, historical_odds)
      | Returned alert => (Returned alert, <[event_id := current_odds]> historical_odds)
      end
  end.

(** ** The binary64 reading of the arithmetic

    The numbers of the program are Python floats: IEEE 754 binary64 with
    round-to-nearest-even after every operation.  Where a result depends
    on that rounding (an inequality decided within one unit in the last
    place of its threshold, an "exact" equality) the functions are read
    again here, operation by operation, over [spec_float] with precision
    53 and maximal exponent 1024.  Integer constants of the source enter
    through [of_Z], decimal constants of the settings through [of_Q].
    [sum] adds from left to right with one rounding per addition (the
    built-in of CPython before 3.12; later versions compensate the
    rounding errors of the partial sums). *)

Module B64.

Definition prec : Z := 53.
Definition emax : Z := 1024.

Definition float : Type := spec_float.

Definition add : float → float → float := SFadd prec emax.
Definition sub : float → float → float := SFsub prec emax.
Definition mul : float → float → float := SFmul prec emax.
Definition div : float → float → float := SFdiv prec emax.
Definition abs : float → float := SFabs.
Definition eqb : float → float → bool := SFeqb.
Definition ltb : float → float → bool := SFltb.
Definition leb : float → float → bool := SFleb.
Definition gtb (x y : float) : bool := ltb y x.

(** [float(n)] for an integer within the 53 bits of the mantissa. *)
Definition of_Z (n : Z) : float := binary_normalize prec emax n 0 false.

(** The float a decimal literal denotes: the fraction, correctly rounded
    (numerator and denominator within 53 bits). *)
Definition of_Q (q : Q) : float := div (of_Z (Qnum q)) (of_Z (Zpos (Qden q))).

(** The exact value of a finite float. *)
Definition to_Q (x : float) : Q :=
  match x with
  | S754_finite s m e =>
      let n := if s then Zneg m else Zpos m in
      match e with
      | Zneg p => Qmake n (Pos.pow 2 p)
      | _ => inject_Z (n * 2 ^ e)
      end
  | _ => 0
  end.

Definition zero : float := S754_zero false.
Definition one : float := of_Z 1.

Inductive exn : Type := ZeroDivisionError | ValueError | OverflowError.

Inductive result (A : Type) : Type :=
| Returned (a : A)
| Raised (e : exn).
Arguments Returned {A} a.
Arguments Raised {A} e.

#[global] Instance result_ret : MRet result := @Returned.
#[global] Instance result_bind : MBind result := fun A B f m =>
  match m with
  | Returned a => f a
  | Raised e => Raised e
  end.

(** [x / y] on floats: the only failure is a zero divisor, of either
    sign. *)
Definition truediv (x y : float) : result float :=
  if eqb y zero then Raised ZeroDivisionError else Returned (div x y).

(** [round(x)] of a float: the nearest integer of its exact value, ties
    to even; not a number and the infinities are errors. *)
Definition round (x : float) : result Z :=
  match x with
  | S754_nan => Raised ValueError
  | S754_infinity _ => Raised OverflowError
  | _ => Returned (Py.round (to_Q x))
  end.

(** [sum(...)] of floats from the integer [0]. *)
Definition sum (l : list float) : float := fold_left add l zero.

(** *** Detection *)

Definition calculate_implied_probability (odds : float) : result float :=
  p ← truediv one odds; mret (mul p (of_Z 100)).

Definition detect_two_way_arbitrage (odds_a odds_b : float) : result (bool * float) :=
  if (leb odds_a zero || leb odds_b zero)%bool then Returned (false, zero)
  else
    pa ← truediv one odds_a;
    pb ← truediv one odds_b;
    let implied_total := add pa pb in
    if eqb implied_total zero then Returned (false, zero)
    else if ltb implied_total one then
      inv ← truediv one implied_total;
      Returned (true, mul (sub inv one) (of_Z 100))
    else Returned (false, zero).

Definition detect_three_way_arbitrage (odds_1 odds_x odds_2 : float)
    : result (bool * float) :=
  if (leb odds_1 zero || leb odds_x zero || leb odds_2 zero)%bool
  then Returned (false, zero)
  else
    p1 ← truediv one odds_1;
    px ← truediv one odds_x;
    p2 ← truediv one odds_2;
    let implied_total := add (add p1 px) p2 in
    if eqb implied_total zero then Returned (false, zero)
    else if ltb implied_total one then
      inv ← truediv one implied_total;
      Returned (true, mul (sub inv one) (of_Z 100))
    else Returned (false, zero).

(** *** Stakes *)

Definition inverse_odds_sum (odds_list : list float) : result float :=
  inverses ← mapM (truediv one) odds_list; mret (sum inverses).

Definition stake_for (total_investment inverse_sum odds : float) : result float :=
  weight ← truediv one odds; truediv (mul total_investment weight) inverse_sum.

(** The rounded stakes are Python integers. *)
Definition _smart_round (amount : float) : result Z :=
  if gtb amount (of_Z 1000) then
    r ← round (div amount (of_Z 100)); mret (r * 100)%Z
  else if gtb amount (of_Z 100) then
    r ← round (div amount (of_Z 50)); mret (r * 50)%Z
  else
    r ← round (div amount (of_Z 5)); mret (r * 5)%Z.

Definition rounded_stake (cfg : Settings) (stake : float) : result Z :=
  if ENABLE_SMART_ROUNDING cfg then _smart_round stake
  else r ← round (div stake (of_Z 5)); mret (r * 5)%Z.

Definition calculate_stakes (cfg : Settings) (total_investment : float)
    (odds_list : list float) : result (list Z) :=
  inverse_sum ← inverse_odds_sum odds_list;
  mapM (fun odds =>
          stake ← stake_for total_investment inverse_sum odds;
          rounded_stake cfg stake)
       odds_list.


(** *** The safety filters *)

Inductive rejection : Type :=
| PALPABLE_ERROR (roi threshold : float)
| LOW_PROFIT (roi threshold : float)
| RULE_MISMATCH (bookmaker_a rule_a bookmaker_b rule_b : string).

Definition rule_mismatch_check (cfg : Settings) (bookmaker_a bookmaker_b sport : string)
    : option rejection :=
  if contains "basketball" (lower sport) then
    let rule_a := overtime_rule cfg bookmaker_a in
    let rule_b := overtime_rule cfg bookmaker_b in
    if (negb (String.eqb rule_a rule_b)
        && negb (String.eqb rule_a "unknown")
        && negb (String.eqb rule_b "unknown"))%bool
    then Some (RULE_MISMATCH bookmaker_a rule_a bookmaker_b rule_b)
    else None
  else None.

Definition apply_safety_filters (cfg : Settings) (roi : float)
    (bookmaker_a bookmaker_b sport : string) : bool * option rejection :=
  if gtb roi (of_Q (MAX_ROI_THRESHOLD cfg)) then
    (false, Some (PALPABLE_ERROR roi (of_Q (MAX_ROI_THRESHOLD cfg))))
  else if ltb roi (of_Q (MIN_ROI_THRESHOLD cfg)) then
    (false, Some (LOW_PROFIT roi (of_Q (MIN_ROI_THRESHOLD cfg))))
  else if ENABLE_RISK_REPORTER cfg then
    match rule_mismatch_check cfg bookmaker_a bookmaker_b sport with
    | Some reason => (false, Some reason)
    | None => (true, None)
    end
  else (true, None).

(** *** Value-bet tracking *)

Record SharpPrice : Type := {
  sp_bookmaker : string;
  sp_odds : float
}.

Record ValueBet : Type := {
  vb_event_id : string;
  vb_outcome : string;
  soft_bookmaker : string;
  soft_odds : float;
  sharp_bookmaker : string;
  sharp_odds : float;
  value_gap : float
}.

(** [((x - reference) / reference) * 100] as the code evaluates it. *)
Definition percent_over (x reference : float) : float :=
  mul (div (sub x reference) reference) (of_Z 100).

Definition track_value_opportunity (cfg : Settings)
    (sharp_prices : gmap string SharpPrice)
    (event_id bookmaker outcome : string) (current_odds : float)
    : result (option ValueBet) * gmap string SharpPrice :=
  let clean_bookie := lower (split_head "_" bookmaker) in
  let bookie_class := classify_bookmaker cfg bookmaker in
  if mem clean_bookie (map lower (DRIFT_SHARP_BOOKMAKERS cfg)) then
    let key := event_outcome_key event_id outcome in
    match sharp_prices !! key with
    | None =>
        (Returned None,
         <[key := {| sp_bookmaker := bookmaker; sp_odds := current_odds |}]> sharp_prices)
    | Some stored =>
        let prev_sharp := sp_odds stored in
        if ltb current_odds prev_sharp then
          match truediv (sub prev_sharp current_odds) prev_sharp with
          | Raised e => (Raised e, sharp_prices)
          | Returned q =>
              let drop_pct := mul q (of_Z 100) in
              if gtb drop_pct (of_Z 3) then
                (Returned None,
                 <[key := {| sp_bookmaker := bookmaker; sp_odds := current_odds |}]>
                   sharp_prices)
              else (Returned None, sharp_prices)
          end
        else (Returned None, sharp_prices)
    end
  else if String.eqb bookie_class "soft" then
    let key := event_outcome_key event_id outcome in
    match sharp_prices !! key with
    | Some stored =>
        let sharp_price := sp_odds stored in
        let sharp_bookie := sp_bookmaker stored in
        match truediv (sub current_odds sharp_price) sharp_price with
        | Raised e => (Raised e, sharp_prices)
        | Returned q =>
            let value_gap_pct := mul q (of_Z 100) in
            if gtb value_gap_pct (of_Q (DRIFT_VALUE_THRESHOLD cfg)) then
              (Returned (Some {| vb_event_id := event_id;
                                 vb_outcome := outcome;
                                 soft_bookmaker := bookmaker;
                                 soft_odds := current_odds;
                                 sharp_bookmaker := sharp_bookie;
                                 sharp_odds := sharp_price;
                                 value_gap := value_gap_pct |}),
               sharp_prices)
            else (Returned None, sharp_prices)
        end
    | None => (Returned None, sharp_prices)
    end
  else (Returned None, sharp_prices).

(** *** Plain drift tracking *)

Record DriftAlert : Type := {
  da_event_id : string;
  da_outcome : string;
  da_previous_odds : float;
  da_current_odds : float;
  drift_percent : float
}.

(** [abs((current - previous) / previous) * 100] as the code evaluates it. *)
Definition percent_move (current previous : float) : float :=
  mul (abs (div (sub current previous) previous)) (of_Z 100).

Fixpoint drift_scan (cfg : Settings) (event_id : string) (prev items : dict float)
    : result (option DriftAlert) :=
  match items with
  | [] => Returned None
  | (outcome, current_value) :: rest =>
      match dict_get prev outcome with
      | Some prev_value =>
          q ← truediv (sub current_value prev_value) prev_value;
          let change_pct := mul (abs q) (of_Z 100) in
          if gtb change_pct (of_Q (DRIFT_THRESHOLD_PERCENT cfg)) then
            Returned (Some {| da_event_id := event_id;
                              da_outcome := outcome;
                              da_previous_odds := prev_value;
                              da_current_odds := current_value;
                              drift_percent := change_pct |})
          else drift_scan cfg event_id prev rest
      | None => drift_scan cfg event_id prev rest
      end
  end.

Definition track_odds_drift (cfg : Settings) (previous_odds : gmap string (dict float))
    (event_id : string) (current_odds : dict float)
    : result (option DriftAlert) * gmap string (dict float) :=
  if negb (ENABLE_DRIFT_TRACKER cfg) then (Returned None, previous_odds)
  else
    let scanned :=
      match previous_odds !! event_id with
      | Some prev => drift_scan cfg event_id prev current_odds
      | None => Returned None
      end in
    match scanned with
    | Raised e => (Raised e, previous_odds)
    | Returned (Some alert) => (Returned (Some alert), previous_odds)
    | Returned None => (Returned None, <[event_id := current_odds]> previous_odds)
    end.

(** *** Scanning one event *)

Record Entry : Type := {
  bookmaker : string;
  outcome : string;
  odds : float
}.

Record Bet : Type := {
  bet_outcome : string;
  bet_odds : float;
  bet_bookmaker : string
}.

Record Opportunity : Type := {
  opp_event_id : string;
  opp_sport : string;
  opp_event_name : string;
  opp_commence_time : option string;
  opp_roi : float;
  bets : list Bet;
  stakes : list Z
}.

Definition bet_of (outcome_name : string) (entry : Entry) : Bet :=
  {| bet_outcome := outcome_name;
     bet_odds := odds entry;
     bet_bookmaker := bookmaker entry |}.

Definition make_opportunity (event : Event) (roi : float) (legs : list Bet)
    (rounded : list Z) : Opportunity :=
  {| opp_event_id := id event;
     opp_sport := default "Unknown" (sport_title event);
     opp_event_name := str_opt (home_team event) ++ " vs " ++ str_opt (away_team event);
     opp_commence_time := commence_time event;
     opp_roi := roi;
     bets := legs;
     stakes := rounded |}.

Definition group_step (outcomes_map : dict (list Entry)) (entry : Entry)
    : dict (list Entry) :=
  match dict_get outcomes_map (outcome entry) with
  | None => dict_set outcomes_map (outcome entry) [entry]
  | Some entries => dict_set outcomes_map (outcome entry) (entries ++ [entry])%list
  end.

Definition group_by_outcome (parsed_odds : list Entry) : dict (list Entry) :=
  fold_left group_step parsed_odds [].

Fixpoint track_entries (cfg : Settings) (sharp_prices : gmap string SharpPrice)
    (event_id : string) (calls : list (string * Entry))
    : result unit * gmap string SharpPrice :=
  match calls with
  | [] => (Returned tt, sharp_prices)
  | (outcome_name, entry) :: rest =>
      match track_value_opportunity cfg sharp_prices event_id
              (bookmaker entry) outcome_name (odds entry) with
      | (Raised e, after) => (Raised e, after)
      | (Returned _, after) => track_entries cfg after event_id rest
      end
  end.

Definition tracking_calls (outcomes_map : dict (list Entry)) : list (string * Entry) :=
  flat_map (fun item => map (pair (fst item)) (snd item)) outcomes_map.

Definition two_way_candidate (cfg : Settings) (event : Event)
    (outcome_a outcome_b : string) (odds_a_entry odds_b_entry : Entry)
    : result (list Opportunity) :=
  if String.eqb (bookmaker odds_a_entry) (bookmaker odds_b_entry) then Returned []
  else
    '(is_arb, roi) ← detect_two_way_arbitrage (odds odds_a_entry) (odds odds_b_entry);
    if (is_arb : bool) then
      let verdict := apply_safety_filters cfg roi (bookmaker odds_a_entry)
                       (bookmaker odds_b_entry) (default "" (sport_key event)) in
      if fst verdict then
        rounded ← calculate_stakes cfg (of_Q (DEFAULT_TOTAL_INVESTMENT cfg))
                    [odds odds_a_entry; odds odds_b_entry];
        mret [make_opportunity event roi
                [bet_of outcome_a odds_a_entry; bet_of outcome_b odds_b_entry]
                rounded]
      else Returned []
    else Returned [].

Definition three_way_candidate (cfg : Settings) (event : Event)
    (outcome_1 outcome_x outcome_2 : string) (odds_1 odds_x odds_2 : Entry)
    : result (list Opportunity) :=
  if (size (bookies (bookmaker odds_1) (bookmaker odds_x) (bookmaker odds_2)) <? 2)%nat
  then Returned []
  else
    '(is_arb, roi) ← detect_three_way_arbitrage (odds odds_1) (odds odds_x) (odds odds_2);
    if (is_arb : bool) then
      let verdict := apply_safety_filters cfg roi (bookmaker odds_1)
                       (bookmaker odds_2) (default "" (sport_key event)) in
      if fst verdict then
        rounded ← calculate_stakes cfg (of_Q (DEFAULT_TOTAL_INVESTMENT cfg))
                    [odds odds_1; odds odds_x; odds odds_2];
        mret [make_opportunity event roi
                [bet_of outcome_1 odds_1; bet_of outcome_x odds_x; bet_of outcome_2 odds_2]
                rounded]
      else Returned []
    else Returned [].

Definition for_each {A} (xs : list A) (body : A → result (list Opportunity))
    : result (list Opportunity) :=
  chunks ← mapM body xs; mret (concat chunks).

Definition find_arbitrage_opportunities (cfg : Settings)
    (sharp_prices : gmap string SharpPrice) (event : Event) (parsed_odds : list Entry)
    : result (list Opportunity) * gmap string SharpPrice :=
  let outcomes_map := group_by_outcome parsed_odds in
  match track_entries cfg sharp_prices (id event) (tracking_calls outcomes_map) with
  | (Raised e, after) => (Raised e, after)
  | (Returned _, after) =>
      (match outcomes_map with
       | [(outcome_a, entries_a); (outcome_b, entries_b)] =>
           for_each entries_a (fun odds_a_entry =>
             for_each entries_b (fun odds_b_entry =>
               two_way_candidate cfg event outcome_a outcome_b odds_a_entry odds_b_entry))
       | [(outcome_1, entries_1); (outcome_x, entries_x); (outcome_2, entries_2)] =>
           for_each entries_1 (fun odds_1 =>
             for_each entries_x (fun odds_x =>
               for_each entries_2 (fun odds_2 =>
                 three_way_candidate cfg event outcome_1 outcome_x outcome_2
                   odds_1 odds_x odds_2)))
       | _ => Returned []
       end,
       after)
  end.

(** The implied total of the legs of an opportunity, added in the order
    of the legs as the detectors add it. *)
Definition implied_total (legs : list Bet) : float :=
  match map (fun b => div one (bet_odds b)) legs with
  | [] => zero
  | p :: rest => fold_left add rest p
  end.

End B64.

(** ** Closed forms used to state the properties *)

(** The implied probabilities [1 / odds] of a list of odds. *)
Definition inverses (odds_list : list Q) : list Q := map (fun o => 1 / o) odds_list.

(** The raw stake of one leg, as a formula. *)
Definition raw_stake (total_investment inverse_sum odds : Q) : Q :=
  total_investment * (1 / odds) / inverse_sum.

(** The percentage by which [price] lies above [reference]. *)
Definition percent_over (price reference : Q) : Q :=
  (price - reference) / reference * 100.

(** The percentage by which [price] lies below [reference]. *)
Definition percent_under (price reference : Q) : Q :=
  (reference - price) / reference * 100.

(** The bookmakers whose prices the value-bet tracker records: the
    membership test at the head of [track_value_opportunity]. *)
Definition is_drift_sharp (cfg : Settings) (bookmaker : string) : bool :=
  mem (lower (split_head "_" bookmaker)) (map lower (DRIFT_SHARP_BOOKMAKERS cfg)).

(** One call of [track_value_opportunity], as data. *)
Record Observation : Type := {
  ob_event_id : string;
  ob_bookmaker : string;
  ob_outcome : string;
  ob_odds : Q
}.

(** The [sharp_prices] left by a sequence of calls, in order.  A call
    that raises leaves the dictionary as it found it and later calls go
    on from there. *)
Fixpoint sharp_prices_after (cfg : Settings) (sharp_prices : gmap string SharpPrice)
    (calls : list Observation) : gmap string SharpPrice :=
  match calls with
  | [] => sharp_prices
  | c :: rest =>
      sharp_prices_after cfg
        (snd (track_value_opportunity cfg sharp_prices (ob_event_id c)
                (ob_bookmaker c) (ob_outcome c) (ob_odds c)))
        rest
  end.


(** The two-way substring test of the rule database lookup. *)
Definition rule_key_matches (key clean_name : string) : bool :=
  (contains (lower key) (lower clean_name)
   || contains (lower clean_name) (lower key))%bool.

(** [bookie] is a key of [items] and has a previous quote for the
    outcome. *)
Definition tracked_move (prev_odds : dict (dict Q)) (outcome_name : string)
    (items : dict (dict Q)) (bookie : string) : Prop :=
  In bookie (map fst items)
  ∧ ∃ (quotes : dict Q) (v : Q),
      dict_get prev_odds bookie = Some quotes
      ∧ dict_get quotes outcome_name = Some v.

(** The absolute move of a price, in percent of the previous price. *)
Definition percent_move (current previous : Q) : Q :=
  Qabs ((current - previous) / previous) * 100.

(** Every price stored in a cache of per-event price maps is non-zero. *)
Definition nonzero_prices (cache : gmap string (dict Q)) : Prop :=
  ∀ (event_id : string) (prices : dict Q) (outcome_name : string) (v : Q),
    cache !! event_id = Some prices →
    dict_get prices outcome_name = Some v →
    ¬ v == 0.

(** Every stored sharp price is non-zero. *)
Definition nonzero_sharp (sharp_prices : gmap string SharpPrice) : Prop :=
  ∀ (k : string) (stored : SharpPrice),
    sharp_prices !! k = Some stored → ¬ sp_odds stored == 0.

(** The number of distinct outcome names among the quotes of an event. *)
Definition distinct_outcomes (parsed_odds : list Entry) : nat :=
  size (list_to_set (map outcome parsed_odds) : gset string).

(** The implied total of the legs of an opportunity. *)
Definition implied_total (legs : list Bet) : Q :=
  sum (inverses (map bet_odds legs)).

(** What the grouping loop maintains: the keys are distinct and are the
    outcome names seen so far; each list holds quotes of its own outcome
    taken from the input. *)
Definition grouped (seen : list Entry) (outcomes_map : dict (list Entry)) : Prop :=
  NoDup (map fst outcomes_map)
  ∧ (∀ k, In k (map fst outcomes_map) ↔ In k (map outcome seen))
  ∧ (∀ k es e, In (k, es) outcomes_map → In e es → In e seen ∧ outcome e = k).

(** The facts behind one appended opportunity: the legs it was built
    from, the detection that found it, the filters it passed and the
    stakes computed for it. *)
Definition built_from (cfg : Settings) (event : Event) (legs : list Bet)
    (opp : Opportunity) : Prop :=
  ∃ (roi : Q) (rounded : list Q),
    opp = make_opportunity event roi legs rounded
    ∧ Forall (fun b => 0 < bet_odds b) legs
    ∧ implied_total legs < 1
    ∧ roi == (1 / implied_total legs - 1) * 100
    ∧ 0 < roi
    ∧ MIN_ROI_THRESHOLD cfg <= roi ∧ roi <= MAX_ROI_THRESHOLD cfg
    ∧ calculate_stakes cfg (DEFAULT_TOTAL_INVESTMENT cfg) (map bet_odds legs)
      = Returned rounded.

(** ** Sample events *)

(** A three-way market in which one bookmaker quotes two of the legs. *)
Definition shared_leg_event : Event :=
  {| id := "evt1";
     sport_key := Some "soccer_epl";
     sport_title := Some "EPL";
     home_team := Some "Arsenal";
     away_team := Some "Chelsea";
     commence_time := None |}.

Definition shared_leg_odds : list Entry :=
  [ {| bookmaker := "unibet"; outcome := "Arsenal"; odds := 3.5 |};
    {| bookmaker := "unibet"; outcome := "Draw"; odds := 3.5 |};
    {| bookmaker := "pinnacle"; outcome := "Chelsea"; odds := 3 |} ].

(** A two-way market: X quotes outcome A at 2.10, Y quotes B at 2.05. *)
Definition two_way_event : Event :=
  {| id := "evt2";
     sport_key := Some "tennis_atp";
     sport_title := Some "ATP";
     home_team := Some "A";
     away_team := Some "B";
     commence_time := None |}.

Definition two_way_odds : list Entry :=
  [ {| bookmaker := "bookmaker_x"; outcome := "A"; odds := 2.10 |};
    {| bookmaker := "bookmaker_y"; outcome := "B"; odds := 2.05 |} ].

(** Two cycles of a market keyed by "home"/"away": three bookmakers
    drop the home price by 5% and one keeps it. *)
Definition movement_before : dict (dict Q) :=
  [ ("a", [("home", 2); ("away", 2)]);
    ("b", [("home", 2); ("away", 2)]);
    ("c", [("home", 2); ("away", 2)]);
    ("d", [("home", 2); ("away", 2)]) ].

Definition movement_now : dict (dict Q) :=
  [ ("a", [("home", 1.9); ("away", 2)]);
    ("b", [("home", 1.9); ("away", 2)]);
    ("c", [("home", 1.9); ("away", 2)]);
    ("d", [("home", 2); ("away", 2)]) ].

(** * Properties *)

(** ** Facts about the Python primitives *)

Lemma le_true (x y : Q) : le x y = true ↔ x <= y.
Proof. unfold le. apply Qle_bool_iff. Qed.

Lemma le_false (x y : Q) : le x y = false ↔ y < x.
Proof.
  unfold le. split; intros H.
  - apply Qnot_le_lt. intros Hle. apply Qle_bool_iff in Hle. congruence.
  - destruct (Qle_bool x y) eqn:E; [|reflexivity].
    apply Qle_bool_iff in E. exfalso. apply (Qlt_not_le _ _ H E).
Qed.

Lemma lt_true (x y : Q) : lt x y = true ↔ x < y.
Proof. unfold lt. rewrite negb_true_iff. apply le_false. Qed.

Lemma lt_false (x y : Q) : lt x y = false ↔ y <= x.
Proof. unfold lt. rewrite negb_false_iff. apply le_true. Qed.

Lemma gt_true (x y : Q) : gt x y = true ↔ y < x.
Proof. apply lt_true. Qed.

Lemma gt_false (x y : Q) : gt x y = false ↔ x <= y.
Proof. apply lt_false. Qed.

Lemma Qeq_bool_false (x y : Q) : ¬ x == y → Qeq_bool x y = false.
Proof.
  intros H. destruct (Qeq_bool x y) eqn:E; [|reflexivity].
  apply Qeq_bool_iff in E. contradiction.
Qed.

Lemma truediv_Returned (x y : Q) : ¬ y == 0 → truediv x y = Returned (x / y).
Proof. intros H. unfold truediv. now rewrite (Qeq_bool_false _ _ H). Qed.

Lemma truediv_Raised (x y : Q) : y == 0 → truediv x y = Raised ZeroDivisionError.
Proof. intros H. unfold truediv. apply Qeq_bool_iff in H. now rewrite H. Qed.

Lemma bind_Returned {A B} (a : A) (f : A → result B) : (Returned a ≫= f) = f a.
Proof. reflexivity. Qed.

Lemma bind_Raised {A B} (e : exn) (f : A → result B) : (Raised e ≫= f) = Raised e.
Proof. reflexivity. Qed.

Lemma inverse_pos (x : Q) : 0 < x → 0 < 1 / x.
Proof.
  intros H. unfold Qdiv. rewrite Qmult_1_l. now apply Qinv_lt_0_compat.
Qed.

Lemma pos_nonzero (x : Q) : 0 < x → ¬ x == 0.
Proof. intros H E. rewrite E in H. now apply (Qlt_irrefl 0). Qed.

(** ** The two-way test *)

(** C9. Whenever one of the two odds is [<= 0], in particular when both
    are, [detect_two_way_arbitrage] returns normally with the answer
    "no arbitrage, ROI 0": no division is attempted on the way, so no
    [ZeroDivisionError] can be raised. *)
Theorem detect_two_way_arbitrage_invalid_odds (a b : Q) :
  a <= 0 ∨ b <= 0 → detect_two_way_arbitrage a b = Returned (false, 0).
Proof.
  intros H. unfold detect_two_way_arbitrage.
  assert (E : (le a 0 || le b 0)%bool = true).
  { apply orb_true_iff. destruct H as [H|H]; [left|right]; now apply le_true. }
  now rewrite E.
Qed.

Lemma detect_two_way_arbitrage_invalid_odds_witness :
  detect_two_way_arbitrage 0 (-3) = Returned (false, 0).
Proof.
  apply (detect_two_way_arbitrage_invalid_odds 0 (-3)). left. apply Qle_refl.
Defined.

(** The two-way test never raises, whatever the inputs. *)
Lemma detect_two_way_arbitrage_total (a b : Q) :
  ∃ r, detect_two_way_arbitrage a b = Returned r.
Proof.
  unfold detect_two_way_arbitrage.
  destruct (le a 0) eqn:Ea; [eexists; reflexivity|].
  destruct (le b 0) eqn:Eb; [eexists; reflexivity|]. simpl orb. cbv iota.
  apply le_false in Ea, Eb.
  rewrite (truediv_Returned 1 a (pos_nonzero a Ea)), bind_Returned.
  rewrite (truediv_Returned 1 b (pos_nonzero b Eb)), bind_Returned. cbv zeta.
  destruct (Qeq_bool (1 / a + 1 / b) 0) eqn:E0; [eexists; reflexivity|].
  destruct (lt (1 / a + 1 / b) 1); [|eexists; reflexivity].
  apply Qeq_bool_neq in E0.
  rewrite (truediv_Returned 1 _ E0), bind_Returned. eexists; reflexivity.
Qed.

(** ** Stake allocation *)

Lemma fold_left_Qplus_acc (l : list Q) (acc : Q) :
  fold_left Qplus l acc == acc + sum l.
Proof.
  unfold sum. revert acc. induction l as [|x l IH]; intros acc; simpl.
  - lra.
  - rewrite (IH (acc + x)), (IH (0 + x)). lra.
Qed.

Lemma sum_nil : sum [] == 0.
Proof. reflexivity. Qed.

Lemma sum_cons (x : Q) (l : list Q) : sum (x :: l) == x + sum l.
Proof. unfold sum at 1. simpl. rewrite fold_left_Qplus_acc. lra. Qed.

Lemma sum_inverses_nonneg (odds_list : list Q) :
  Forall (fun o => 0 < o) odds_list → 0 <= sum (inverses odds_list).
Proof.
  induction 1 as [|o l Ho _ IH]; simpl.
  - rewrite sum_nil. lra.
  - rewrite sum_cons. pose proof (inverse_pos o Ho). lra.
Qed.

Lemma sum_inverses_pos (odds_list : list Q) :
  odds_list ≠ [] → Forall (fun o => 0 < o) odds_list → 0 < sum (inverses odds_list).
Proof.
  intros Hne Hall. destruct Hall as [|o l Ho Hl]; [congruence|].
  simpl. rewrite sum_cons.
  pose proof (inverse_pos o Ho). pose proof (sum_inverses_nonneg l Hl). lra.
Qed.



Example smart_round_tiers :
  _smart_round 1234 = 1200 ∧ _smart_round 234 = 250 ∧ _smart_round 42 = 40.
Proof. repeat split; reflexivity. Qed.

(** ** The safety filters *)

(** C3. The filters run in the order ceiling, floor, rule check, and the
    first one that fails decides: an ROI above [MAX_ROI_THRESHOLD] is
    always rejected as a palpable error, whatever the floor and whatever
    the bookmakers and the sport; the floor is only consulted below the
    ceiling; and the rule check only decides for an ROI inside the two
    thresholds. *)
Theorem apply_safety_filters_order (cfg : Settings) (roi : Q)
    (bookmaker_a bookmaker_b sport : string) :
  (MAX_ROI_THRESHOLD cfg < roi →
     apply_safety_filters cfg roi bookmaker_a bookmaker_b sport
     = (false, Some (PALPABLE_ERROR roi (MAX_ROI_THRESHOLD cfg))))
  ∧ (roi <= MAX_ROI_THRESHOLD cfg → roi < MIN_ROI_THRESHOLD cfg →
     apply_safety_filters cfg roi bookmaker_a bookmaker_b sport
     = (false, Some (LOW_PROFIT roi (MIN_ROI_THRESHOLD cfg))))
  ∧ (roi <= MAX_ROI_THRESHOLD cfg → MIN_ROI_THRESHOLD cfg <= roi →
     apply_safety_filters cfg roi bookmaker_a bookmaker_b sport
     = match (if ENABLE_RISK_REPORTER cfg
              then rule_mismatch_check cfg bookmaker_a bookmaker_b sport
              else None) with
       | Some reason => (false, Some reason)
       | None => (true, None)
       end).
Proof.
  unfold apply_safety_filters. repeat split.
  - intros H. now rewrite (proj2 (gt_true _ _) H).
  - intros H1 H2. now rewrite (proj2 (gt_false _ _) H1), (proj2 (lt_true _ _) H2).
  - intros H1 H2. rewrite (proj2 (gt_false _ _) H1), (proj2 (lt_false _ _) H2).
    now destruct (ENABLE_RISK_REPORTER cfg).
Qed.

(** The example of the specification: 20% against the shipped ceiling of
    15%, well above the floor, for a basketball pair whose rules clash. *)
Lemma apply_safety_filters_order_witness :
  apply_safety_filters settings 20 "Kwiff" "DraftKings" "basketball_nba"
  = (false, Some (PALPABLE_ERROR 20 15))
  ∧ rule_mismatch_check settings "Kwiff" "DraftKings" "basketball_nba"
    = Some (RULE_MISMATCH "Kwiff" "regulation_only" "DraftKings" "includes_overtime").
Proof.
  split.
  - apply (proj1 (apply_safety_filters_order settings 20 "Kwiff" "DraftKings"
                    "basketball_nba")).
    reflexivity.
  - reflexivity.
Defined.

(** The rule check of the filter chain, on the rules it resolves by exact
    key: for a sport whose lowered key contains "basketball" it rejects
    exactly when both rules are known and differ. *)
Lemma rule_mismatch_check_basketball (cfg : Settings) (a b sport : string) :
  contains "basketball" (lower sport) = true →
  let rule_a := overtime_rule cfg a in
  let rule_b := overtime_rule cfg b in
  (rule_a ≠ rule_b ∧ rule_a ≠ "unknown" ∧ rule_b ≠ "unknown" →
     rule_mismatch_check cfg a b sport = Some (RULE_MISMATCH a rule_a b rule_b))
  ∧ (rule_a = rule_b ∨ rule_a = "unknown" ∨ rule_b = "unknown" →
     rule_mismatch_check cfg a b sport = None).
Proof.
  intros Hs rule_a rule_b. unfold rule_mismatch_check. rewrite Hs.
  fold rule_a rule_b. split.
  - intros (H1 & H2 & H3).
    apply String.eqb_neq in H1, H2, H3. now rewrite H1, H2, H3.
  - intros H.
    destruct (String.eqb rule_a rule_b) eqn:E1; [reflexivity|].
    destruct (String.eqb rule_a "unknown") eqn:E2; [reflexivity|].
    destruct (String.eqb rule_b "unknown") eqn:E3; [reflexivity|].
    apply String.eqb_neq in E1, E2, E3. exfalso. tauto.
Qed.


(** The lookup of the rule database answers "unknown" exactly when no key
    matches the cleaned name in either direction. *)
Lemma first_rule_match_unknown (clean_name : string) (items : dict string) :
  Forall (fun kv => contains (lower (fst kv)) (lower clean_name) = false
                    ∧ contains (lower clean_name) (lower (fst kv)) = false) items →
  first_rule_match clean_name items = "unknown".
Proof.
  induction 1 as [|[key rule] rest [H1 H2] _ IH]; [reflexivity|].
  simpl in *. now rewrite H1, H2.
Qed.

(** C4. The rule check of [apply_safety_filters] does not go through the
    rule database lookup: it reads [BOOKMAKER_OVERTIME_RULES] by the exact
    bookmaker key.  For the provider keys "kwiff" and "draftkings" the
    database lookup resolves two known, different rules, yet the
    basketball candidate passes the filter chain. *)
Theorem rule_filter_bypasses_rule_database :
  _get_settlement_rule settings "kwiff" "basketball_nba" = "regulation_only"
  ∧ _get_settlement_rule settings "draftkings" "basketball_nba" = "includes_overtime"
  ∧ overtime_rule settings "kwiff" = "unknown"
  ∧ overtime_rule settings "draftkings" = "unknown"
  ∧ apply_safety_filters settings 5 "kwiff" "draftkings" "basketball_nba" = (true, None).
Proof. repeat split; reflexivity. Qed.

(** ** The classifier *)

(** C8 (as amended). [get_sharp_bookmaker a b] returns [a] whenever [a]
    classifies as sharp (also when [b] does), otherwise [b] when [b]
    classifies as sharp, and nothing when neither does. *)
Theorem get_sharp_bookmaker_spec (cfg : Settings) (a b : string) :
  (classify_bookmaker cfg a = "sharp" → get_sharp_bookmaker cfg a b = Some a)
  ∧ (classify_bookmaker cfg a ≠ "sharp" → classify_bookmaker cfg b = "sharp" →
     get_sharp_bookmaker cfg a b = Some b)
  ∧ (classify_bookmaker cfg a ≠ "sharp" → classify_bookmaker cfg b ≠ "sharp" →
     get_sharp_bookmaker cfg a b = None).
Proof.
  unfold get_sharp_bookmaker. repeat split.
  - intros ->. reflexivity.
  - intros Ha ->. apply String.eqb_neq in Ha. now rewrite Ha.
  - intros Ha Hb. apply String.eqb_neq in Ha, Hb. now rewrite Ha, Hb.
Qed.

Lemma get_sharp_bookmaker_spec_witness :
  get_sharp_bookmaker settings "unibet_us" "pinnacle" = Some "pinnacle".
Proof.
  apply (proj1 (proj2 (get_sharp_bookmaker_spec settings "unibet_us" "pinnacle"))).
  - discriminate.
  - reflexivity.
Defined.

(** C8 as stated fails when both bookmakers are sharp: the first one is
    returned, not nothing. *)
Lemma get_sharp_bookmaker_both_sharp :
  classify_bookmaker settings "pinnacle" = "sharp"
  ∧ classify_bookmaker settings "betfair" = "sharp"
  ∧ get_sharp_bookmaker settings "pinnacle" "betfair" = Some "pinnacle".
Proof. repeat split; reflexivity. Qed.

(** ** Plain drift tracking *)

(** When no alert is returned the previous-cycle map of the event is
    overwritten with the current one. *)
Lemma track_odds_drift_quiet_overwrites (cfg : Settings)
    (previous_odds after : gmap string (dict Q)) (event_id : string)
    (current_odds : dict Q) :
  ENABLE_DRIFT_TRACKER cfg = true →
  track_odds_drift cfg previous_odds event_id current_odds = (Returned None, after) →
  after !! event_id = Some current_odds.
Proof.
  intros Hen. unfold track_odds_drift. rewrite Hen. simpl negb. cbv iota.
  destruct (match previous_odds !! event_id with
            | Some prev => drift_scan cfg event_id prev current_odds
            | None => Returned None
            end) as [[alert|]|e]; intros H; inversion H; subst.
  apply lookup_insert_eq.
Qed.

(** When an alert is returned the method has left before the assignment:
    the stored maps are exactly those found at entry. *)
Lemma track_odds_drift_alert_keeps_state (cfg : Settings)
    (previous_odds after : gmap string (dict Q)) (event_id : string)
    (current_odds : dict Q) (alert : DriftAlert) :
  track_odds_drift cfg previous_odds event_id current_odds
  = (Returned (Some alert), after) →
  after = previous_odds.
Proof.
  unfold track_odds_drift.
  destruct (negb (ENABLE_DRIFT_TRACKER cfg)); [intros H; now inversion H|].
  destruct (match previous_odds !! event_id with
            | Some prev => drift_scan cfg event_id prev current_odds
            | None => Returned None
            end) as [[a|]|e]; intros H; now inversion H.
Qed.

(** C6. With drift tracking enabled, a call that emits a drift signal
    does not overwrite the stored map: after a move from 2.0 to 2.2 (10%,
    above the 5% threshold) the map kept for the event is still the old
    one, not the [current_odds] of the call. *)
Theorem track_odds_drift_stale_after_alert :
  let previous_odds : gmap string (dict Q) := {[ "evt1" := [("Lakers", 2)] ]} in
  let current_odds : dict Q := [("Lakers", 2.2)] in
  ENABLE_DRIFT_TRACKER settings = true
  ∧ ∃ alert after,
      track_odds_drift settings previous_odds "evt1" current_odds
      = (Returned (Some alert), after)
      ∧ da_previous_odds alert = 2
      ∧ da_current_odds alert = 2.2
      ∧ after !! "evt1" = Some [("Lakers", 2)]
      ∧ after !! "evt1" ≠ Some current_odds.
Proof.
  intros previous_odds current_odds. split; [reflexivity|].
  unfold track_odds_drift, previous_odds.
  rewrite lookup_singleton_eq.
  eexists _, _. split; [reflexivity|].
  rewrite lookup_singleton_eq.
  repeat split; discriminate.
Qed.

(** ** Value-bet tracking *)

(** With the shipped lists a soft bookmaker is never one of the tracked
    sharp ones, so the soft branch is reached. *)
Lemma soft_not_drift_sharp (bookmaker : string) :
  classify_bookmaker settings bookmaker = "soft" →
  is_drift_sharp settings bookmaker = false.
Proof.
  unfold classify_bookmaker, is_drift_sharp.
  generalize (lower (split_head "_" bookmaker)). intros c.
  cbn [settings sharps softs SHARP_BOOKMAKERS SOFT_BOOKMAKERS
       DRIFT_SHARP_BOOKMAKERS mem existsb map].
  change (lower "pinnacle") with "pinnacle".
  change (lower "betfair") with "betfair".
  destruct (String.eqb c "pinnacle"); [discriminate|].
  destruct (String.eqb c "betfair"); [discriminate|].
  reflexivity.
Qed.

(** The soft branch never touches the stored prices. *)
Lemma track_value_opportunity_soft_frame (sharp_prices : gmap string SharpPrice)
    (event_id bookmaker outcome : string) (current_odds : Q) :
  classify_bookmaker settings bookmaker = "soft" →
  snd (track_value_opportunity settings sharp_prices event_id bookmaker outcome
         current_odds) = sharp_prices.
Proof.
  intros Hc. unfold track_value_opportunity.
  fold (is_drift_sharp settings bookmaker).
  rewrite (soft_not_drift_sharp _ Hc), Hc. simpl String.eqb. cbv iota.
  destruct (sharp_prices !! event_outcome_key event_id outcome) as [stored|];
    [|reflexivity].
  destruct (truediv _ _); [|reflexivity].
  destruct (gt _ _); reflexivity.
Qed.

(** The scenario of the specification: the sharp price goes 1.90 → 1.80
    (a 5.3% drop, so the consensus becomes 1.80) while a soft bookmaker
    still quotes 1.90, 5.6% above it. *)
Example value_bet_scenario :
  let calls := [ {| ob_event_id := "evt1"; ob_bookmaker := "pinnacle";
                    ob_outcome := "Lakers"; ob_odds := 1.90 |};
                 {| ob_event_id := "evt1"; ob_bookmaker := "pinnacle";
                    ob_outcome := "Lakers"; ob_odds := 1.80 |} ] in
  fst (track_value_opportunity settings (sharp_prices_after settings ∅ calls)
         "evt1" "unibet_us" "Lakers" 1.90)
  = Returned (Some {| vb_event_id := "evt1";
                      vb_outcome := "Lakers";
                      soft_bookmaker := "unibet_us";
                      soft_odds := 1.90;
                      sharp_bookmaker := "pinnacle";
                      sharp_odds := 1.80;
                      value_gap := percent_over 1.90 1.80 |}).
Proof. vm_compute. reflexivity. Qed.

(** ** The stored sharp consensus *)

(** One call, seen from an arbitrary key of [sharp_prices]: an entry is
    never removed; it changes only at the key of the call, for a tracked
    bookmaker, to a price that is lower by more than 3%. *)
Lemma track_value_opportunity_step (cfg : Settings)
    (sharp_prices : gmap string SharpPrice)
    (event_id bookmaker outcome : string) (current_odds : Q)
    (k : string) (old : SharpPrice) :
  sharp_prices !! k = Some old →
  ∃ new : SharpPrice,
    snd (track_value_opportunity cfg sharp_prices event_id bookmaker outcome
           current_odds) !! k = Some new
    ∧ (new = old
       ∨ (k = event_outcome_key event_id outcome
          ∧ is_drift_sharp cfg bookmaker = true
          ∧ new = {| sp_bookmaker := bookmaker; sp_odds := current_odds |}
          ∧ current_odds < sp_odds old
          ∧ 3 < percent_under current_odds (sp_odds old))).
Proof.
  intros Hk. unfold track_value_opportunity.
  fold (is_drift_sharp cfg bookmaker).
  destruct (is_drift_sharp cfg bookmaker) eqn:Ed.
  - destruct (sharp_prices !! event_outcome_key event_id outcome) as [stored|] eqn:Es.
    + destruct (lt current_odds (sp_odds stored)) eqn:El;
        [|exists old; split; [exact Hk|now left]].
      unfold truediv.
      destruct (Qeq_bool (sp_odds stored) 0); [exists old; split; [exact Hk|now left]|].
      destruct (gt _ _) eqn:Eg; [|exists old; split; [exact Hk|now left]].
      simpl snd.
      destruct (decide (event_outcome_key event_id outcome = k)) as [<-|Hne].
      * rewrite lookup_insert_eq. eexists. split; [reflexivity|]. right.
        assert (stored = old) as -> by congruence.
        apply lt_true in El. apply gt_true in Eg. auto.
      * rewrite lookup_insert_ne by exact Hne. exists old. split; [exact Hk|now left].
    + simpl snd. rewrite lookup_insert_ne by congruence.
      exists old. split; [exact Hk|now left].
  - destruct (String.eqb (classify_bookmaker cfg bookmaker) "soft");
      [|exists old; split; [exact Hk|now left]].
    destruct (sharp_prices !! event_outcome_key event_id outcome) as [stored|];
      [|exists old; split; [exact Hk|now left]].
    destruct (truediv _ _); [|exists old; split; [exact Hk|now left]].
    destruct (gt _ _); exists old; (split; [exact Hk|now left]).
Qed.

(** The first observation of a key: it is stored exactly when the
    bookmaker is one of the tracked sharp ones. *)
Lemma track_value_opportunity_first (cfg : Settings)
    (sharp_prices : gmap string SharpPrice)
    (event_id bookmaker outcome : string) (current_odds : Q) :
  sharp_prices !! event_outcome_key event_id outcome = None →
  snd (track_value_opportunity cfg sharp_prices event_id bookmaker outcome
         current_odds) !! event_outcome_key event_id outcome
  = if is_drift_sharp cfg bookmaker
    then Some {| sp_bookmaker := bookmaker; sp_odds := current_odds |}
    else None.
Proof.
  intros Hk. unfold track_value_opportunity.
  fold (is_drift_sharp cfg bookmaker).
  destruct (is_drift_sharp cfg bookmaker).
  - rewrite Hk. simpl snd. apply lookup_insert_eq.
  - destruct (String.eqb (classify_bookmaker cfg bookmaker) "soft"); [|exact Hk].
    rewrite Hk. exact Hk.
Qed.

(** C10 (as amended). For every key of [sharp_prices]: (1) across any
    sequence of calls a stored price stays stored and never increases;
    (2) a key with no stored price receives one from the first call by a
    bookmaker of [DRIFT_SHARP_BOOKMAKERS], and from no other bookmaker;
    (3) a stored entry is replaced by a call only when that call is for
    the same key, comes from such a bookmaker, and quotes a price lower
    than the stored one by more than 3%; a higher or equal price leaves
    the entry as it was. *)
Theorem sharp_consensus_non_increasing (cfg : Settings) :
  (∀ (calls : list Observation) (sharp_prices : gmap string SharpPrice)
     (k : string) (old : SharpPrice),
     sharp_prices !! k = Some old →
     ∃ new : SharpPrice,
       sharp_prices_after cfg sharp_prices calls !! k = Some new
       ∧ sp_odds new <= sp_odds old)
  ∧ (∀ (sharp_prices : gmap string SharpPrice) (c : Observation),
     sharp_prices !! event_outcome_key (ob_event_id c) (ob_outcome c) = None →
     sharp_prices_after cfg sharp_prices [c]
       !! event_outcome_key (ob_event_id c) (ob_outcome c)
     = if is_drift_sharp cfg (ob_bookmaker c)
       then Some {| sp_bookmaker := ob_bookmaker c; sp_odds := ob_odds c |}
       else None)
  ∧ (∀ (sharp_prices : gmap string SharpPrice) (c : Observation)
       (k : string) (old new : SharpPrice),
     sharp_prices !! k = Some old →
     sharp_prices_after cfg sharp_prices [c] !! k = Some new →
     new ≠ old →
     k = event_outcome_key (ob_event_id c) (ob_outcome c)
     ∧ is_drift_sharp cfg (ob_bookmaker c) = true
     ∧ sp_odds new = ob_odds c
     ∧ ob_odds c < sp_odds old
     ∧ 3 < percent_under (ob_odds c) (sp_odds old)).
Proof.
  split; [|split].
  - induction calls as [|c rest IH]; intros sharp_prices k old Hk.
    + exists old. split; [exact Hk|apply Qle_refl].
    + destruct (track_value_opportunity_step cfg sharp_prices (ob_event_id c)
                  (ob_bookmaker c) (ob_outcome c) (ob_odds c) k old Hk)
        as (mid & Hmid & Hcase).
      destruct (IH _ k mid Hmid) as (new & Hnew & Hle).
      exists new. split; [exact Hnew|].
      destruct Hcase as [->|(_ & _ & -> & Hlt & _)]; [exact Hle|].
      simpl in Hle. apply Qlt_le_weak in Hlt. eapply Qle_trans; eassumption.
  - intros sharp_prices c Hnone. simpl.
    now apply track_value_opportunity_first.
  - intros sharp_prices c k old new Hk Hnew Hne. simpl in Hnew.
    destruct (track_value_opportunity_step cfg sharp_prices (ob_event_id c)
                (ob_bookmaker c) (ob_outcome c) (ob_odds c) k old Hk)
      as (new' & Hnew' & Hcase).
    assert (new' = new) as -> by congruence.
    destruct Hcase as [->|(Hkey & Hd & -> & Hlt & Hdrop)]; [congruence|].
    repeat split; assumption.
Qed.

Lemma sharp_consensus_non_increasing_witness :
  ∃ new : SharpPrice,
    sharp_prices_after settings
      {[ "evt1:Lakers" := {| sp_bookmaker := "pinnacle"; sp_odds := 1.90 |} ]}
      [ {| ob_event_id := "evt1"; ob_bookmaker := "pinnacle";
           ob_outcome := "Lakers"; ob_odds := 1.80 |};
        {| ob_event_id := "evt1"; ob_bookmaker := "betfair";
           ob_outcome := "Lakers"; ob_odds := 2.50 |} ]
      !! "evt1:Lakers" = Some new
    ∧ sp_odds new <= 1.90.
Proof.
  apply (proj1 (sharp_consensus_non_increasing settings) _ _ "evt1:Lakers"
           {| sp_bookmaker := "pinnacle"; sp_odds := 1.90 |}).
  apply lookup_singleton_eq.
Defined.

(** C10 as stated fails on "set by the first sharp-tier observation":
    bet365 classifies as sharp, but it is not one of the tracked
    bookmakers, and its price is not stored. *)
Lemma sharp_tier_observation_not_stored :
  classify_bookmaker settings "bet365" = "sharp"
  ∧ sharp_prices_after settings ∅
      [ {| ob_event_id := "evt1"; ob_bookmaker := "bet365";
           ob_outcome := "Lakers"; ob_odds := 2 |} ] !! "evt1:Lakers" = None.
Proof. split; reflexivity. Qed.

(** For a positive stored price, "lower by more than 3%" reads as usual. *)
Lemma percent_under_gt (price reference threshold : Q) :
  0 < reference →
  (threshold < percent_under price reference
   ↔ price < reference * (1 - threshold / 100)).
Proof.
  intros Href. unfold percent_under.
  assert (E : (reference - price) / reference * 100
              == (reference * (1 - threshold / 100) - price) * (100 / reference)
                 + threshold).
  { field. now apply pos_nonzero. }
  rewrite E.
  assert (Hk : 0 < 100 / reference).
  { apply Qlt_shift_div_l; [exact Href|]. lra. }
  split; intros H.
  - destruct (Qlt_le_dec price (reference * (1 - threshold / 100))) as [|Hle];
      [assumption|].
    exfalso.
    assert (Hn : (reference * (1 - threshold / 100) - price) * (100 / reference) <= 0).
    { rewrite Qmult_comm. rewrite <- (Qmult_0_r (100 / reference)).
      apply Qmult_le_l; [exact Hk|]. lra. }
    lra.
  - assert (0 < (reference * (1 - threshold / 100) - price) * (100 / reference)).
    { apply Qmult_lt_0_compat; [lra|exact Hk]. }
    lra.
Qed.

(** ** Scanning one event *)

Lemma mapM_Returned {A B} (f : A → result B) (xs : list A) (ys : list B) :
  mapM f xs = Returned ys → Forall2 (fun x y => f x = Returned y) xs ys.
Proof.
  revert ys. induction xs as [|x xs IH]; intros ys; simpl.
  - intros H. inversion H. constructor.
  - destruct (f x) as [y|e] eqn:Ef; [|discriminate].
    rewrite bind_Returned.
    destruct (mapM f xs) as [ys'|e]; [|discriminate].
    rewrite bind_Returned. intros H. inversion H; subst.
    constructor; [exact Ef|]. now apply IH.
Qed.

(** What a loop appended came from one of its iterations. *)
Lemma for_each_In {A} (xs : list A) (body : A → result (list Opportunity))
    (opps : list Opportunity) (opp : Opportunity) :
  for_each xs body = Returned opps →
  In opp opps →
  ∃ (x : A) (chunk : list Opportunity),
    In x xs ∧ body x = Returned chunk ∧ In opp chunk.
Proof.
  unfold for_each.
  destruct (mapM body xs) as [chunks|e] eqn:Em; [|discriminate].
  rewrite bind_Returned. intros H Hin. inversion H; subst. clear H.
  apply in_concat in Hin. destruct Hin as (chunk & Hchunk & Hopp).
  apply mapM_Returned in Em.
  clear -Em Hchunk Hopp.
  induction Em as [|x y xs ys Hxy _ IH]; [contradiction|].
  destruct Hchunk as [->|Hchunk].
  - exists x, chunk. split; [now left|]. split; assumption.
  - destruct (IH Hchunk) as (x' & chunk' & Hx' & Hb & Ho).
    exists x', chunk'. split; [now right|]. split; assumption.
Qed.

Lemma bookies_same (b : string) : size (bookies b b b) = 1%nat.
Proof.
  unfold bookies. rewrite !union_idemp_L. apply size_singleton.
Qed.

Lemma two_way_candidate_bets (cfg : Settings) (event : Event)
    (outcome_a outcome_b : string) (a b : Entry)
    (chunk : list Opportunity) (opp : Opportunity) :
  two_way_candidate cfg event outcome_a outcome_b a b = Returned chunk →
  In opp chunk →
  bets opp = [bet_of outcome_a a; bet_of outcome_b b]
  ∧ bookmaker a ≠ bookmaker b.
Proof.
  unfold two_way_candidate.
  destruct (String.eqb (bookmaker a) (bookmaker b)) eqn:Eb.
  { intros H; inversion H; subst. contradiction. }
  apply String.eqb_neq in Eb.
  destruct (detect_two_way_arbitrage (odds a) (odds b)) as [[is_arb roi]|e];
    [|discriminate].
  rewrite bind_Returned.
  destruct is_arb; [|intros H; inversion H; subst; contradiction].
  destruct (fst (apply_safety_filters _ _ _ _ _));
    [|intros H; inversion H; subst; contradiction].
  destruct (calculate_stakes _ _ _) as [rounded|e]; [|discriminate].
  rewrite bind_Returned. intros H; inversion H; subst. clear H.
  intros [<-|[]]. split; [reflexivity|exact Eb].
Qed.

Lemma three_way_candidate_bets (cfg : Settings) (event : Event)
    (outcome_1 outcome_x outcome_2 : string) (e1 ex e2 : Entry)
    (chunk : list Opportunity) (opp : Opportunity) :
  three_way_candidate cfg event outcome_1 outcome_x outcome_2 e1 ex e2
  = Returned chunk →
  In opp chunk →
  bets opp = [bet_of outcome_1 e1; bet_of outcome_x ex; bet_of outcome_2 e2]
  ∧ ¬ (bookmaker e1 = bookmaker ex ∧ bookmaker ex = bookmaker e2).
Proof.
  unfold three_way_candidate.
  destruct (size (bookies (bookmaker e1) (bookmaker ex) (bookmaker e2)) <? 2)%nat
    eqn:Es.
  { intros H; inversion H; subst. contradiction. }
  apply Nat.ltb_ge in Es.
  destruct (detect_three_way_arbitrage _ _ _) as [[is_arb roi]|e]; [|discriminate].
  rewrite bind_Returned.
  destruct is_arb; [|intros H; inversion H; subst; contradiction].
  destruct (fst (apply_safety_filters _ _ _ _ _));
    [|intros H; inversion H; subst; contradiction].
  destruct (calculate_stakes _ _ _) as [rounded|e]; [|discriminate].
  rewrite bind_Returned. intros H; inversion H; subst. clear H.
  intros [<-|[]]. split; [reflexivity|].
  intros [H1 H2]. rewrite <- H2, <- H1, bookies_same in Es. lia.
Qed.

(** C5 (as amended). Every opportunity returned by
    [find_arbitrage_opportunities] has either two bets from two different
    bookmakers, or three bets that are not all from one bookmaker (two of
    the three legs may share one). *)
Theorem find_arbitrage_opportunities_bookmakers (cfg : Settings)
    (sharp_prices after : gmap string SharpPrice) (event : Event)
    (parsed_odds : list Entry) (opps : list Opportunity) (opp : Opportunity) :
  find_arbitrage_opportunities cfg sharp_prices event parsed_odds
  = (Returned opps, after) →
  In opp opps →
  (∃ b1 b2 : Bet,
     bets opp = [b1; b2] ∧ bet_bookmaker b1 ≠ bet_bookmaker b2)
  ∨ (∃ b1 bx b2 : Bet,
       bets opp = [b1; bx; b2]
       ∧ ¬ (bet_bookmaker b1 = bet_bookmaker bx
            ∧ bet_bookmaker bx = bet_bookmaker b2)).
Proof.
  unfold find_arbitrage_opportunities.
  destruct (track_entries _ _ _ _) as [[[]|e] st]; [|discriminate].
  destruct (group_by_outcome parsed_odds) as [|[oa ea] [|[ob eb] [|[oc ec] [|? ?]]]];
    intros H; inversion H as [[Hloop Hst]]; clear H; intros Hin;
    try (subst opps; contradiction).
  - left.
    destruct (for_each_In _ _ _ _ Hloop Hin) as (a & chunk_a & _ & Ha & Hin_a).
    destruct (for_each_In _ _ _ _ Ha Hin_a) as (b & chunk_b & _ & Hb & Hin_b).
    destruct (two_way_candidate_bets _ _ _ _ _ _ _ _ Hb Hin_b) as [Hbets Hne].
    eexists _, _. split; [exact Hbets|exact Hne].
  - right.
    destruct (for_each_In _ _ _ _ Hloop Hin) as (e1 & chunk_1 & _ & H1 & Hin_1).
    destruct (for_each_In _ _ _ _ H1 Hin_1) as (ex & chunk_x & _ & Hx & Hin_x).
    destruct (for_each_In _ _ _ _ Hx Hin_x) as (e2 & chunk_2 & _ & H2 & Hin_2).
    destruct (three_way_candidate_bets _ _ _ _ _ _ _ _ _ _ H2 Hin_2) as [Hbets Hne].
    eexists _, _, _. split; [exact Hbets|exact Hne].
Qed.

(** C5 as stated fails on three-way markets: with Arsenal and the draw
    both quoted by unibet and Chelsea by pinnacle (implied total 0.905,
    ROI 10.5%), the opportunity is returned with unibet on two legs. *)
Lemma three_way_shared_bookmaker :
  ∃ (opp : Opportunity) (after : gmap string SharpPrice),
    find_arbitrage_opportunities settings ∅ shared_leg_event shared_leg_odds
    = (Returned [opp], after)
    ∧ map bet_bookmaker (bets opp) = ["unibet"; "unibet"; "pinnacle"].
Proof.
  eexists _, _. split; [vm_compute; reflexivity|]. reflexivity.
Qed.

(** The end-to-end scenario of the specification: X quotes outcome A at
    2.10, Y quotes outcome B at 2.05; one opportunity, two bookmakers. *)
Lemma find_arbitrage_opportunities_bookmakers_witness :
  ∃ (opp : Opportunity) (after : gmap string SharpPrice),
    find_arbitrage_opportunities settings ∅ two_way_event two_way_odds
    = (Returned [opp], after)
    ∧ ((∃ b1 b2 : Bet,
          bets opp = [b1; b2] ∧ bet_bookmaker b1 ≠ bet_bookmaker b2)
       ∨ (∃ b1 bx b2 : Bet,
            bets opp = [b1; bx; b2]
            ∧ ¬ (bet_bookmaker b1 = bet_bookmaker bx
                 ∧ bet_bookmaker bx = bet_bookmaker b2))).
Proof.
  eexists _, _. split; [vm_compute; reflexivity|].
  eapply (find_arbitrage_opportunities_bookmakers settings ∅ _ two_way_event
            two_way_odds).
  - vm_compute. reflexivity.
  - left. reflexivity.
Defined.

Example two_way_scenario_roi :
  ∃ (opp : Opportunity) (after : gmap string SharpPrice),
    find_arbitrage_opportunities settings ∅ two_way_event two_way_odds
    = (Returned [opp], after)
    ∧ 3.73 < opp_roi opp ∧ opp_roi opp < 3.74
    ∧ map bet_bookmaker (bets opp) = ["bookmaker_x"; "bookmaker_y"].
Proof.
  eexists _, _. split; [vm_compute; reflexivity|].
  repeat split.
Qed.

(** * Further properties *)

(** ** Rounding *)













(** ** Rounded stakes *)

Lemma mapM_truediv_nonzero (odds_list : list Q) :
  Forall (fun o => ¬ o == 0) odds_list →
  mapM (truediv 1) odds_list = Returned (inverses odds_list).
Proof.
  induction 1 as [|o l Ho _ IH]; [reflexivity|].
  simpl. rewrite (truediv_Returned 1 o Ho), bind_Returned, IH. reflexivity.
Qed.

Lemma stake_for_nonzero (total s o : Q) :
  ¬ o == 0 → ¬ s == 0 → stake_for total s o = Returned (raw_stake total s o).
Proof.
  intros Ho Hs. unfold stake_for.
  rewrite (truediv_Returned 1 o Ho), bind_Returned.
  now rewrite (truediv_Returned _ s Hs).
Qed.

(** What [calculate_stakes] returns when no division fails. *)
Lemma calculate_stakes_closed_form (cfg : Settings) (total_investment : Q)
    (odds_list : list Q) :
  Forall (fun o => ¬ o == 0) odds_list →
  ¬ sum (inverses odds_list) == 0 →
  calculate_stakes cfg total_investment odds_list
  = Returned (map (fun o => rounded_stake cfg
                              (raw_stake total_investment
                                 (sum (inverses odds_list)) o))
                odds_list).
Proof.
  intros Hnz Hs. unfold calculate_stakes, inverse_odds_sum.
  rewrite (mapM_truediv_nonzero _ Hnz), !bind_Returned.
  revert Hs. generalize (sum (inverses odds_list)). intros s Hs0.
  induction Hnz as [|o l Ho _ IH]; [reflexivity|].
  cbn [mapM map]. rewrite (stake_for_nonzero _ _ _ Ho Hs0), !bind_Returned, IH.
  reflexivity.
Qed.




(** ** Detection in the exact reading *)

Lemma roi_positive (implied_total : Q) :
  0 < implied_total → implied_total < 1 → 0 < (1 / implied_total - 1) * 100.
Proof.
  intros H0 H1.
  assert (H : 1 < 1 / implied_total).
  { apply Qlt_shift_div_l; [exact H0|]. lra. }
  lra.
Qed.

Lemma detect_two_way_cases (a b : Q) :
  ∃ (is_arb : bool) (roi : Q),
    detect_two_way_arbitrage a b = Returned (is_arb, roi)
    ∧ (is_arb = true ↔ 0 < a ∧ 0 < b ∧ 1 / a + 1 / b < 1)
    ∧ roi = (if is_arb then (1 / (1 / a + 1 / b) - 1) * 100 else 0)
    ∧ (is_arb = true → 0 < roi).
Proof.
  unfold detect_two_way_arbitrage.
  destruct (le a 0) eqn:Ea.
  { apply le_true in Ea. exists false, 0. repeat split; try discriminate.
    intros (H & _). exfalso. lra. }
  destruct (le b 0) eqn:Eb.
  { apply le_true in Eb. exists false, 0. repeat split; try discriminate.
    intros (_ & H & _). exfalso. lra. }
  apply le_false in Ea, Eb. simpl orb. cbv iota.
  pose proof (inverse_pos a Ea) as Hia. pose proof (inverse_pos b Eb) as Hib.
  assert (Hsum : 0 < 1 / a + 1 / b) by lra.
  rewrite (truediv_Returned 1 a (pos_nonzero a Ea)), bind_Returned.
  rewrite (truediv_Returned 1 b (pos_nonzero b Eb)), bind_Returned. cbv zeta.
  rewrite (Qeq_bool_false _ 0 (pos_nonzero _ Hsum)).
  destruct (lt (1 / a + 1 / b) 1) eqn:E.
  - apply lt_true in E.
    rewrite (truediv_Returned 1 _ (pos_nonzero _ Hsum)), bind_Returned.
    eexists true, _. split; [reflexivity|]. split; [tauto|]. split; [reflexivity|].
    intros _. now apply roi_positive.
  - apply lt_false in E. exists false, 0.
    split; [reflexivity|]. split; [|split; [reflexivity|discriminate]].
    split; [discriminate|]. intros (_ & _ & H). exfalso. lra.
Qed.

Lemma detect_three_way_cases (odds_1 odds_x odds_2 : Q) :
  ∃ (is_arb : bool) (roi : Q),
    detect_three_way_arbitrage odds_1 odds_x odds_2 = Returned (is_arb, roi)
    ∧ (is_arb = true
       ↔ 0 < odds_1 ∧ 0 < odds_x ∧ 0 < odds_2
         ∧ 1 / odds_1 + 1 / odds_x + 1 / odds_2 < 1)
    ∧ roi = (if is_arb
             then (1 / (1 / odds_1 + 1 / odds_x + 1 / odds_2) - 1) * 100
             else 0)
    ∧ (is_arb = true → 0 < roi).
Proof.
  unfold detect_three_way_arbitrage.
  destruct (le odds_1 0) eqn:E1.
  { apply le_true in E1. exists false, 0. repeat split; try discriminate.
    intros (H & _). exfalso. lra. }
  destruct (le odds_x 0) eqn:Ex.
  { apply le_true in Ex. exists false, 0. repeat split; try discriminate.
    intros (_ & H & _). exfalso. lra. }
  destruct (le odds_2 0) eqn:E2.
  { apply le_true in E2. exists false, 0. repeat split; try discriminate.
    intros (_ & _ & H & _). exfalso. lra. }
  apply le_false in E1, Ex, E2. simpl orb. cbv iota.
  pose proof (inverse_pos _ E1) as Hi1. pose proof (inverse_pos _ Ex) as Hix.
  pose proof (inverse_pos _ E2) as Hi2.
  assert (Hsum : 0 < 1 / odds_1 + 1 / odds_x + 1 / odds_2) by lra.
  rewrite (truediv_Returned 1 _ (pos_nonzero _ E1)), bind_Returned.
  rewrite (truediv_Returned 1 _ (pos_nonzero _ Ex)), bind_Returned.
  rewrite (truediv_Returned 1 _ (pos_nonzero _ E2)), bind_Returned. cbv zeta.
  rewrite (Qeq_bool_false _ 0 (pos_nonzero _ Hsum)).
  destruct (lt (1 / odds_1 + 1 / odds_x + 1 / odds_2) 1) eqn:E.
  - apply lt_true in E.
    rewrite (truediv_Returned 1 _ (pos_nonzero _ Hsum)), bind_Returned.
    eexists true, _. split; [reflexivity|]. split; [tauto|]. split; [reflexivity|].
    intros _. now apply roi_positive.
  - apply lt_false in E. exists false, 0.
    split; [reflexivity|]. split; [|split; [reflexivity|discriminate]].
    split; [discriminate|]. intros (_ & _ & _ & H). exfalso. lra.
Qed.

(** ** The verdict of the safety filters *)

Lemma rule_mismatch_check_sym (cfg : Settings) (a b sport : string) :
  is_Some (rule_mismatch_check cfg a b sport)
  ↔ is_Some (rule_mismatch_check cfg b a sport).
Proof.
  unfold rule_mismatch_check.
  destruct (contains "basketball" (lower sport)); [|tauto].
  rewrite (String.eqb_sym (overtime_rule cfg b) (overtime_rule cfg a)).
  destruct (String.eqb (overtime_rule cfg a) (overtime_rule cfg b));
    destruct (String.eqb (overtime_rule cfg a) "unknown");
    destruct (String.eqb (overtime_rule cfg b) "unknown"); simpl;
    split; intros [x H]; try discriminate; eexists; reflexivity.
Qed.



(** X8. Whether a candidate passes [apply_safety_filters] does not depend
    on the order in which the two bookmakers are given. *)
Theorem apply_safety_filters_symmetric (cfg : Settings) (roi : Q)
    (bookmaker_a bookmaker_b sport : string) :
  fst (apply_safety_filters cfg roi bookmaker_a bookmaker_b sport)
  = fst (apply_safety_filters cfg roi bookmaker_b bookmaker_a sport).
Proof.
  unfold apply_safety_filters.
  destruct (gt roi (MAX_ROI_THRESHOLD cfg)); [reflexivity|].
  destruct (lt roi (MIN_ROI_THRESHOLD cfg)); [reflexivity|].
  destruct (ENABLE_RISK_REPORTER cfg); [|reflexivity].
  pose proof (rule_mismatch_check_sym cfg bookmaker_a bookmaker_b sport) as Hs.
  destruct (rule_mismatch_check cfg bookmaker_a bookmaker_b sport) as [r1|];
    destruct (rule_mismatch_check cfg bookmaker_b bookmaker_a sport) as [r2|];
    try reflexivity; exfalso.
  - destruct (proj1 Hs (ex_intro _ r1 eq_refl)). discriminate.
  - destruct (proj2 Hs (ex_intro _ r2 eq_refl)). discriminate.
Qed.

(** ** Cleaning bookmaker names *)

Lemma lower_ascii_underscore (c : ascii) :
  Ascii.eqb (lower_ascii c) "_" = Ascii.eqb c "_".
Proof.
  destruct c as [[] [] [] [] [] [] [] []]; reflexivity.
Qed.

Lemma lower_split_head (s : string) :
  lower (split_head "_" s) = split_head "_" (lower s).
Proof.
  induction s as [|c r IH]; [reflexivity|].
  simpl. rewrite lower_ascii_underscore.
  destruct (Ascii.eqb c "_"); [reflexivity|]. simpl. now rewrite IH.
Qed.

Lemma split_head_suffix (name region : string) :
  contains "_" name = false →
  split_head "_" (name ++ "_" ++ region) = name.
Proof.
  induction name as [|c r IH]; intros H; [reflexivity|].
  simpl in H. simpl.
  destruct (Ascii.eqb c "_") eqn:Ec.
  - apply Ascii.eqb_eq in Ec. subst c. simpl in H.
    destruct r; discriminate.
  - f_equal. apply IH.
    destruct (contains "_" r) eqn:Er; [|reflexivity].
    rewrite orb_true_r in H. discriminate.
Qed.

Lemma split_head_id (name : string) :
  contains "_" name = false → split_head "_" name = name.
Proof.
  induction name as [|c r IH]; intros H; [reflexivity|].
  simpl in H. simpl.
  destruct (Ascii.eqb c "_") eqn:Ec.
  - apply Ascii.eqb_eq in Ec. subst c. simpl in H. destruct r; discriminate.
  - f_equal. apply IH. destruct (contains "_" r); [|reflexivity].
    rewrite orb_true_r in H. discriminate.
Qed.

Lemma first_rule_match_lower (a b : string) (items : dict string) :
  lower a = lower b → first_rule_match a items = first_rule_match b items.
Proof.
  intros E. induction items as [|[key rule] rest IH]; [reflexivity|].
  simpl. now rewrite E, IH.
Qed.

(** X9. The rule database lookup ignores letter case, ignores its sport
    argument, and ignores a region suffix: a name without underscore
    resolves to the same rule with any ["_region"] appended. *)
Theorem get_settlement_rule_insensitive (cfg : Settings)
    (bookmaker other region sport sport' : string) :
  (lower bookmaker = lower other →
     _get_settlement_rule cfg bookmaker sport = _get_settlement_rule cfg other sport')
  ∧ (contains "_" bookmaker = false →
     _get_settlement_rule cfg (bookmaker ++ "_" ++ region) sport
     = _get_settlement_rule cfg bookmaker sport').
Proof.
  unfold _get_settlement_rule. split.
  - intros E. apply first_rule_match_lower.
    now rewrite !lower_split_head, E.
  - intros H. rewrite (split_head_suffix _ _ H).
    now rewrite (split_head_id _ H).
Qed.

Lemma get_settlement_rule_insensitive_witness :
  _get_settlement_rule settings ("DraftKings" ++ "_" ++ "us") "basketball_nba"
  = _get_settlement_rule settings "DraftKings" "soccer_epl".
Proof.
  apply (proj2 (get_settlement_rule_insensitive settings "DraftKings" "" "us"
                  "basketball_nba" "soccer_epl")).
  reflexivity.
Defined.

(** X10. Classification ignores letter case and a region suffix. *)
Theorem classify_bookmaker_insensitive (cfg : Settings)
    (bookmaker other region : string) :
  (lower bookmaker = lower other →
     classify_bookmaker cfg bookmaker = classify_bookmaker cfg other)
  ∧ (contains "_" bookmaker = false →
     classify_bookmaker cfg (bookmaker ++ "_" ++ region)
     = classify_bookmaker cfg bookmaker).
Proof.
  unfold classify_bookmaker. split.
  - intros E. now rewrite !lower_split_head, E.
  - intros H. now rewrite (split_head_suffix _ _ H), (split_head_id _ H).
Qed.

Lemma classify_bookmaker_insensitive_witness :
  classify_bookmaker settings ("unibet" ++ "_" ++ "us")
  = classify_bookmaker settings "unibet".
Proof.
  apply (proj2 (classify_bookmaker_insensitive settings "unibet" "" "us")).
  reflexivity.
Defined.

(** ** The rule database and the risk status *)

(** X11. The rule database lookup answers with the rule of the first key,
    in table order, that contains the cleaned name or is contained in it
    (ignoring case), and with "unknown" when no key does. *)
Theorem settlement_rule_first_match (cfg : Settings) (bookmaker sport : string) :
  let clean_name := split_head "_" bookmaker in
  (Forall (fun kv => rule_key_matches (fst kv) clean_name = false)
     (BOOKMAKER_OVERTIME_RULES cfg) →
   _get_settlement_rule cfg bookmaker sport = "unknown")
  ∧ (∀ (before after : dict string) (key rule : string),
       BOOKMAKER_OVERTIME_RULES cfg = (before ++ (key, rule) :: after)%list →
       Forall (fun kv => rule_key_matches (fst kv) clean_name = false) before →
       rule_key_matches key clean_name = true →
       _get_settlement_rule cfg bookmaker sport = rule).
Proof.
  intros clean_name. unfold _get_settlement_rule. fold clean_name.
  generalize (BOOKMAKER_OVERTIME_RULES cfg). intros table. split.
  - induction 1 as [|[key rule] rest Hk _ IH]; [reflexivity|].
    simpl in *. unfold rule_key_matches in Hk. now rewrite Hk.
  - intros before after key rule -> Hb Hk.
    induction Hb as [|[key' rule'] rest Hk' _ IH]; simpl.
    + unfold rule_key_matches in Hk. now rewrite Hk.
    + simpl in Hk'. unfold rule_key_matches in Hk'. now rewrite Hk'.
Qed.

Lemma settlement_rule_first_match_witness :
  _get_settlement_rule settings "bet" "soccer_epl" = "includes_overtime".
Proof.
  apply (proj2 (settlement_rule_first_match settings "bet" "soccer_epl")
           [] (tl (BOOKMAKER_OVERTIME_RULES settings)) "PointsBet" "includes_overtime").
  - reflexivity.
  - constructor.
  - reflexivity.
Defined.

(** X12. [validate_bookmaker_pair] declares a pair compatible exactly
    when both settlement rules are known and equal; it attaches a
    warning exactly when the pair is not compatible; and the verdict is
    the same for the pair in either order. *)
Theorem validate_bookmaker_pair_compatible (cfg : Settings)
    (bookie_a bookie_b sport : string) :
  let rule_a := _get_settlement_rule cfg bookie_a sport in
  let rule_b := _get_settlement_rule cfg bookie_b sport in
  (compatible (validate_bookmaker_pair cfg bookie_a bookie_b sport) = true
   ↔ rule_a = rule_b ∧ rule_a ≠ "unknown")
  ∧ (warning (validate_bookmaker_pair cfg bookie_a bookie_b sport) = None
     ↔ compatible (validate_bookmaker_pair cfg bookie_a bookie_b sport) = true)
  ∧ compatible (validate_bookmaker_pair cfg bookie_b bookie_a sport)
    = compatible (validate_bookmaker_pair cfg bookie_a bookie_b sport).
Proof.
  intros rule_a rule_b. unfold validate_bookmaker_pair. fold rule_a rule_b.
  rewrite (String.eqb_sym rule_b rule_a).
  destruct (String.eqb_spec rule_a "unknown") as [Ea|Ea];
    destruct (String.eqb_spec rule_b "unknown") as [Eb|Eb];
    destruct (String.eqb_spec rule_a rule_b) as [Eab|Eab]; simpl;
    intuition (try discriminate; try congruence).
Qed.

(** X13. The status of [risk_check] carries the red marker that its
    callers test for exactly when a high-risk bookmaker name occurs in
    one of the two cleaned names, or the market is a basketball one and
    the rule database resolves two known, different rules. *)
Theorem risk_check_critical (cfg : Settings) (market_type bookie_a bookie_b : string) :
  contains "🔴" (risk_check cfg market_type bookie_a bookie_b) = true
  ↔ is_Some (high_risk_match (split_head "_" bookie_a) (split_head "_" bookie_b)
               (HIGH_RISK_BOOKMAKERS cfg))
    ∨ (contains "basketball" (lower market_type) = true
       ∧ _get_settlement_rule cfg bookie_a "basketball" ≠ "unknown"
       ∧ _get_settlement_rule cfg bookie_b "basketball" ≠ "unknown"
       ∧ _get_settlement_rule cfg bookie_a "basketball"
         ≠ _get_settlement_rule cfg bookie_b "basketball").
Proof.
  unfold risk_check.
  destruct (high_risk_match _ _ _) as [risky|].
  { split; [intros _; left; eexists; reflexivity|]. intros _. reflexivity. }
  destruct (contains "basketball" (lower market_type)).
  - destruct (String.eqb (_get_settlement_rule cfg bookie_a "basketball") "unknown")
      eqn:Ea.
    { apply String.eqb_eq in Ea. simpl orb. cbv iota. split; [discriminate|].
      intros [[x H]|(_ & H & _)]; [discriminate|contradiction]. }
    destruct (String.eqb (_get_settlement_rule cfg bookie_b "basketball") "unknown")
      eqn:Eb.
    { apply String.eqb_eq in Eb. simpl orb. cbv iota. split; [discriminate|].
      intros [[x H]|(_ & _ & H & _)]; [discriminate|contradiction]. }
    apply String.eqb_neq in Ea, Eb. simpl orb. cbv iota.
    destruct (String.eqb (_get_settlement_rule cfg bookie_a "basketball")
                (_get_settlement_rule cfg bookie_b "basketball")) eqn:Eab.
    + apply String.eqb_eq in Eab. simpl negb. cbv iota. split; [discriminate|].
      intros [[x H]|(_ & _ & _ & H)]; [discriminate|contradiction].
    + apply String.eqb_neq in Eab. simpl negb. cbv iota.
      split; [|reflexivity]. intros _. right. repeat split; assumption.
  - destruct (contains "soccer" (lower market_type)
              || contains "football" (lower market_type))%bool;
      (split; [discriminate|]);
      intros [[x H]|(H & _)]; discriminate.
Qed.

Example risk_check_flags_provider_keys :
  contains "🔴" (risk_check settings "basketball_moneyline" "pinnacle" "draftkings")
  = true.
Proof. reflexivity. Qed.

(** ** Priority tags and recommendations *)

Lemma classify_bookmaker_range (cfg : Settings) (bookmaker : string) :
  classify_bookmaker cfg bookmaker = "sharp"
  ∨ classify_bookmaker cfg bookmaker = "soft"
  ∨ classify_bookmaker cfg bookmaker = "unknown".
Proof.
  unfold classify_bookmaker.
  destruct (mem _ (sharps cfg)); [now left|].
  destruct (mem _ (softs cfg)); [right; now left|right; now right].
Qed.

(** X14. The priority tag does not depend on the order of the two
    bookmakers, and it is the STANDARD tag exactly when at least one of
    them is in neither tier. *)
Theorem get_priority_tag_symmetric (cfg : Settings) (bookmaker_a bookmaker_b : string) :
  get_priority_tag cfg bookmaker_a bookmaker_b
  = get_priority_tag cfg bookmaker_b bookmaker_a
  ∧ (snd (fst (get_priority_tag cfg bookmaker_a bookmaker_b)) = "STANDARD"
     ↔ classify_bookmaker cfg bookmaker_a = "unknown"
       ∨ classify_bookmaker cfg bookmaker_b = "unknown").
Proof.
  unfold get_priority_tag.
  destruct (classify_bookmaker_range cfg bookmaker_a) as [Ha|[Ha|Ha]];
    destruct (classify_bookmaker_range cfg bookmaker_b) as [Hb|[Hb|Hb]];
    rewrite Ha, Hb; simpl; (split; [reflexivity|]);
    split; try discriminate; try (intros [H|H]; discriminate);
    intros _; first [reflexivity | now left | now right].
Qed.

(** X15. For two non-empty bookmaker names, [get_betting_recommendation]
    returns the empty text exactly when neither bookmaker is sharp and
    they are not both soft. *)
Theorem get_betting_recommendation_empty (cfg : Settings)
    (bookmaker_a bookmaker_b : string) :
  bookmaker_a ≠ "" → bookmaker_b ≠ "" →
  (get_betting_recommendation cfg bookmaker_a bookmaker_b = ""
   ↔ classify_bookmaker cfg bookmaker_a ≠ "sharp"
     ∧ classify_bookmaker cfg bookmaker_b ≠ "sharp"
     ∧ ¬ (classify_bookmaker cfg bookmaker_a = "soft"
          ∧ classify_bookmaker cfg bookmaker_b = "soft")).
Proof.
  intros Hna Hnb. unfold get_betting_recommendation, get_sharp_bookmaker.
  assert (Ta : str_truthy bookmaker_a = true) by (destruct bookmaker_a; [congruence|reflexivity]).
  assert (Tb : str_truthy bookmaker_b = true) by (destruct bookmaker_b; [congruence|reflexivity]).
  destruct (classify_bookmaker_range cfg bookmaker_a) as [Ha|[Ha|Ha]];
    destruct (classify_bookmaker_range cfg bookmaker_b) as [Hb|[Hb|Hb]];
    rewrite Ha, Hb; simpl; rewrite ?Ta, ?Tb;
    split; try discriminate;
    try (intros (H1 & H2 & H3); exfalso; (now apply H1) || (now apply H2)
                                          || (apply H3; now split));
    intros _; repeat split; try discriminate; intros [H1 H2]; discriminate.
Qed.

Lemma get_betting_recommendation_empty_witness :
  get_betting_recommendation settings "unibet_us" "foobet" = "".
Proof.
  apply (get_betting_recommendation_empty settings "unibet_us" "foobet").
  - discriminate.
  - discriminate.
  - repeat split; try discriminate. intros [_ H]. discriminate.
Defined.

Example get_betting_recommendation_names_sharp :
  get_betting_recommendation settings "unibet_us" "pinnacle_eu"
  = "💡 **Pro Tip**: Pinnacle is a Sharp bookmaker. Their price is the market consensus. Bet the opposite side.".
Proof. reflexivity. Qed.

(** ** The multi-market scanner *)

(** X16. [scan_markets] never reports an opportunity: whatever the event
    data and whether or not the scan is enabled, the returned list is
    empty, because neither market check ever yields one. *)
Theorem scan_markets_empty (enable_multimarket_scan : bool) (event_data : EventData) :
  scan_markets enable_multimarket_scan event_data = [].
Proof.
  unfold scan_markets. destruct enable_multimarket_scan; [|reflexivity].
  simpl negb. cbv iota.
  induction (bookmakers event_data) as [|bookmaker rest IH]; [reflexivity|].
  simpl. rewrite IH, app_nil_r.
  induction (markets bookmaker) as [|market more IHm]; [reflexivity|].
  simpl. rewrite IHm, app_nil_r.
  unfold scan_market. destruct (market_key market) as [key|]; [|reflexivity].
  destruct (String.eqb key "totals"); [reflexivity|].
  destruct (String.eqb key "spreads"); reflexivity.
Qed.

(** ** Consensus movement *)

Lemma movement_step_spec (prev_odds : dict (dict Q)) (outcome_name : string)
    (acc : list string * list string) (item : string * dict Q) :
  ∃ acc' : list string * list string,
    movement_step prev_odds outcome_name acc item = Returned acc'
    ∧ (acc' = acc
       ∨ ((acc' = ((fst acc ++ [fst item])%list, snd acc)
           ∨ acc' = (fst acc, (snd acc ++ [fst item])%list))
          ∧ ∃ (quotes : dict Q) (v : Q),
              dict_get prev_odds (fst item) = Some quotes
              ∧ dict_get quotes outcome_name = Some v)).
Proof.
  unfold movement_step.
  destruct (dict_get prev_odds (fst item)) as [quotes|] eqn:Eq;
    [|eexists; split; [reflexivity|now left]].
  destruct (dict_get quotes outcome_name) as [prev_value|] eqn:Ev;
    [|eexists; split; [reflexivity|now left]].
  destruct (dict_get (snd item) outcome_name) as [curr_value|];
    [|eexists; split; [reflexivity|now left]].
  unfold num_truthy.
  destruct (Qeq_bool prev_value 0) eqn:E0;
    [eexists; split; [reflexivity|now left]|].
  destruct (Qeq_bool curr_value 0);
    [eexists; split; [reflexivity|now left]|].
  simpl andb. cbv iota. apply Qeq_bool_neq in E0.
  rewrite (truediv_Returned _ _ E0), bind_Returned. cbv zeta.
  destruct (lt _ (-3)).
  - eexists. split; [reflexivity|]. right. split; [now left|]. eauto.
  - destruct (lt _ 1).
    + eexists. split; [reflexivity|]. right. split; [now right|]. eauto.
    + eexists. split; [reflexivity|now left].
Qed.

Lemma movement_loop_spec (prev_odds : dict (dict Q)) (outcome_name : string)
    (items : dict (dict Q)) (acc : list string * list string) :
  ∃ acc' : list string * list string,
    movement_loop prev_odds outcome_name acc items = Returned acc'
    ∧ (∀ b, In b (fst acc' ++ snd acc')%list →
            In b (fst acc ++ snd acc)%list
            ∨ tracked_move prev_odds outcome_name items b).
Proof.
  revert acc. induction items as [|item rest IH]; intros acc.
  - exists acc. split; [reflexivity|]. intros b Hb. now left.
  - simpl.
    destruct (movement_step_spec prev_odds outcome_name acc item)
      as (mid & Hstep & Hmid).
    rewrite Hstep, bind_Returned.
    destruct (IH mid) as (acc' & Hloop & Hacc').
    exists acc'. split; [exact Hloop|].
    intros b Hb. destruct (Hacc' b Hb) as [Hin|(Hk & Hq)].
    + destruct Hmid as [->|[[->| ->] (quotes & v & Hq1 & Hq2)]].
      * now left.
      * simpl in Hin. rewrite !in_app_iff in Hin. rewrite in_app_iff.
        destruct Hin as [[Hin|[<-|[]]]|Hin]; [now left; left| |now left; right].
        right. split; [now left|]. eauto.
      * simpl in Hin. rewrite !in_app_iff in Hin. rewrite in_app_iff.
        destruct Hin as [Hin|[Hin|[<-|[]]]]; [now left; left|now left; right|].
        right. split; [now left|]. eauto.
    + right. split; [now right|exact Hq].
Qed.

Lemma movement_scan_spec (prev_odds current_odds : dict (dict Q)) (event_id : string)
    (outcomes : list string) :
  ∃ result : option MovementAlert,
    movement_scan prev_odds current_odds event_id outcomes = Returned result
    ∧ ∀ alert, result = Some alert →
        ma_event_id alert = event_id
        ∧ In (ma_outcome alert) outcomes
        ∧ (3 <= length (dropping_bookies alert))%nat
        ∧ (1 <= length (lagging_bookies alert))%nat
        ∧ ∀ b, In b (dropping_bookies alert ++ lagging_bookies alert)%list →
               tracked_move prev_odds (ma_outcome alert) current_odds b.
Proof.
  induction outcomes as [|o rest IH].
  - exists None. split; [reflexivity|]. discriminate.
  - cbn [movement_scan].
    destruct (movement_loop_spec prev_odds o current_odds ([], []))
      as (lists & Hloop & Hlists).
    rewrite Hloop, bind_Returned.
    destruct ((3 <=? length (fst lists))%nat && (1 <=? length (snd lists))%nat)%bool
      eqn:E.
    + apply andb_true_iff in E. destruct E as [E3 E1].
      eexists. split; [reflexivity|]. intros alert H. inversion H; subst. clear H.
      cbn [ma_event_id ma_outcome dropping_bookies lagging_bookies].
      apply Nat.leb_le in E3, E1.
      split; [reflexivity|]. split; [now left|]. split; [exact E3|].
      split; [exact E1|].
      intros b Hb. destruct (Hlists b Hb) as [[]|Ht]. exact Ht.
    + destruct IH as (result & Hres & Hspec). exists result.
      split; [exact Hres|]. intros alert Ha.
      destruct (Hspec alert Ha) as (H1 & H2 & H3).
      split; [exact H1|]. split; [now right|exact H3].
Qed.

(** X17. [track_movement] never raises, and whatever it returns it leaves
    [current_odds] stored as the history of the event, also when it
    returns an alert; the first observation of an event returns no
    alert. *)
Theorem track_movement_always_stores (historical_odds : gmap string (dict (dict Q)))
    (event_id : string) (current_odds : dict (dict Q)) :
  ∃ result : option MovementAlert,
    track_movement historical_odds event_id current_odds
    = (Returned result, <[event_id := current_odds]> historical_odds)
    ∧ (historical_odds !! event_id = None → result = None).
Proof.
  unfold track_movement.
  destruct (historical_odds !! event_id) as [prev_odds|].
  - destruct (movement_scan_spec prev_odds current_odds event_id
                ["home"; "away"; "draw"]) as (result & Hres & _).
    rewrite Hres. exists result. split; [reflexivity|discriminate].
  - exists None. split; reflexivity.
Qed.

(** X18. An alert of [track_movement] is about one of the outcome names
    "home", "away", "draw"; it lists at least three dropping and at least
    one lagging bookmaker, and every listed bookmaker is a key of the
    current map that had a previous quote under that outcome name. *)
Theorem track_movement_alert (historical_odds after : gmap string (dict (dict Q)))
    (event_id : string) (current_odds : dict (dict Q)) (alert : MovementAlert) :
  track_movement historical_odds event_id current_odds = (Returned (Some alert), after) →
  ∃ prev_odds : dict (dict Q),
    historical_odds !! event_id = Some prev_odds
    ∧ In (ma_outcome alert) ["home"; "away"; "draw"]
    ∧ (3 <= length (dropping_bookies alert))%nat
    ∧ (1 <= length (lagging_bookies alert))%nat
    ∧ ∀ b, In b (dropping_bookies alert ++ lagging_bookies alert)%list →
           tracked_move prev_odds (ma_outcome alert) current_odds b.
Proof.
  unfold track_movement.
  destruct (historical_odds !! event_id) as [prev_odds|]; [|discriminate].
  destruct (movement_scan_spec prev_odds current_odds event_id
              ["home"; "away"; "draw"]) as (result & Hres & Hspec).
  rewrite Hres. intros H. inversion H; subst. clear H.
  exists prev_odds. split; [reflexivity|].
  destruct (Hspec alert eq_refl) as (_ & H2 & H3 & H4 & H5). auto.
Qed.

Lemma track_movement_alert_witness :
  ∃ prev_odds : dict (dict Q),
    ({[ "evt1" := movement_before ]} : gmap string (dict (dict Q))) !! "evt1"
    = Some prev_odds
    ∧ In "home" ["home"; "away"; "draw"]
    ∧ (3 <= length ["a"; "b"; "c"])%nat
    ∧ (1 <= length ["d"])%nat
    ∧ ∀ b, In b (["a"; "b"; "c"] ++ ["d"])%list →
           tracked_move prev_odds "home" movement_now b.
Proof.
  apply (track_movement_alert {[ "evt1" := movement_before ]}
           (<["evt1" := movement_now]> {[ "evt1" := movement_before ]})
           "evt1" movement_now
           {| ma_event_id := "evt1"; ma_outcome := "home";
              lagging_bookies := ["d"]; dropping_bookies := ["a"; "b"; "c"] |}).
  unfold track_movement. rewrite lookup_singleton_eq. reflexivity.
Defined.

(** ** Plain drift tracking: state and alerts *)

(** X19. [track_odds_drift] never touches the maps of other events.  When
    the tracker is disabled nothing is stored and nothing is reported;
    the first observation of an event is stored without an alert; and a
    call that does not return normally with "no alert" leaves the whole
    cache as it was. *)
Theorem track_odds_drift_transition (cfg : Settings)
    (previous_odds : gmap string (dict Q)) (event_id : string)
    (current_odds : dict Q) :
  let r := track_odds_drift cfg previous_odds event_id current_odds in
  (∀ other, other ≠ event_id → snd r !! other = previous_odds !! other)
  ∧ (ENABLE_DRIFT_TRACKER cfg = false → r = (Returned None, previous_odds))
  ∧ (ENABLE_DRIFT_TRACKER cfg = true → previous_odds !! event_id = None →
     r = (Returned None, <[event_id := current_odds]> previous_odds))
  ∧ (fst r ≠ Returned None → snd r = previous_odds).
Proof.
  cbv zeta. unfold track_odds_drift.
  destruct (ENABLE_DRIFT_TRACKER cfg); simpl negb; cbv iota.
  - destruct (previous_odds !! event_id) as [prev|] eqn:Ep.
    + destruct (drift_scan cfg event_id prev current_odds) as [[alert|]|e]; simpl.
      * repeat split; try discriminate; auto.
      * repeat split; try discriminate; try congruence.
        intros other Hne. now apply lookup_insert_ne.
      * repeat split; try discriminate; auto.
    + simpl. repeat split; try discriminate; try congruence.
      intros other Hne. now apply lookup_insert_ne.
  - simpl. repeat split; try discriminate; congruence.
Qed.

Lemma track_odds_drift_transition_witness :
  track_odds_drift settings ∅ "evt1" [("Lakers", 2)]
  = (Returned None, <["evt1" := [("Lakers", 2)]]> ∅).
Proof.
  apply (proj1 (proj2 (proj2 (track_odds_drift_transition settings ∅ "evt1"
                                [("Lakers", 2)])))).
  - reflexivity.
  - apply lookup_empty.
Defined.

Lemma drift_scan_nonzero (cfg : Settings) (event_id : string) (prev items : dict Q) :
  (∀ o v, dict_get prev o = Some v → ¬ v == 0) →
  ∃ result, drift_scan cfg event_id prev items = Returned result.
Proof.
  intros Hnz. induction items as [|[o c] rest IH]; [eexists; reflexivity|].
  simpl. destruct (dict_get prev o) as [p|] eqn:Ep; [|exact IH].
  rewrite (truediv_Returned _ _ (Hnz o p Ep)), bind_Returned. cbv zeta.
  destruct (gt _ _); [eexists; reflexivity|exact IH].
Qed.

(** X21. As long as no stored price and no incoming price is zero,
    [track_odds_drift] returns without raising and the cache again holds
    no zero price. *)
Theorem track_odds_drift_nonzero (cfg : Settings)
    (previous_odds : gmap string (dict Q)) (event_id : string)
    (current_odds : dict Q) :
  nonzero_prices previous_odds →
  (∀ o v, dict_get current_odds o = Some v → ¬ v == 0) →
  ∃ (result : option DriftAlert) (after : gmap string (dict Q)),
    track_odds_drift cfg previous_odds event_id current_odds = (Returned result, after)
    ∧ nonzero_prices after.
Proof.
  intros Hprev Hcur. unfold track_odds_drift.
  destruct (negb (ENABLE_DRIFT_TRACKER cfg)); [eexists _, _; split; [reflexivity|exact Hprev]|].
  assert (Hins : nonzero_prices (<[event_id := current_odds]> previous_odds)).
  { intros ev prices o v Hl Hg.
    destruct (decide (event_id = ev)) as [<-|Hne].
    - rewrite lookup_insert_eq in Hl. inversion Hl; subst. eauto.
    - rewrite lookup_insert_ne in Hl by exact Hne. eauto. }
  destruct (previous_odds !! event_id) as [prev|] eqn:Ep.
  - assert (Hp : ∀ o v, dict_get prev o = Some v → ¬ v == 0)
      by (intros o v; apply (Hprev event_id prev o v Ep)).
    destruct (drift_scan_nonzero cfg event_id prev current_odds Hp) as ([alert|] & Hs);
      rewrite Hs.
    + eexists _, _. split; [reflexivity|exact Hprev].
    + eexists _, _. split; [reflexivity|exact Hins].
  - eexists _, _. split; [reflexivity|exact Hins].
Qed.

Lemma track_odds_drift_nonzero_witness :
  ∃ (result : option DriftAlert) (after : gmap string (dict Q)),
    track_odds_drift settings ∅ "evt1" [("Lakers", 2)] = (Returned result, after)
    ∧ nonzero_prices after.
Proof.
  apply (track_odds_drift_nonzero settings ∅ "evt1" [("Lakers", 2)]).
  - intros ev prices o v H. rewrite lookup_empty in H. discriminate H.
  - intros o v. cbn [dict_get]. destruct (String.eqb "Lakers" o); intros H; [|discriminate H].
    inversion H; subst. now apply Qeq_bool_neq.
Defined.

(** A zero previous price makes the very next comparison raise. *)
Example track_odds_drift_zero_price :
  fst (track_odds_drift settings {[ "evt1" := [("Lakers", 0)] ]} "evt1" [("Lakers", 2)])
  = Raised ZeroDivisionError.
Proof.
  unfold track_odds_drift. rewrite lookup_singleton_eq. reflexivity.
Qed.

(** ** Value-bet tracking: frame and failures *)

(** X22. A call of [track_value_opportunity] changes at most the entry
    stored under its own event/outcome key, and changes nothing at all
    when it raises or when it returns a signal. *)
Theorem track_value_opportunity_frame (cfg : Settings)
    (sharp_prices : gmap string SharpPrice)
    (event_id bookmaker outcome : string) (current_odds : Q) :
  let r := track_value_opportunity cfg sharp_prices event_id bookmaker outcome
             current_odds in
  (∀ k, k ≠ event_outcome_key event_id outcome → snd r !! k = sharp_prices !! k)
  ∧ (∀ e, fst r = Raised e → snd r = sharp_prices)
  ∧ (∀ alert, fst r = Returned (Some alert) → snd r = sharp_prices).
Proof.
  cbv zeta. unfold track_value_opportunity.
  destruct (mem _ (map lower (DRIFT_SHARP_BOOKMAKERS cfg))).
  - destruct (sharp_prices !! event_outcome_key event_id outcome) as [stored|].
    + destruct (lt current_odds (sp_odds stored));
        [|simpl; repeat split; auto; discriminate].
      destruct (truediv _ _); [|simpl; repeat split; auto; discriminate].
      destruct (gt _ _); simpl; repeat split; auto; try discriminate.
      intros k Hk. apply lookup_insert_ne. congruence.
    + simpl. repeat split; try discriminate.
      intros k Hk. apply lookup_insert_ne. congruence.
  - destruct (String.eqb _ "soft"); [|simpl; repeat split; auto; discriminate].
    destruct (sharp_prices !! event_outcome_key event_id outcome) as [stored|];
      [|simpl; repeat split; auto; discriminate].
    destruct (truediv _ _); [|simpl; repeat split; auto; discriminate].
    destruct (gt _ _); simpl; repeat split; auto; discriminate.
Qed.

(** X23. [track_value_opportunity] raises [ZeroDivisionError] exactly when
    the price stored under the key of the call is zero and either a
    tracked sharp bookmaker quotes a negative price, or the bookmaker is
    not tracked and classifies as soft. *)
Theorem track_value_opportunity_raises (cfg : Settings)
    (sharp_prices : gmap string SharpPrice)
    (event_id bookmaker outcome : string) (current_odds : Q) :
  fst (track_value_opportunity cfg sharp_prices event_id bookmaker outcome
         current_odds) = Raised ZeroDivisionError
  ↔ ∃ stored : SharpPrice,
      sharp_prices !! event_outcome_key event_id outcome = Some stored
      ∧ sp_odds stored == 0
      ∧ ((is_drift_sharp cfg bookmaker = true ∧ current_odds < 0)
         ∨ (is_drift_sharp cfg bookmaker = false
            ∧ classify_bookmaker cfg bookmaker = "soft")).
Proof.
  unfold track_value_opportunity. fold (is_drift_sharp cfg bookmaker).
  destruct (is_drift_sharp cfg bookmaker).
  - destruct (sharp_prices !! event_outcome_key event_id outcome) as [stored|].
    + destruct (lt current_odds (sp_odds stored)) eqn:El.
      * apply lt_true in El. unfold truediv.
        destruct (Qeq_bool (sp_odds stored) 0) eqn:E0.
        -- apply Qeq_bool_iff in E0. simpl. split; [|reflexivity].
           intros _. exists stored. split; [reflexivity|]. split; [exact E0|].
           left. split; [reflexivity|]. now rewrite <- E0.
        -- apply Qeq_bool_neq in E0.
           destruct (gt _ _); simpl; (split; [discriminate|]);
             intros (s & Hs & Hz & _); inversion Hs; subst; contradiction.
      * apply lt_false in El. simpl. split; [discriminate|].
        intros (s & Hs & Hz & [[_ Hneg]|[Hf _]]); [|discriminate].
        inversion Hs; subst. rewrite Hz in El. exfalso. lra.
    + simpl. split; [discriminate|]. intros (s & Hs & _). discriminate.
  - destruct (String.eqb_spec (classify_bookmaker cfg bookmaker) "soft") as [Ec|Ec].
    + destruct (sharp_prices !! event_outcome_key event_id outcome) as [stored|].
      * unfold truediv. destruct (Qeq_bool (sp_odds stored) 0) eqn:E0.
        -- apply Qeq_bool_iff in E0. simpl. split; [|reflexivity].
           intros _. exists stored. split; [reflexivity|]. split; [exact E0|].
           right. split; [reflexivity|exact Ec].
        -- apply Qeq_bool_neq in E0.
           destruct (gt _ _); simpl; (split; [discriminate|]);
             intros (s & Hs & Hz & _); inversion Hs; subst; contradiction.
      * simpl. split; [discriminate|]. intros (s & Hs & _). discriminate.
    + simpl. split; [discriminate|].
      intros (s & _ & _ & [[Hf _]|[_ Hc]]); [discriminate|contradiction].
Qed.

Example track_value_opportunity_zero_consensus :
  let stored := sharp_prices_after settings ∅
                  [ {| ob_event_id := "evt1"; ob_bookmaker := "pinnacle";
                       ob_outcome := "Lakers"; ob_odds := 0 |} ] in
  fst (track_value_opportunity settings stored "evt1" "unibet" "Lakers" 2)
  = Raised ZeroDivisionError.
Proof. vm_compute. reflexivity. Qed.

Lemma track_value_nonzero_step (cfg : Settings)
    (sharp_prices : gmap string SharpPrice)
    (event_id bookmaker outcome : string) (current_odds : Q) :
  nonzero_sharp sharp_prices →
  ¬ current_odds == 0 →
  ∃ (result : option ValueBet) (after : gmap string SharpPrice),
    track_value_opportunity cfg sharp_prices event_id bookmaker outcome current_odds
    = (Returned result, after)
    ∧ nonzero_sharp after.
Proof.
  intros Hnz Hcur.
  assert (Hins : nonzero_sharp
                   (<[event_outcome_key event_id outcome :=
                        {| sp_bookmaker := bookmaker; sp_odds := current_odds |}]>
                      sharp_prices)).
  { intros k stored Hl.
    destruct (decide (event_outcome_key event_id outcome = k)) as [<-|Hne].
    - rewrite lookup_insert_eq in Hl. inversion Hl; subst. exact Hcur.
    - rewrite lookup_insert_ne in Hl by exact Hne. eauto. }
  unfold track_value_opportunity.
  destruct (mem _ (map lower (DRIFT_SHARP_BOOKMAKERS cfg))).
  - destruct (sharp_prices !! event_outcome_key event_id outcome) as [stored|] eqn:Es.
    + destruct (lt current_odds (sp_odds stored));
        [|eexists _, _; split; [reflexivity|exact Hnz]].
      rewrite (truediv_Returned _ _ (Hnz _ _ Es)).
      destruct (gt _ _); eexists _, _; (split; [reflexivity|]); assumption.
    + eexists _, _. split; [reflexivity|exact Hins].
  - destruct (String.eqb _ "soft"); [|eexists _, _; split; [reflexivity|exact Hnz]].
    destruct (sharp_prices !! event_outcome_key event_id outcome) as [stored|] eqn:Es;
      [|eexists _, _; split; [reflexivity|exact Hnz]].
    rewrite (truediv_Returned _ _ (Hnz _ _ Es)).
    destruct (gt _ _); eexists _, _; (split; [reflexivity|exact Hnz]).
Qed.

(** X24. As long as no stored sharp price and no quoted price is zero,
    [track_value_opportunity] returns without raising and again leaves no
    zero price stored. *)
Theorem track_value_opportunity_nonzero (cfg : Settings)
    (sharp_prices : gmap string SharpPrice)
    (event_id bookmaker outcome : string) (current_odds : Q) :
  nonzero_sharp sharp_prices →
  ¬ current_odds == 0 →
  ∃ (result : option ValueBet) (after : gmap string SharpPrice),
    track_value_opportunity cfg sharp_prices event_id bookmaker outcome current_odds
    = (Returned result, after)
    ∧ nonzero_sharp after.
Proof. apply track_value_nonzero_step. Qed.

Lemma nonzero_sharp_empty : nonzero_sharp ∅.
Proof. intros k stored H. rewrite lookup_empty in H. discriminate H. Qed.

Lemma track_value_opportunity_nonzero_witness :
  ∃ (result : option ValueBet) (after : gmap string SharpPrice),
    track_value_opportunity settings ∅ "evt1" "pinnacle" "Lakers" 1.9
    = (Returned result, after)
    ∧ nonzero_sharp after.
Proof.
  apply (track_value_opportunity_nonzero settings ∅ "evt1" "pinnacle" "Lakers" 1.9).
  - exact nonzero_sharp_empty.
  - now apply Qeq_bool_neq.
Defined.

(** ** The key of the sharp price cache *)

Lemma no_colon_cons (c : ascii) (s : string) :
  contains ":" (String c s) = false → c ≠ ":"%char ∧ contains ":" s = false.
Proof.
  simpl. destruct (Ascii.eqb_spec c ":") as [->|Hc].
  - destruct s; discriminate.
  - intros H. split; [exact Hc|]. destruct (contains ":" s); [|reflexivity].
    rewrite orb_true_r in H. discriminate.
Qed.

(** X25. Keys do not collide for event identifiers without a colon: two
    such events with their outcomes share a key only if they are the same
    event and the same outcome.  (With a colon in the identifier they can:
    "a:b" with "c" and "a" with "b:c" share the key "a:b:c".) *)
Theorem event_outcome_key_injective (event_1 outcome_1 event_2 outcome_2 : string) :
  contains ":" event_1 = false →
  contains ":" event_2 = false →
  event_outcome_key event_1 outcome_1 = event_outcome_key event_2 outcome_2 →
  event_1 = event_2 ∧ outcome_1 = outcome_2.
Proof.
  unfold event_outcome_key. revert event_2.
  induction event_1 as [|c r IH]; intros [|c' r'] H1 H2 E.
  - simpl in E. inversion E. now split.
  - apply no_colon_cons in H2. destruct H2 as [Hc _].
    simpl in E. inversion E. congruence.
  - apply no_colon_cons in H1. destruct H1 as [Hc _].
    simpl in E. inversion E. congruence.
  - apply no_colon_cons in H1, H2. destruct H1 as [_ H1]. destruct H2 as [_ H2].
    simpl in E. inversion E; subst.
    destruct (IH r' H1 H2) as [-> ->]; [assumption|]. now split.
Qed.

Lemma event_outcome_key_injective_witness :
  "evt1" = "evt1" ∧ "Lakers" = "Lakers".
Proof.
  apply (event_outcome_key_injective "evt1" "Lakers" "evt1" "Lakers"); reflexivity.
Defined.

Example event_outcome_key_collision :
  event_outcome_key "a:b" "c" = event_outcome_key "a" "b:c".
Proof. reflexivity. Qed.

(** ** Grouping the quotes by outcome *)

Lemma dict_get_In {V} (d : dict V) (k : string) (v : V) :
  dict_get d k = Some v → In (k, v) d.
Proof.
  induction d as [|[k' v'] r IH]; [discriminate|].
  simpl. destruct (String.eqb_spec k' k) as [->|Hne].
  - intros H. inversion H. now left.
  - intros H. right. now apply IH.
Qed.

Lemma dict_get_None {V} (d : dict V) (k : string) :
  dict_get d k = None ↔ ¬ In k (map fst d).
Proof.
  induction d as [|[k' v'] r IH]; simpl.
  - split; [intros _ []|reflexivity].
  - destruct (String.eqb_spec k' k) as [->|Hne].
    + split; [discriminate|]. intros H. exfalso. apply H. now left.
    + rewrite IH. split.
      * intros H [E|Hin]; [congruence|contradiction].
      * intros H Hin. apply H. now right.
Qed.

Lemma dict_set_keys {V} (d : dict V) (k : string) (v : V) :
  map fst (dict_set d k v)
  = match dict_get d k with
    | Some _ => map fst d
    | None => (map fst d ++ [k])%list
    end.
Proof.
  induction d as [|[k' v'] r IH]; [reflexivity|].
  simpl. destruct (String.eqb_spec k' k) as [->|Hne]; [reflexivity|].
  simpl. rewrite IH. now destruct (dict_get r k).
Qed.

Lemma dict_set_In {V} (d : dict V) (k k' : string) (v v' : V) :
  In (k', v') (dict_set d k v) → (k' = k ∧ v' = v) ∨ In (k', v') d.
Proof.
  induction d as [|[k0 v0] r IH]; simpl.
  - intros [H|[]]. inversion H. now left.
  - destruct (String.eqb_spec k0 k) as [->|Hne].
    + intros [H|H]; [inversion H; now left|right; now right].
    + intros [H|H]; [right; now left|].
      destruct (IH H) as [?|?]; [now left|right; now right].
Qed.

Lemma group_step_grouped (seen : list Entry) (outcomes_map : dict (list Entry))
    (entry : Entry) :
  grouped seen outcomes_map →
  grouped (seen ++ [entry])%list (group_step outcomes_map entry).
Proof.
  intros (Hnd & Hkeys & Hmem). unfold group_step, grouped.
  rewrite !map_app. simpl map.
  destruct (dict_get outcomes_map (outcome entry)) as [entries|] eqn:Eg.
  - rewrite dict_set_keys, Eg. split; [exact Hnd|]. split.
    + intros k. rewrite in_app_iff, <- Hkeys. split; [now left|].
      intros [H|[<-|[]]]; [exact H|].
      apply dict_get_In in Eg. apply (in_map fst) in Eg. exact Eg.
    + intros k es e Hin He. apply dict_set_In in Hin.
      destruct Hin as [[-> ->]|Hin].
      * apply in_app_iff in He. destruct He as [He|[<-|[]]].
        -- apply dict_get_In in Eg. destruct (Hmem _ _ _ Eg He) as [H1 H2].
           split; [apply in_app_iff; now left|exact H2].
        -- split; [apply in_app_iff; right; now left|reflexivity].
      * destruct (Hmem _ _ _ Hin He) as [H1 H2].
        split; [apply in_app_iff; now left|exact H2].
  - rewrite dict_set_keys, Eg. split; [|split].
    + apply NoDup_app. split; [exact Hnd|]. split.
      * intros x Hx [<-|[]]%list_elem_of_In.
        apply dict_get_None in Eg. apply Eg. now apply list_elem_of_In.
      * apply NoDup_singleton.
    + intros k. rewrite !in_app_iff, Hkeys. reflexivity.
    + intros k es e Hin He. apply dict_set_In in Hin.
      destruct Hin as [[-> ->]|Hin].
      * destruct He as [<-|[]].
        split; [apply in_app_iff; right; now left|reflexivity].
      * destruct (Hmem _ _ _ Hin He) as [H1 H2].
        split; [apply in_app_iff; now left|exact H2].
Qed.

Lemma fold_group_grouped (rest seen : list Entry) (outcomes_map : dict (list Entry)) :
  grouped seen outcomes_map →
  grouped (seen ++ rest)%list (fold_left group_step rest outcomes_map).
Proof.
  revert seen outcomes_map. induction rest as [|e rest IH]; intros seen d Hg.
  - simpl. now rewrite app_nil_r.
  - simpl. replace (seen ++ e :: rest)%list with ((seen ++ [e]) ++ rest)%list
      by (rewrite <- app_assoc; reflexivity).
    apply IH. now apply group_step_grouped.
Qed.

Lemma group_by_outcome_grouped (parsed_odds : list Entry) :
  grouped parsed_odds (group_by_outcome parsed_odds).
Proof.
  apply (fold_group_grouped parsed_odds [] []).
  split; [constructor|]. split; [reflexivity|]. intros k es e [].
Qed.

Lemma group_by_outcome_length (parsed_odds : list Entry) :
  length (group_by_outcome parsed_odds) = distinct_outcomes parsed_odds.
Proof.
  destruct (group_by_outcome_grouped parsed_odds) as (Hnd & Hkeys & _).
  unfold distinct_outcomes.
  rewrite <- (length_map fst (group_by_outcome parsed_odds)).
  rewrite <- (size_list_to_set (C := gset string) _ Hnd).
  f_equal. apply set_eq. intros k.
  rewrite !elem_of_list_to_set, !list_elem_of_In. apply Hkeys.
Qed.

(** ** Where an opportunity comes from *)

Lemma apply_safety_filters_pass (cfg : Settings) (roi : Q) (a b sport : string) :
  fst (apply_safety_filters cfg roi a b sport) = true →
  MIN_ROI_THRESHOLD cfg <= roi ∧ roi <= MAX_ROI_THRESHOLD cfg.
Proof.
  unfold apply_safety_filters.
  destruct (gt roi (MAX_ROI_THRESHOLD cfg)) eqn:Emax; [discriminate|].
  destruct (lt roi (MIN_ROI_THRESHOLD cfg)) eqn:Emin; [discriminate|].
  intros _. split; [now apply lt_false|now apply gt_false].
Qed.

Lemma two_way_candidate_built (cfg : Settings) (event : Event)
    (outcome_a outcome_b : string) (a b : Entry)
    (chunk : list Opportunity) (opp : Opportunity) :
  two_way_candidate cfg event outcome_a outcome_b a b = Returned chunk →
  In opp chunk →
  built_from cfg event [bet_of outcome_a a; bet_of outcome_b b] opp.
Proof.
  unfold two_way_candidate.
  destruct (String.eqb (bookmaker a) (bookmaker b)).
  { intros H; inversion H; subst. contradiction. }
  destruct (detect_two_way_cases (odds a) (odds b))
    as (is_arb & roi & Hd & Hiff & Hroi & Hpos).
  rewrite Hd, bind_Returned.
  destruct is_arb; [|intros H; inversion H; subst; contradiction].
  destruct (fst (apply_safety_filters _ _ _ _ _)) eqn:Ef;
    [|intros H; inversion H; subst; contradiction].
  destruct (calculate_stakes _ _ _) as [rounded|e] eqn:Es; [|discriminate].
  rewrite bind_Returned. intros H; inversion H; subst chunk. clear H.
  intros [<-|[]].
  destruct (proj1 Hiff eq_refl) as (Ha & Hb & Hlt).
  destruct (apply_safety_filters_pass _ _ _ _ _ Ef) as [Hmin Hmax].
  assert (E : implied_total [bet_of outcome_a a; bet_of outcome_b b]
              == 1 / odds a + 1 / odds b).
  { unfold implied_total. simpl. rewrite !sum_cons, sum_nil. ring. }
  exists roi, rounded. split; [reflexivity|]. split; [repeat constructor; assumption|].
  split; [now rewrite E|]. split; [rewrite E, Hroi; reflexivity|].
  split; [now apply Hpos|]. split; [exact Hmin|]. split; [exact Hmax|exact Es].
Qed.

Lemma three_way_candidate_built (cfg : Settings) (event : Event)
    (outcome_1 outcome_x outcome_2 : string) (e1 ex e2 : Entry)
    (chunk : list Opportunity) (opp : Opportunity) :
  three_way_candidate cfg event outcome_1 outcome_x outcome_2 e1 ex e2
  = Returned chunk →
  In opp chunk →
  built_from cfg event
    [bet_of outcome_1 e1; bet_of outcome_x ex; bet_of outcome_2 e2] opp.
Proof.
  unfold three_way_candidate.
  destruct (size _ <? 2)%nat.
  { intros H; inversion H; subst. contradiction. }
  destruct (detect_three_way_cases (odds e1) (odds ex) (odds e2))
    as (is_arb & roi & Hd & Hiff & Hroi & Hpos).
  rewrite Hd, bind_Returned.
  destruct is_arb; [|intros H; inversion H; subst; contradiction].
  destruct (fst (apply_safety_filters _ _ _ _ _)) eqn:Ef;
    [|intros H; inversion H; subst; contradiction].
  destruct (calculate_stakes _ _ _) as [rounded|e] eqn:Es; [|discriminate].
  rewrite bind_Returned. intros H; inversion H; subst chunk. clear H.
  intros [<-|[]].
  destruct (proj1 Hiff eq_refl) as (H1 & Hx & H2 & Hlt).
  destruct (apply_safety_filters_pass _ _ _ _ _ Ef) as [Hmin Hmax].
  assert (E : implied_total
                [bet_of outcome_1 e1; bet_of outcome_x ex; bet_of outcome_2 e2]
              == 1 / odds e1 + 1 / odds ex + 1 / odds e2).
  { unfold implied_total. simpl. rewrite !sum_cons, sum_nil. ring. }
  exists roi, rounded. split; [reflexivity|]. split; [repeat constructor; assumption|].
  split; [now rewrite E|]. split; [rewrite E, Hroi; reflexivity|].
  split; [now apply Hpos|]. split; [exact Hmin|]. split; [exact Hmax|exact Es].
Qed.

(** Every returned opportunity was appended by one combination of the
    two-outcome or of the three-outcome branch. *)
Lemma opportunity_origin (cfg : Settings)
    (sharp_prices after : gmap string SharpPrice) (event : Event)
    (parsed_odds : list Entry) (opps : list Opportunity) (opp : Opportunity) :
  find_arbitrage_opportunities cfg sharp_prices event parsed_odds
  = (Returned opps, after) →
  In opp opps →
  (∃ oa ea ob eb a b,
     group_by_outcome parsed_odds = [(oa, ea); (ob, eb)]
     ∧ In a ea ∧ In b eb
     ∧ built_from cfg event [bet_of oa a; bet_of ob b] opp)
  ∨ (∃ o1 l1 ox lx o2 l2 e1 ex e2,
       group_by_outcome parsed_odds = [(o1, l1); (ox, lx); (o2, l2)]
       ∧ In e1 l1 ∧ In ex lx ∧ In e2 l2
       ∧ built_from cfg event [bet_of o1 e1; bet_of ox ex; bet_of o2 e2] opp).
Proof.
  unfold find_arbitrage_opportunities.
  destruct (track_entries _ _ _ _) as [[[]|e] st]; [|discriminate].
  destruct (group_by_outcome parsed_odds) as [|[oa ea] [|[ob eb] [|[oc ec] [|? ?]]]];
    intros H; inversion H as [[Hloop Hst]]; clear H; intros Hin;
    try (subst opps; contradiction).
  - left.
    destruct (for_each_In _ _ _ _ Hloop Hin) as (a & chunk_a & Hia & Ha & Hin_a).
    destruct (for_each_In _ _ _ _ Ha Hin_a) as (b & chunk_b & Hib & Hb & Hin_b).
    exists oa, ea, ob, eb, a, b. split; [reflexivity|]. split; [exact Hia|].
    split; [exact Hib|]. exact (two_way_candidate_built _ _ _ _ _ _ _ _ Hb Hin_b).
  - right.
    destruct (for_each_In _ _ _ _ Hloop Hin) as (e1 & chunk_1 & Hi1 & H1 & Hin_1).
    destruct (for_each_In _ _ _ _ H1 Hin_1) as (ex & chunk_x & Hix & Hx & Hin_x).
    destruct (for_each_In _ _ _ _ Hx Hin_x) as (e2 & chunk_2 & Hi2 & H2 & Hin_2).
    exists oa, ea, ob, eb, oc, ec, e1, ex, e2. split; [reflexivity|].
    split; [exact Hi1|]. split; [exact Hix|]. split; [exact Hi2|].
    exact (three_way_candidate_built _ _ _ _ _ _ _ _ _ _ H2 Hin_2).
Qed.

(** X27. Every leg of a returned opportunity is one of the quotes passed
    in, listed under that quote's own outcome name, and the legs of one
    opportunity are for pairwise different outcomes. *)
Theorem find_arbitrage_opportunities_legs (cfg : Settings)
    (sharp_prices after : gmap string SharpPrice) (event : Event)
    (parsed_odds : list Entry) (opps : list Opportunity) (opp : Opportunity) :
  find_arbitrage_opportunities cfg sharp_prices event parsed_odds
  = (Returned opps, after) →
  In opp opps →
  Forall (fun b => ∃ e, In e parsed_odds ∧ b = bet_of (outcome e) e) (bets opp)
  ∧ NoDup (map bet_outcome (bets opp)).
Proof.
  intros Hfind Hin.
  destruct (group_by_outcome_grouped parsed_odds) as (Hnd & _ & Hmem).
  destruct (opportunity_origin _ _ _ _ _ _ _ Hfind Hin)
    as [(oa & ea & ob & eb & a & b & Hg & Ha & Hb & roi & rounded & -> & _)
       |(o1 & l1 & ox & lx & o2 & l2 & e1 & ex & e2 & Hg & H1 & Hx & H2
         & roi & rounded & -> & _)];
    rewrite Hg in Hnd, Hmem; simpl bets.
  - destruct (Hmem oa ea a (or_introl eq_refl) Ha) as [Hpa <-].
    destruct (Hmem ob eb b (or_intror (or_introl eq_refl)) Hb) as [Hpb <-].
    split; [|exact Hnd].
    constructor; [exists a; now split|].
    constructor; [exists b; now split|]. constructor.
  - destruct (Hmem o1 l1 e1 (or_introl eq_refl) H1) as [Hp1 <-].
    destruct (Hmem ox lx ex (or_intror (or_introl eq_refl)) Hx) as [Hpx <-].
    destruct (Hmem o2 l2 e2 (or_intror (or_intror (or_introl eq_refl))) H2)
      as [Hp2 <-].
    split; [|exact Hnd].
    constructor; [exists e1; now split|].
    constructor; [exists ex; now split|].
    constructor; [exists e2; now split|]. constructor.
Qed.

Lemma find_arbitrage_opportunities_legs_witness :
  ∃ (opp : Opportunity) (after : gmap string SharpPrice),
    find_arbitrage_opportunities settings ∅ shared_leg_event shared_leg_odds
    = (Returned [opp], after)
    ∧ Forall (fun b => ∃ e, In e shared_leg_odds ∧ b = bet_of (outcome e) e)
        (bets opp)
    ∧ NoDup (map bet_outcome (bets opp)).
Proof.
  eexists _, _. split; [vm_compute; reflexivity|].
  eapply (find_arbitrage_opportunities_legs settings ∅ _ shared_leg_event
            shared_leg_odds).
  - vm_compute. reflexivity.
  - left. reflexivity.
Defined.

(** X28. An event whose quotes name neither exactly two nor exactly three
    distinct outcomes yields no opportunity. *)
Theorem find_arbitrage_opportunities_market_shape (cfg : Settings)
    (sharp_prices after : gmap string SharpPrice) (event : Event)
    (parsed_odds : list Entry) (opps : list Opportunity) :
  distinct_outcomes parsed_odds ≠ 2%nat →
  distinct_outcomes parsed_odds ≠ 3%nat →
  find_arbitrage_opportunities cfg sharp_prices event parsed_odds
  = (Returned opps, after) →
  opps = [].
Proof.
  intros H2 H3. rewrite <- group_by_outcome_length in H2, H3.
  unfold find_arbitrage_opportunities.
  destruct (track_entries _ _ _ _) as [[[]|e] st]; [|discriminate].
  destruct (group_by_outcome parsed_odds) as [|[oa ea] [|[ob eb] [|[oc ec] [|? ?]]]];
    simpl in H2, H3; try congruence; intros H; now inversion H.
Qed.

Lemma find_arbitrage_opportunities_market_shape_witness :
  ∃ (opps : list Opportunity) (after : gmap string SharpPrice),
    find_arbitrage_opportunities settings ∅ two_way_event
      [ {| bookmaker := "bookmaker_x"; outcome := "A"; odds := 2.10 |};
        {| bookmaker := "bookmaker_y"; outcome := "A"; odds := 2.05 |} ]
    = (Returned opps, after)
    ∧ opps = [].
Proof.
  eexists _, _. split; [vm_compute; reflexivity|].
  eapply (find_arbitrage_opportunities_market_shape settings ∅ _ two_way_event
            [ {| bookmaker := "bookmaker_x"; outcome := "A"; odds := 2.10 |};
              {| bookmaker := "bookmaker_y"; outcome := "A"; odds := 2.05 |} ]).
  - vm_compute. discriminate.
  - vm_compute. discriminate.
  - vm_compute. reflexivity.
Defined.

(** ** When scanning an event can fail *)

Lemma for_each_total {A} (xs : list A) (body : A → result (list Opportunity)) :
  (∀ x, In x xs → ∃ chunk, body x = Returned chunk) →
  ∃ opps, for_each xs body = Returned opps.
Proof.
  intros Hbody. unfold for_each.
  assert (H : ∃ chunks, mapM body xs = Returned chunks).
  { induction xs as [|x xs IH]; [eexists; reflexivity|].
    destruct (Hbody x (or_introl eq_refl)) as (chunk & Hc).
    destruct IH as (chunks & Hcs); [intros y Hy; apply Hbody; now right|].
    simpl. rewrite Hc, bind_Returned, Hcs. eexists; reflexivity. }
  destruct H as (chunks & ->). eexists; reflexivity.
Qed.

Lemma two_way_candidate_total (cfg : Settings) (event : Event)
    (outcome_a outcome_b : string) (a b : Entry) :
  ∃ chunk, two_way_candidate cfg event outcome_a outcome_b a b = Returned chunk.
Proof.
  unfold two_way_candidate.
  destruct (String.eqb (bookmaker a) (bookmaker b)); [eexists; reflexivity|].
  destruct (detect_two_way_cases (odds a) (odds b))
    as (is_arb & roi & Hd & Hiff & _).
  rewrite Hd, bind_Returned.
  destruct is_arb; [|eexists; reflexivity].
  destruct (fst (apply_safety_filters _ _ _ _ _)); [|eexists; reflexivity].
  destruct (proj1 Hiff eq_refl) as (Ha & Hb & _).
  rewrite calculate_stakes_closed_form.
  - eexists; reflexivity.
  - repeat constructor; now apply pos_nonzero.
  - apply pos_nonzero. apply sum_inverses_pos; [discriminate|].
    repeat constructor; assumption.
Qed.

Lemma three_way_candidate_total (cfg : Settings) (event : Event)
    (outcome_1 outcome_x outcome_2 : string) (e1 ex e2 : Entry) :
  ∃ chunk,
    three_way_candidate cfg event outcome_1 outcome_x outcome_2 e1 ex e2
    = Returned chunk.
Proof.
  unfold three_way_candidate.
  destruct (size _ <? 2)%nat; [eexists; reflexivity|].
  destruct (detect_three_way_cases (odds e1) (odds ex) (odds e2))
    as (is_arb & roi & Hd & Hiff & _).
  rewrite Hd, bind_Returned.
  destruct is_arb; [|eexists; reflexivity].
  destruct (fst (apply_safety_filters _ _ _ _ _)); [|eexists; reflexivity].
  destruct (proj1 Hiff eq_refl) as (H1 & Hx & H2 & _).
  rewrite calculate_stakes_closed_form.
  - eexists; reflexivity.
  - repeat constructor; now apply pos_nonzero.
  - apply pos_nonzero. apply sum_inverses_pos; [discriminate|].
    repeat constructor; assumption.
Qed.

Lemma track_entries_nonzero (cfg : Settings) (event_id : string)
    (calls : list (string * Entry)) (sharp_prices : gmap string SharpPrice) :
  nonzero_sharp sharp_prices →
  Forall (fun c => ¬ odds (snd c) == 0) calls →
  ∃ after,
    track_entries cfg sharp_prices event_id calls = (Returned tt, after)
    ∧ nonzero_sharp after.
Proof.
  intros Hnz Hcalls. revert sharp_prices Hnz.
  induction Hcalls as [|[o e] rest He _ IH]; intros sharp_prices Hnz.
  - exists sharp_prices. split; [reflexivity|exact Hnz].
  - simpl in He. cbn [track_entries].
    destruct (track_value_nonzero_step cfg sharp_prices event_id (bookmaker e) o
                (odds e) Hnz He) as (result & mid & Hstep & Hmid).
    rewrite Hstep. now apply IH.
Qed.

Lemma tracking_calls_entries (parsed_odds : list Entry) (c : string * Entry) :
  In c (tracking_calls (group_by_outcome parsed_odds)) → In (snd c) parsed_odds.
Proof.
  destruct (group_by_outcome_grouped parsed_odds) as (_ & _ & Hmem).
  unfold tracking_calls. intros H. apply in_flat_map in H.
  destruct H as ([k es] & Hin & Hc). simpl in Hc.
  apply in_map_iff in Hc. destruct Hc as (e & <- & He).
  now destruct (Hmem k es e Hin He).
Qed.

(** X29. When no stored sharp price and no quoted price is zero,
    [find_arbitrage_opportunities] returns without raising, and again
    leaves no zero price stored: the only way it can fail is a division
    by a zero price in the value-bet tracking, the combination loops
    themselves never raise. *)
Theorem find_arbitrage_opportunities_returns (cfg : Settings)
    (sharp_prices : gmap string SharpPrice) (event : Event)
    (parsed_odds : list Entry) :
  nonzero_sharp sharp_prices →
  Forall (fun e => ¬ odds e == 0) parsed_odds →
  ∃ (opps : list Opportunity) (after : gmap string SharpPrice),
    find_arbitrage_opportunities cfg sharp_prices event parsed_odds
    = (Returned opps, after)
    ∧ nonzero_sharp after.
Proof.
  intros Hnz Hodds. unfold find_arbitrage_opportunities.
  destruct (track_entries_nonzero cfg (id event)
              (tracking_calls (group_by_outcome parsed_odds)) sharp_prices Hnz)
    as (after & Htrack & Hafter).
  { apply Forall_forall. intros c Hc%list_elem_of_In.
    apply tracking_calls_entries in Hc.
    rewrite Forall_forall in Hodds. apply Hodds. now apply list_elem_of_In. }
  rewrite Htrack.
  assert (Hloops :
    ∃ opps,
      match group_by_outcome parsed_odds with
      | [(outcome_a, entries_a); (outcome_b, entries_b)] =>
          for_each entries_a (fun odds_a_entry =>
            for_each entries_b (fun odds_b_entry =>
              two_way_candidate cfg event outcome_a outcome_b odds_a_entry
                odds_b_entry))
      | [(outcome_1, entries_1); (outcome_x, entries_x); (outcome_2, entries_2)] =>
          for_each entries_1 (fun odds_1 =>
            for_each entries_x (fun odds_x =>
              for_each entries_2 (fun odds_2 =>
                three_way_candidate cfg event outcome_1 outcome_x outcome_2
                  odds_1 odds_x odds_2)))
      | _ => Returned []
      end = Returned opps).
  { destruct (group_by_outcome parsed_odds)
      as [|[oa ea] [|[ob eb] [|[oc ec] [|? ?]]]]; try (eexists; reflexivity).
    - apply for_each_total. intros a _. apply for_each_total. intros b _.
      apply two_way_candidate_total.
    - apply for_each_total. intros e1 _. apply for_each_total. intros ex _.
      apply for_each_total. intros e2 _. apply three_way_candidate_total. }
  destruct Hloops as (opps & ->).
  exists opps, after. split; [reflexivity|exact Hafter].
Qed.

Lemma find_arbitrage_opportunities_returns_witness :
  ∃ (opps : list Opportunity) (after : gmap string SharpPrice),
    find_arbitrage_opportunities settings ∅ two_way_event two_way_odds
    = (Returned opps, after)
    ∧ nonzero_sharp after.
Proof.
  apply (find_arbitrage_opportunities_returns settings ∅ two_way_event two_way_odds).
  - exact nonzero_sharp_empty.
  - repeat constructor; now apply Qeq_bool_neq.
Defined.

(** A sharp quote of zero followed by a soft quote for the same outcome
    makes the whole scan of the event raise. *)
Example find_arbitrage_opportunities_zero_quote :
  fst (find_arbitrage_opportunities settings ∅ two_way_event
         [ {| bookmaker := "pinnacle"; outcome := "A"; odds := 0 |};
           {| bookmaker := "unibet"; outcome := "A"; odds := 2 |};
           {| bookmaker := "unibet"; outcome := "B"; odds := 2 |} ])
  = Raised ZeroDivisionError.
Proof. vm_compute. reflexivity. Qed.

(** * The arithmetic in binary64

    The properties below are about the functions of module [B64]: the
    same code with every arithmetic operation rounded as the interpreter
    rounds it. *)

(** ** The two-way test in binary64 *)


Lemma b64_ltb_zero_eqb (a : B64.float) :
  B64.ltb B64.zero a = true → B64.eqb a B64.zero = false.
Proof. destruct a as [[]|[]| |[] m e]; cbv; congruence. Qed.

Lemma b64_leb_zero_cases (a : B64.float) :
  B64.leb a B64.zero = false →
  a = S754_nan ∨ B64.ltb B64.zero a = true.
Proof. destruct a as [[]|[]| |[] m e]; cbv; auto; congruence. Qed.

Lemma b64_leb_zero_eqb (a : B64.float) :
  B64.leb a B64.zero = false → B64.eqb a B64.zero = false.
Proof. destruct a as [[]|[]| |[] m e]; cbv; congruence. Qed.

Lemma b64_truediv_Returned (x y : B64.float) :
  B64.eqb y B64.zero = false → B64.truediv x y = B64.Returned (B64.div x y).
Proof. intros H. unfold B64.truediv. now rewrite H. Qed.


Lemma b64_add_nan_l (y : B64.float) : B64.add S754_nan y = S754_nan.
Proof. reflexivity. Qed.

Lemma b64_add_nan_r (x : B64.float) : B64.add x S754_nan = S754_nan.
Proof. now destruct x. Qed.

Lemma b64_div_nan_r (x : B64.float) : B64.div x S754_nan = S754_nan.
Proof. now destruct x. Qed.

Lemma b64_detect_two_way_cases (a b : B64.float) :
  B64.leb a B64.zero = false → B64.leb b B64.zero = false →
  B64.detect_two_way_arbitrage a b =
    let total := B64.add (B64.div B64.one a) (B64.div B64.one b) in
    if (negb (B64.eqb total B64.zero) && B64.ltb total B64.one)%bool
    then B64.Returned (true, B64.mul (B64.sub (B64.div B64.one total) B64.one) (B64.of_Z 100))
    else B64.Returned (false, B64.zero).
Proof.
  intros Ha Hb. unfold B64.detect_two_way_arbitrage.
  rewrite Ha, Hb. cbn [orb].
  rewrite (b64_truediv_Returned _ a (b64_leb_zero_eqb a Ha)).
  rewrite (b64_truediv_Returned _ b (b64_leb_zero_eqb b Hb)).
  cbn [mbind B64.result_bind]. cbv zeta.
  destruct (B64.eqb _ B64.zero) eqn:E; cbn [negb andb]; [reflexivity|].
  destruct (B64.ltb _ B64.one) eqn:L; [|reflexivity].
  now rewrite (b64_truediv_Returned _ _ E).
Qed.




(** ** Value-bet tracking in binary64 *)

(** C7 (as amended).  Under the shipped
    configuration [track_value_opportunity] emits a value-bet signal
    exactly when the bookmaker is soft-tier, a sharp consensus price is
    stored for the key of the event and outcome, that price is not zero,
    and the gap [((current - stored) / stored) * 100], each of the three
    operations rounded to binary64, compares greater than
    [DRIFT_VALUE_THRESHOLD]; the signal carries the outcome, the soft
    bookmaker and its price, the stored sharp bookmaker and its price,
    and that computed gap. *)
Theorem binary64_value_signal_spec (sharp_prices : gmap string B64.SharpPrice)
    (event_id bookmaker outcome : string) (current_odds : B64.float)
    (alert : B64.ValueBet) :
  fst (B64.track_value_opportunity settings sharp_prices event_id bookmaker outcome
         current_odds) = B64.Returned (Some alert)
  ↔ classify_bookmaker settings bookmaker = "soft"
    ∧ ∃ stored : B64.SharpPrice,
        sharp_prices !! event_outcome_key event_id outcome = Some stored
        ∧ B64.eqb (B64.sp_odds stored) B64.zero = false
        ∧ B64.gtb (B64.percent_over current_odds (B64.sp_odds stored))
                  (B64.of_Q (DRIFT_VALUE_THRESHOLD settings)) = true
        ∧ alert = {| B64.vb_event_id := event_id;
                     B64.vb_outcome := outcome;
                     B64.soft_bookmaker := bookmaker;
                     B64.soft_odds := current_odds;
                     B64.sharp_bookmaker := B64.sp_bookmaker stored;
                     B64.sharp_odds := B64.sp_odds stored;
                     B64.value_gap :=
                       B64.percent_over current_odds (B64.sp_odds stored) |}.
Proof.
  unfold B64.track_value_opportunity. fold (is_drift_sharp settings bookmaker).
  split.
  - destruct (is_drift_sharp settings bookmaker) eqn:Ed.
    { destruct (sharp_prices !! event_outcome_key event_id outcome) as [stored|];
        [|discriminate].
      destruct (B64.ltb current_odds (B64.sp_odds stored)); [|discriminate].
      destruct (B64.truediv _ _); [|discriminate].
      destruct (B64.gtb _ _); discriminate. }
    destruct (String.eqb (classify_bookmaker settings bookmaker) "soft") eqn:Ec;
      [|discriminate].
    apply String.eqb_eq in Ec.
    destruct (sharp_prices !! event_outcome_key event_id outcome) as [stored|];
      [|discriminate].
    unfold B64.truediv.
    destruct (B64.eqb (B64.sp_odds stored) B64.zero) eqn:E0; [discriminate|].
    fold (B64.percent_over current_odds (B64.sp_odds stored)).
    destruct (B64.gtb _ _) eqn:Eg; [|discriminate].
    cbn [fst]. intros H. inversion H; subst. clear H.
    split; [exact Ec|]. exists stored. repeat split; assumption.
  - intros (Hc & stored & Hs & H0 & Hgap & ->).
    rewrite (soft_not_drift_sharp _ Hc), Hc, Hs. simpl String.eqb. cbv iota.
    rewrite (b64_truediv_Returned _ _ H0).
    fold (B64.percent_over current_odds (B64.sp_odds stored)).
    now rewrite Hgap.
Qed.

Lemma binary64_value_signal_spec_witness :
  fst (B64.track_value_opportunity settings
         {[ "evt1:Lakers" := {| B64.sp_bookmaker := "pinnacle";
                                B64.sp_odds := B64.of_Q 1.80 |} ]}
         "evt1" "unibet_us" "Lakers" (B64.of_Q 1.90))
  = B64.Returned (Some {| B64.vb_event_id := "evt1";
                          B64.vb_outcome := "Lakers";
                          B64.soft_bookmaker := "unibet_us";
                          B64.soft_odds := B64.of_Q 1.90;
                          B64.sharp_bookmaker := "pinnacle";
                          B64.sharp_odds := B64.of_Q 1.80;
                          B64.value_gap :=
                            B64.percent_over (B64.of_Q 1.90) (B64.of_Q 1.80) |}).
Proof.
  apply (proj2 (binary64_value_signal_spec _ "evt1" "unibet_us" "Lakers"
                  (B64.of_Q 1.90) _)).
  split; [reflexivity|].
  exists {| B64.sp_bookmaker := "pinnacle"; B64.sp_odds := B64.of_Q 1.80 |}.
  split; [apply lookup_singleton_eq|].
  split; [vm_compute; reflexivity|]. split; [vm_compute; reflexivity|reflexivity].
Defined.

(** C7 as stated fails where the computed gap meets the threshold.  The
    stored sharp price is the float 0x1.ca264269e0d37p+0 and the soft
    price the float 0x1.e10e9288c5aadp+0: the exact gap of these two
    values is above 5 percent, the gap the code computes is [5.0], and no
    signal is emitted. *)
Lemma binary64_value_gap_rounds_to_threshold :
  let stored := S754_finite false 0x1ca264269e0d37 (-52) in
  let current := S754_finite false 0x1e10e9288c5aad (-52) in
  classify_bookmaker settings "unibet" = "soft"
  ∧ (¬ B64.to_Q stored == 0
     ∧ DRIFT_VALUE_THRESHOLD settings
       < (B64.to_Q current - B64.to_Q stored) / B64.to_Q stored * 100)%Q
  ∧ B64.percent_over current stored = B64.of_Z 5
  ∧ B64.track_value_opportunity settings
      {[ "evt1:Lakers" := {| B64.sp_bookmaker := "pinnacle"; B64.sp_odds := stored |} ]}
      "evt1" "unibet" "Lakers" current
    = (B64.Returned None,
       {[ "evt1:Lakers" := {| B64.sp_bookmaker := "pinnacle"; B64.sp_odds := stored |} ]}).
Proof.
  cbv zeta. split; [reflexivity|]. split.
  { split; [discriminate|]. vm_compute. reflexivity. }
  split; [vm_compute; reflexivity|].
  unfold B64.track_value_opportunity.
  change (mem (lower (split_head "_" "unibet"))
              (map lower (DRIFT_SHARP_BOOKMAKERS settings))) with false.
  change (String.eqb (classify_bookmaker settings "unibet") "soft") with true.
  cbv iota.
  change (event_outcome_key "evt1" "Lakers") with "evt1:Lakers".
  rewrite lookup_singleton_eq.
  cbn [B64.sp_odds B64.sp_bookmaker].
  match goal with
  | |- context [B64.truediv ?x ?y] =>
      let v := eval vm_compute in (B64.truediv x y) in
      change (B64.truediv x y) with v
  end.
  cbv iota beta.
  match goal with
  | |- context [B64.gtb ?x ?y] =>
      let v := eval vm_compute in (B64.gtb x y) in
      change (B64.gtb x y) with v
  end.
  reflexivity.
Qed.

(** ** Stake allocation in binary64 *)

(** Rounding a magnitude that carries a positive sign never yields a
    value below zero. *)
Lemma b64_round_aux_not_negative (m e : Z) (l : location) :
  B64.ltb (binary_round_aux B64.prec B64.emax false m e l) B64.zero = false.
Proof.
  unfold binary_round_aux.
  destruct (shr_fexp B64.prec B64.emax m e l) as [mrs' e'].
  destruct (shr_fexp B64.prec B64.emax _ e' loc_Exact) as [mrs'' e''].
  destruct (shr_m mrs''); [reflexivity| |reflexivity].
  destruct (Z.leb e'' (B64.emax - B64.prec)); reflexivity.
Qed.

Lemma b64_mul_not_negative (x y : B64.float) :
  B64.ltb x B64.zero = false → B64.ltb y B64.zero = false →
  B64.ltb (B64.mul x y) B64.zero = false.
Proof.
  destruct x as [[]|[]| |[] mx ex], y as [[]|[]| |[] my ey];
    try reflexivity; try (intros H; discriminate H);
    try (intros _ H; discriminate H).
  intros _ _. apply b64_round_aux_not_negative.
Qed.

Lemma b64_div_not_negative (x y : B64.float) :
  B64.ltb x B64.zero = false → B64.ltb y B64.zero = false →
  B64.eqb y B64.zero = false →
  B64.ltb (B64.div x y) B64.zero = false.
Proof.
  destruct x as [[]|[]| |[] mx ex], y as [[]|[]| |[] my ey];
    try reflexivity; try (intros H; discriminate H);
    try (intros _ H; discriminate H); try (intros _ _ H; discriminate H).
  intros _ _ _. unfold B64.div, SFdiv.
  destruct (SFdiv_core_binary B64.prec B64.emax (Z.pos mx) ex (Z.pos my) ey)
    as [[mz ez] lz].
  apply b64_round_aux_not_negative.
Qed.


Lemma b64_ltb_zero_not_negative (a : B64.float) :
  B64.ltb B64.zero a = true → B64.ltb a B64.zero = false.
Proof. destruct a as [[]|[]| |[] m e]; cbv; congruence. Qed.


Lemma b64_inverse_not_negative (o : B64.float) :
  B64.ltb B64.zero o = true → B64.ltb (B64.div B64.one o) B64.zero = false.
Proof.
  intros H. apply b64_div_not_negative.
  - reflexivity.
  - now apply b64_ltb_zero_not_negative.
  - now apply b64_ltb_zero_eqb.
Qed.









(** ** Detection on arbitrary binary64 inputs *)

Lemma b64_leb_zero_true (a : B64.float) :
  B64.leb a B64.zero = true → B64.ltb B64.zero a = false.
Proof. destruct a as [[]|[]| |[] m e]; cbv; congruence. Qed.


(** X4. On every pair of floats, not-a-number and the infinities
    included, [detect_two_way_arbitrage] returns without raising.  It
    reports an arbitrage exactly when both odds compare above zero and
    the binary64 sum of the two rounded inverses is non-zero and compares
    below [1.0]; the ROI is then [(1/total - 1) * 100] evaluated in
    binary64, and otherwise [0.0]. *)
Theorem binary64_two_way_arbitrage_complete (a b : B64.float) :
  let total := B64.add (B64.div B64.one a) (B64.div B64.one b) in
  ∃ (is_arb : bool) (roi : B64.float),
    B64.detect_two_way_arbitrage a b = B64.Returned (is_arb, roi)
    ∧ (is_arb = true
       ↔ B64.ltb B64.zero a = true ∧ B64.ltb B64.zero b = true
         ∧ B64.eqb total B64.zero = false ∧ B64.ltb total B64.one = true)
    ∧ roi = (if is_arb
             then B64.mul (B64.sub (B64.div B64.one total) B64.one) (B64.of_Z 100)
             else B64.zero).
Proof.
  intros total.
  destruct (B64.leb a B64.zero) eqn:Ea.
  { exists false, B64.zero. unfold B64.detect_two_way_arbitrage. rewrite Ea.
    split; [reflexivity|]. split; [|reflexivity]. split; [discriminate|].
    intros (H & _). rewrite (b64_leb_zero_true a Ea) in H. discriminate H. }
  destruct (B64.leb b B64.zero) eqn:Eb.
  { exists false, B64.zero. unfold B64.detect_two_way_arbitrage. rewrite Ea, Eb.
    split; [reflexivity|]. split; [|reflexivity]. split; [discriminate|].
    intros (_ & H & _). rewrite (b64_leb_zero_true b Eb) in H. discriminate H. }
  rewrite (b64_detect_two_way_cases a b Ea Eb). cbv zeta. fold total.
  destruct (B64.eqb total B64.zero) eqn:E; cbn [negb andb].
  { exists false, B64.zero. split; [reflexivity|]. split; [|reflexivity].
    split; [discriminate|]. intros (_ & _ & H & _). discriminate H. }
  destruct (B64.ltb total B64.one) eqn:L.
  - eexists true, _. split; [reflexivity|]. split; [|reflexivity].
    split; [|reflexivity]. intros _.
    destruct (b64_leb_zero_cases a Ea) as [->|Ha].
    { subst total. rewrite b64_div_nan_r, b64_add_nan_l in L. discriminate L. }
    destruct (b64_leb_zero_cases b Eb) as [->|Hb].
    { subst total. rewrite b64_div_nan_r, b64_add_nan_r in L. discriminate L. }
    repeat split; assumption.
  - exists false, B64.zero. split; [reflexivity|]. split; [|reflexivity].
    split; [discriminate|]. intros (_ & _ & _ & H). discriminate H.
Qed.

Lemma b64_detect_three_way_cases (odds_1 odds_x odds_2 : B64.float) :
  B64.leb odds_1 B64.zero = false → B64.leb odds_x B64.zero = false →
  B64.leb odds_2 B64.zero = false →
  B64.detect_three_way_arbitrage odds_1 odds_x odds_2 =
    let total := B64.add (B64.add (B64.div B64.one odds_1) (B64.div B64.one odds_x))
                         (B64.div B64.one odds_2) in
    if (negb (B64.eqb total B64.zero) && B64.ltb total B64.one)%bool
    then B64.Returned (true, B64.mul (B64.sub (B64.div B64.one total) B64.one) (B64.of_Z 100))
    else B64.Returned (false, B64.zero).
Proof.
  intros H1 Hx H2. unfold B64.detect_three_way_arbitrage.
  rewrite H1, Hx, H2. cbn [orb].
  rewrite (b64_truediv_Returned _ _ (b64_leb_zero_eqb _ H1)).
  rewrite (b64_truediv_Returned _ _ (b64_leb_zero_eqb _ Hx)).
  rewrite (b64_truediv_Returned _ _ (b64_leb_zero_eqb _ H2)).
  cbn [mbind B64.result_bind]. cbv zeta.
  destruct (B64.eqb _ B64.zero) eqn:E; cbn [negb andb]; [reflexivity|].
  destruct (B64.ltb _ B64.one) eqn:L; [|reflexivity].
  now rewrite (b64_truediv_Returned _ _ E).
Qed.

(** X5. On every triple of floats [detect_three_way_arbitrage] returns
    without raising.  It reports an arbitrage exactly when the three odds
    compare above zero and the binary64 sum [(1/o1 + 1/ox) + 1/o2], added
    in that order, is non-zero and compares below [1.0]; the ROI is then
    [(1/total - 1) * 100] evaluated in binary64, and otherwise [0.0]. *)
Theorem binary64_three_way_arbitrage_complete (odds_1 odds_x odds_2 : B64.float) :
  let total := B64.add (B64.add (B64.div B64.one odds_1) (B64.div B64.one odds_x))
                       (B64.div B64.one odds_2) in
  ∃ (is_arb : bool) (roi : B64.float),
    B64.detect_three_way_arbitrage odds_1 odds_x odds_2 = B64.Returned (is_arb, roi)
    ∧ (is_arb = true
       ↔ B64.ltb B64.zero odds_1 = true ∧ B64.ltb B64.zero odds_x = true
         ∧ B64.ltb B64.zero odds_2 = true
         ∧ B64.eqb total B64.zero = false ∧ B64.ltb total B64.one = true)
    ∧ roi = (if is_arb
             then B64.mul (B64.sub (B64.div B64.one total) B64.one) (B64.of_Z 100)
             else B64.zero).
Proof.
  intros total.
  destruct (B64.leb odds_1 B64.zero) eqn:E1.
  { exists false, B64.zero. unfold B64.detect_three_way_arbitrage. rewrite E1.
    split; [reflexivity|]. split; [|reflexivity]. split; [discriminate|].
    intros (H & _). rewrite (b64_leb_zero_true _ E1) in H. discriminate H. }
  destruct (B64.leb odds_x B64.zero) eqn:Ex.
  { exists false, B64.zero. unfold B64.detect_three_way_arbitrage. rewrite E1, Ex.
    split; [reflexivity|]. split; [|reflexivity]. split; [discriminate|].
    intros (_ & H & _). rewrite (b64_leb_zero_true _ Ex) in H. discriminate H. }
  destruct (B64.leb odds_2 B64.zero) eqn:E2.
  { exists false, B64.zero. unfold B64.detect_three_way_arbitrage.
    rewrite E1, Ex, E2.
    split; [reflexivity|]. split; [|reflexivity]. split; [discriminate|].
    intros (_ & _ & H & _). rewrite (b64_leb_zero_true _ E2) in H. discriminate H. }
  rewrite (b64_detect_three_way_cases _ _ _ E1 Ex E2). cbv zeta. fold total.
  destruct (B64.eqb total B64.zero) eqn:E; cbn [negb andb].
  { exists false, B64.zero. split; [reflexivity|]. split; [|reflexivity].
    split; [discriminate|]. intros (_ & _ & _ & H & _). discriminate H. }
  destruct (B64.ltb total B64.one) eqn:L.
  - eexists true, _. split; [reflexivity|]. split; [|reflexivity].
    split; [|reflexivity]. intros _.
    destruct (b64_leb_zero_cases _ E1) as [->|H1].
    { subst total. rewrite b64_div_nan_r, !b64_add_nan_l in L. discriminate L. }
    destruct (b64_leb_zero_cases _ Ex) as [->|Hx].
    { subst total. rewrite b64_div_nan_r, b64_add_nan_r, b64_add_nan_l in L.
      discriminate L. }
    destruct (b64_leb_zero_cases _ E2) as [->|H2].
    { subst total. rewrite b64_div_nan_r, b64_add_nan_r in L. discriminate L. }
    repeat split; assumption.
  - exists false, B64.zero. split; [reflexivity|]. split; [|reflexivity].
    split; [discriminate|]. intros (_ & _ & _ & _ & H). discriminate H.
Qed.

(** The answer of the three-way test depends on the order of its
    arguments: the inverses of 2, 3 and 6 sum to one exactly, and to a
    float just below one when added in the order 2, 3, 6. *)
Example binary64_three_way_order :
  (∃ roi, B64.detect_three_way_arbitrage (B64.of_Z 2) (B64.of_Z 3) (B64.of_Z 6)
          = B64.Returned (true, roi))
  ∧ B64.detect_three_way_arbitrage (B64.of_Z 6) (B64.of_Z 3) (B64.of_Z 2)
    = B64.Returned (false, B64.zero).
Proof. split; [eexists|]; vm_compute; reflexivity. Qed.

(** The implied probabilities of 1.5 and 3.0 add up to a float below 100
    while the two-way test, which adds the inverses before scaling, finds
    their sum equal to one. *)
Example binary64_implied_probability_total :
  ∃ pa pb : B64.float,
    B64.calculate_implied_probability (B64.of_Q 1.5) = B64.Returned pa
    ∧ B64.calculate_implied_probability (B64.of_Z 3) = B64.Returned pb
    ∧ B64.ltb (B64.add pa pb) (B64.of_Z 100) = true
    ∧ B64.detect_two_way_arbitrage (B64.of_Q 1.5) (B64.of_Z 3)
      = B64.Returned (false, B64.zero).
Proof. eexists _, _. repeat split; vm_compute; reflexivity. Qed.

(** ** Plain drift tracking in binary64 *)

Lemma b64_drift_scan_alert (cfg : Settings) (event_id : string)
    (prev items : dict B64.float) (alert : B64.DriftAlert) :
  B64.drift_scan cfg event_id prev items = B64.Returned (Some alert) →
  ∃ (before rest : dict B64.float) (o : string) (c p : B64.float),
    items = (before ++ (o, c) :: rest)%list
    ∧ dict_get prev o = Some p
    ∧ B64.eqb p B64.zero = false
    ∧ B64.gtb (B64.percent_move c p) (B64.of_Q (DRIFT_THRESHOLD_PERCENT cfg)) = true
    ∧ alert = {| B64.da_event_id := event_id; B64.da_outcome := o;
                 B64.da_previous_odds := p; B64.da_current_odds := c;
                 B64.drift_percent := B64.percent_move c p |}
    ∧ Forall (fun item =>
                ∀ p', dict_get prev (fst item) = Some p' →
                      B64.eqb p' B64.zero = false
                      ∧ B64.gtb (B64.percent_move (snd item) p')
                                (B64.of_Q (DRIFT_THRESHOLD_PERCENT cfg)) = false)
        before.
Proof.
  induction items as [|[o c] rest IH]; [discriminate|].
  cbn [B64.drift_scan].
  destruct (dict_get prev o) as [p|] eqn:Ep.
  - unfold B64.truediv. destruct (B64.eqb p B64.zero) eqn:E0; [discriminate|].
    cbn [mbind B64.result_bind]. cbv zeta.
    fold (B64.percent_move c p).
    destruct (B64.gtb (B64.percent_move c p)
                (B64.of_Q (DRIFT_THRESHOLD_PERCENT cfg))) eqn:Eg.
    + intros H. inversion H; subst. clear H.
      exists [], rest, o, c, p. repeat split; auto.
    + intros H.
      destruct (IH H) as (before & rest' & o' & c' & p' & -> & H1 & H2 & H3 & H4 & H5).
      exists ((o, c) :: before), rest', o', c', p'.
      repeat split; auto. constructor; [|exact H5].
      cbn [fst snd]. intros p'' Hp''. assert (p'' = p) as -> by congruence.
      split; assumption.
  - intros H.
    destruct (IH H) as (before & rest' & o' & c' & p' & -> & H1 & H2 & H3 & H4 & H5).
    exists ((o, c) :: before), rest', o', c', p'.
    repeat split; auto. constructor; [|exact H5].
    cbn [fst]. intros p'' Hp''. congruence.
Qed.

(** X20. A drift alert is about the first outcome, in the order of
    [current_odds], whose move [abs((current - previous) / previous) * 100],
    every operation rounded to binary64, compares greater than
    [DRIFT_THRESHOLD_PERCENT]; the previous price is not zero, the alert
    reports that outcome, both prices and the computed move, and for every
    earlier outcome with a previous price the computed move does not
    compare greater than the threshold. *)
Theorem binary64_drift_alert_first (cfg : Settings)
    (previous_odds after : gmap string (dict B64.float)) (event_id : string)
    (current_odds : dict B64.float) (alert : B64.DriftAlert) :
  B64.track_odds_drift cfg previous_odds event_id current_odds
  = (B64.Returned (Some alert), after) →
  ∃ (prev before rest : dict B64.float) (o : string) (c p : B64.float),
    previous_odds !! event_id = Some prev
    ∧ current_odds = (before ++ (o, c) :: rest)%list
    ∧ dict_get prev o = Some p
    ∧ B64.eqb p B64.zero = false
    ∧ B64.gtb (B64.percent_move c p) (B64.of_Q (DRIFT_THRESHOLD_PERCENT cfg)) = true
    ∧ alert = {| B64.da_event_id := event_id; B64.da_outcome := o;
                 B64.da_previous_odds := p; B64.da_current_odds := c;
                 B64.drift_percent := B64.percent_move c p |}
    ∧ Forall (fun item =>
                ∀ p', dict_get prev (fst item) = Some p' →
                      B64.eqb p' B64.zero = false
                      ∧ B64.gtb (B64.percent_move (snd item) p')
                                (B64.of_Q (DRIFT_THRESHOLD_PERCENT cfg)) = false)
        before.
Proof.
  unfold B64.track_odds_drift.
  destruct (negb (ENABLE_DRIFT_TRACKER cfg)); [discriminate|].
  destruct (previous_odds !! event_id) as [prev|]; [|discriminate].
  destruct (B64.drift_scan cfg event_id prev current_odds) as [[a|]|e] eqn:Es;
    try discriminate.
  intros H. inversion H; subst. clear H.
  destruct (b64_drift_scan_alert _ _ _ _ _ Es) as (before & rest & o & c & p & Hx).
  exists prev, before, rest, o, c, p. split; [reflexivity|exact Hx].
Qed.

Lemma binary64_drift_alert_first_witness :
  ∃ (prev before rest : dict B64.float) (o : string) (c p : B64.float),
    ({[ "evt1" := [("Lakers", B64.of_Z 2)] ]} : gmap string (dict B64.float)) !! "evt1"
    = Some prev
    ∧ [("Lakers", B64.of_Q 2.2)] = (before ++ (o, c) :: rest)%list
    ∧ dict_get prev o = Some p
    ∧ B64.eqb p B64.zero = false
    ∧ B64.gtb (B64.percent_move c p) (B64.of_Q (DRIFT_THRESHOLD_PERCENT settings)) = true
    ∧ {| B64.da_event_id := "evt1"; B64.da_outcome := "Lakers";
         B64.da_previous_odds := B64.of_Z 2; B64.da_current_odds := B64.of_Q 2.2;
         B64.drift_percent := B64.percent_move (B64.of_Q 2.2) (B64.of_Z 2) |}
      = {| B64.da_event_id := "evt1"; B64.da_outcome := o;
           B64.da_previous_odds := p; B64.da_current_odds := c;
           B64.drift_percent := B64.percent_move c p |}
    ∧ Forall (fun item =>
                ∀ p', dict_get prev (fst item) = Some p' →
                      B64.eqb p' B64.zero = false
                      ∧ B64.gtb (B64.percent_move (snd item) p')
                                (B64.of_Q (DRIFT_THRESHOLD_PERCENT settings)) = false)
        before.
Proof.
  apply (binary64_drift_alert_first settings {[ "evt1" := [("Lakers", B64.of_Z 2)] ]}
           {[ "evt1" := [("Lakers", B64.of_Z 2)] ]} "evt1"
           [("Lakers", B64.of_Q 2.2)]).
  unfold B64.track_odds_drift. rewrite lookup_singleton_eq.
  vm_compute. reflexivity.
Defined.

(** An earlier outcome whose exact move is above 5 percent is passed over
    when the computed move is [5.0]: the alert is then about a later
    outcome. *)
Example binary64_drift_alert_skips_boundary :
  let stored := S754_finite false 0x1ca264269e0d37 (-52) in
  let current := S754_finite false 0x1e10e9288c5aad (-52) in
  (DRIFT_THRESHOLD_PERCENT settings
   < Qabs ((B64.to_Q current - B64.to_Q stored) / B64.to_Q stored) * 100)%Q
  ∧ ∃ alert,
      fst (B64.track_odds_drift settings
             {[ "evt1" := [("Lakers", stored); ("Celtics", B64.of_Z 2)] ]}
             "evt1" [("Lakers", current); ("Celtics", B64.of_Z 3)])
      = B64.Returned (Some alert)
      ∧ B64.da_outcome alert = "Celtics".
Proof.
  cbv zeta. split; [vm_compute; reflexivity|].
  eexists. unfold B64.track_odds_drift. rewrite lookup_singleton_eq.
  split; vm_compute; reflexivity.
Qed.

(** ** Failing divisions in the stake allocation *)







Example binary64_calculate_stakes_divisions :
  B64.calculate_stakes settings (B64.of_Z 1000) [B64.of_Z 1; B64.of_Z (-1)]
  = B64.Raised B64.ZeroDivisionError
  ∧ B64.calculate_stakes settings (B64.of_Z 1000) [B64.of_Z 2; B64.zero]
    = B64.Raised B64.ZeroDivisionError
  ∧ B64.calculate_stakes settings (B64.of_Z 1000) [] = B64.Returned []
  ∧ ∃ rounded,
      B64.calculate_stakes settings (B64.of_Z 1000)
        [B64.of_Z 6; B64.of_Z 6; B64.of_Z 6; B64.of_Z 6; B64.of_Z 6; B64.of_Z 6;
         B64.of_Z (-1)]
      = B64.Returned rounded.
Proof. repeat split; [eexists]; vm_compute; reflexivity. Qed.

(** ** Where a binary64 opportunity comes from *)

Lemma b64_detect_two_way_true (a b roi : B64.float) :
  B64.detect_two_way_arbitrage a b = B64.Returned (true, roi) →
  B64.ltb B64.zero a = true ∧ B64.ltb B64.zero b = true
  ∧ B64.eqb (B64.add (B64.div B64.one a) (B64.div B64.one b)) B64.zero = false
  ∧ B64.ltb (B64.add (B64.div B64.one a) (B64.div B64.one b)) B64.one = true
  ∧ roi = B64.mul (B64.sub (B64.div B64.one
                              (B64.add (B64.div B64.one a) (B64.div B64.one b)))
                           B64.one)
                  (B64.of_Z 100).
Proof.
  destruct (B64.leb a B64.zero) eqn:Ea.
  { unfold B64.detect_two_way_arbitrage. rewrite Ea. discriminate. }
  destruct (B64.leb b B64.zero) eqn:Eb.
  { unfold B64.detect_two_way_arbitrage. rewrite Ea, Eb. discriminate. }
  rewrite (b64_detect_two_way_cases a b Ea Eb). cbv zeta.
  destruct (B64.eqb _ B64.zero) eqn:E; cbn [negb andb]; [discriminate|].
  destruct (B64.ltb _ B64.one) eqn:L; [|discriminate].
  intros H. inversion H; subst. clear H.
  destruct (b64_leb_zero_cases a Ea) as [->|Ha].
  { rewrite b64_div_nan_r, b64_add_nan_l in L. discriminate L. }
  destruct (b64_leb_zero_cases b Eb) as [->|Hb].
  { rewrite b64_div_nan_r, b64_add_nan_r in L. discriminate L. }
  repeat split; assumption.
Qed.

Lemma b64_detect_three_way_true (odds_1 odds_x odds_2 roi : B64.float) :
  B64.detect_three_way_arbitrage odds_1 odds_x odds_2 = B64.Returned (true, roi) →
  B64.ltb B64.zero odds_1 = true ∧ B64.ltb B64.zero odds_x = true
  ∧ B64.ltb B64.zero odds_2 = true
  ∧ B64.eqb (B64.add (B64.add (B64.div B64.one odds_1) (B64.div B64.one odds_x))
                     (B64.div B64.one odds_2)) B64.zero = false
  ∧ B64.ltb (B64.add (B64.add (B64.div B64.one odds_1) (B64.div B64.one odds_x))
                     (B64.div B64.one odds_2)) B64.one = true
  ∧ roi = B64.mul (B64.sub (B64.div B64.one
                              (B64.add (B64.add (B64.div B64.one odds_1)
                                                (B64.div B64.one odds_x))
                                       (B64.div B64.one odds_2)))
                           B64.one)
                  (B64.of_Z 100).
Proof.
  destruct (B64.leb odds_1 B64.zero) eqn:E1.
  { unfold B64.detect_three_way_arbitrage. rewrite E1. discriminate. }
  destruct (B64.leb odds_x B64.zero) eqn:Ex.
  { unfold B64.detect_three_way_arbitrage. rewrite E1, Ex. discriminate. }
  destruct (B64.leb odds_2 B64.zero) eqn:E2.
  { unfold B64.detect_three_way_arbitrage. rewrite E1, Ex, E2. discriminate. }
  rewrite (b64_detect_three_way_cases _ _ _ E1 Ex E2). cbv zeta.
  destruct (B64.eqb _ B64.zero) eqn:E; cbn [negb andb]; [discriminate|].
  destruct (B64.ltb _ B64.one) eqn:L; [|discriminate].
  intros H. inversion H; subst. clear H.
  destruct (b64_leb_zero_cases _ E1) as [->|H1].
  { rewrite b64_div_nan_r, !b64_add_nan_l in L. discriminate L. }
  destruct (b64_leb_zero_cases _ Ex) as [->|Hx].
  { rewrite b64_div_nan_r, b64_add_nan_r, b64_add_nan_l in L. discriminate L. }
  destruct (b64_leb_zero_cases _ E2) as [->|H2].
  { rewrite b64_div_nan_r, b64_add_nan_r in L. discriminate L. }
  repeat split; assumption.
Qed.

Lemma b64_apply_safety_filters_pass (cfg : Settings) (roi : B64.float)
    (a b sport : string) :
  fst (B64.apply_safety_filters cfg roi a b sport) = true →
  B64.gtb roi (B64.of_Q (MAX_ROI_THRESHOLD cfg)) = false
  ∧ B64.ltb roi (B64.of_Q (MIN_ROI_THRESHOLD cfg)) = false.
Proof.
  unfold B64.apply_safety_filters.
  destruct (B64.gtb roi (B64.of_Q (MAX_ROI_THRESHOLD cfg))); [discriminate|].
  destruct (B64.ltb roi (B64.of_Q (MIN_ROI_THRESHOLD cfg))); [discriminate|].
  intros _. split; reflexivity.
Qed.

Lemma b64_mapM_Returned {A B} (f : A → B64.result B) (xs : list A) (ys : list B) :
  mapM f xs = B64.Returned ys → Forall2 (fun x y => f x = B64.Returned y) xs ys.
Proof.
  revert ys. induction xs as [|x xs IH]; intros ys; cbn [mapM].
  - intros H. inversion H. constructor.
  - destruct (f x) as [y|e] eqn:Ef; [|discriminate].
    cbn [mbind B64.result_bind].
    destruct (mapM f xs) as [ys'|e]; [|discriminate].
    cbn [mbind B64.result_bind]. intros H. inversion H; subst.
    constructor; [exact Ef|]. now apply IH.
Qed.

Lemma b64_for_each_In {A} (xs : list A) (body : A → B64.result (list B64.Opportunity))
    (opps : list B64.Opportunity) (opp : B64.Opportunity) :
  B64.for_each xs body = B64.Returned opps →
  In opp opps →
  ∃ (x : A) (chunk : list B64.Opportunity),
    In x xs ∧ body x = B64.Returned chunk ∧ In opp chunk.
Proof.
  unfold B64.for_each.
  destruct (mapM body xs) as [chunks|e] eqn:Em; [|discriminate].
  cbn [mbind B64.result_bind]. intros H Hin. inversion H; subst. clear H.
  apply in_concat in Hin. destruct Hin as (chunk & Hchunk & Hopp).
  apply b64_mapM_Returned in Em.
  clear -Em Hchunk Hopp.
  induction Em as [|x y xs ys Hxy _ IH]; [contradiction|].
  destruct Hchunk as [->|Hchunk].
  - exists x, chunk. split; [now left|]. split; assumption.
  - destruct (IH Hchunk) as (x' & chunk' & Hx' & Hb & Ho).
    exists x', chunk'. split; [now right|]. split; assumption.
Qed.

Lemma b64_two_way_candidate_built (cfg : Settings) (event : Event)
    (outcome_a outcome_b : string) (a b : B64.Entry)
    (chunk : list B64.Opportunity) (opp : B64.Opportunity) :
  B64.two_way_candidate cfg event outcome_a outcome_b a b = B64.Returned chunk →
  In opp chunk →
  ∃ (legs : list B64.Bet) (rounded : list Z),
    opp = B64.make_opportunity event
            (B64.mul (B64.sub (B64.div B64.one (B64.implied_total legs)) B64.one)
                     (B64.of_Z 100))
            legs rounded
    ∧ Forall (fun l => B64.ltb B64.zero (B64.bet_odds l) = true) legs
    ∧ B64.eqb (B64.implied_total legs) B64.zero = false
    ∧ B64.ltb (B64.implied_total legs) B64.one = true
    ∧ B64.gtb (B64.opp_roi opp) (B64.of_Q (MAX_ROI_THRESHOLD cfg)) = false
    ∧ B64.ltb (B64.opp_roi opp) (B64.of_Q (MIN_ROI_THRESHOLD cfg)) = false
    ∧ B64.calculate_stakes cfg (B64.of_Q (DEFAULT_TOTAL_INVESTMENT cfg))
        (map B64.bet_odds legs)
      = B64.Returned rounded.
Proof.
  unfold B64.two_way_candidate.
  destruct (String.eqb (B64.bookmaker a) (B64.bookmaker b)).
  { intros H; inversion H; subst. contradiction. }
  destruct (B64.detect_two_way_arbitrage (B64.odds a) (B64.odds b))
    as [[is_arb roi]|e] eqn:Hd; [|discriminate].
  cbn [mbind B64.result_bind].
  destruct is_arb; [|intros H; inversion H; subst; contradiction].
  destruct (fst (B64.apply_safety_filters _ _ _ _ _)) eqn:Ef;
    [|intros H; inversion H; subst; contradiction].
  destruct (B64.calculate_stakes _ _ _) as [rounded|e] eqn:Es; [|discriminate].
  cbn [mbind B64.result_bind]. intros H; inversion H; subst chunk. clear H.
  intros [<-|[]].
  destruct (b64_detect_two_way_true _ _ _ Hd) as (Ha & Hb & Hz & Hlt & ->).
  destruct (b64_apply_safety_filters_pass _ _ _ _ _ Ef) as [Hmax Hmin].
  exists [B64.bet_of outcome_a a; B64.bet_of outcome_b b], rounded.
  split; [reflexivity|]. split; [repeat constructor; assumption|].
  split; [exact Hz|]. split; [exact Hlt|].
  split; [exact Hmax|]. split; [exact Hmin|exact Es].
Qed.

Lemma b64_three_way_candidate_built (cfg : Settings) (event : Event)
    (outcome_1 outcome_x outcome_2 : string) (e1 ex e2 : B64.Entry)
    (chunk : list B64.Opportunity) (opp : B64.Opportunity) :
  B64.three_way_candidate cfg event outcome_1 outcome_x outcome_2 e1 ex e2
  = B64.Returned chunk →
  In opp chunk →
  ∃ (legs : list B64.Bet) (rounded : list Z),
    opp = B64.make_opportunity event
            (B64.mul (B64.sub (B64.div B64.one (B64.implied_total legs)) B64.one)
                     (B64.of_Z 100))
            legs rounded
    ∧ Forall (fun l => B64.ltb B64.zero (B64.bet_odds l) = true) legs
    ∧ B64.eqb (B64.implied_total legs) B64.zero = false
    ∧ B64.ltb (B64.implied_total legs) B64.one = true
    ∧ B64.gtb (B64.opp_roi opp) (B64.of_Q (MAX_ROI_THRESHOLD cfg)) = false
    ∧ B64.ltb (B64.opp_roi opp) (B64.of_Q (MIN_ROI_THRESHOLD cfg)) = false
    ∧ B64.calculate_stakes cfg (B64.of_Q (DEFAULT_TOTAL_INVESTMENT cfg))
        (map B64.bet_odds legs)
      = B64.Returned rounded.
Proof.
  unfold B64.three_way_candidate.
  destruct (size _ <? 2)%nat.
  { intros H; inversion H; subst. contradiction. }
  destruct (B64.detect_three_way_arbitrage (B64.odds e1) (B64.odds ex) (B64.odds e2))
    as [[is_arb roi]|e] eqn:Hd; [|discriminate].
  cbn [mbind B64.result_bind].
  destruct is_arb; [|intros H; inversion H; subst; contradiction].
  destruct (fst (B64.apply_safety_filters _ _ _ _ _)) eqn:Ef;
    [|intros H; inversion H; subst; contradiction].
  destruct (B64.calculate_stakes _ _ _) as [rounded|e] eqn:Es; [|discriminate].
  cbn [mbind B64.result_bind]. intros H; inversion H; subst chunk. clear H.
  intros [<-|[]].
  destruct (b64_detect_three_way_true _ _ _ _ Hd) as (H1 & Hx & H2 & Hz & Hlt & ->).
  destruct (b64_apply_safety_filters_pass _ _ _ _ _ Ef) as [Hmax Hmin].
  exists [B64.bet_of outcome_1 e1; B64.bet_of outcome_x ex; B64.bet_of outcome_2 e2],
         rounded.
  split; [reflexivity|]. split; [repeat constructor; assumption|].
  split; [exact Hz|]. split; [exact Hlt|].
  split; [exact Hmax|]. split; [exact Hmin|exact Es].
Qed.

(** X26. Every opportunity returned by [find_arbitrage_opportunities]
    carries the identifier of the event and legs whose odds compare above
    zero; the implied total of those legs, the rounded inverses added in
    the order of the legs, is non-zero and compares below [1.0]; its ROI
    is [(1 / implied_total - 1) * 100] evaluated in binary64 and compares
    neither above [MAX_ROI_THRESHOLD] nor below [MIN_ROI_THRESHOLD]; and
    its stakes are what [calculate_stakes] returns for
    [DEFAULT_TOTAL_INVESTMENT] on the odds of those legs. *)
Theorem binary64_opportunities_sound (cfg : Settings)
    (sharp_prices after : gmap string B64.SharpPrice) (event : Event)
    (parsed_odds : list B64.Entry) (opps : list B64.Opportunity)
    (opp : B64.Opportunity) :
  B64.find_arbitrage_opportunities cfg sharp_prices event parsed_odds
  = (B64.Returned opps, after) →
  In opp opps →
  B64.opp_event_id opp = id event
  ∧ Forall (fun l => B64.ltb B64.zero (B64.bet_odds l) = true) (B64.bets opp)
  ∧ B64.eqb (B64.implied_total (B64.bets opp)) B64.zero = false
  ∧ B64.ltb (B64.implied_total (B64.bets opp)) B64.one = true
  ∧ B64.opp_roi opp
    = B64.mul (B64.sub (B64.div B64.one (B64.implied_total (B64.bets opp))) B64.one)
              (B64.of_Z 100)
  ∧ B64.gtb (B64.opp_roi opp) (B64.of_Q (MAX_ROI_THRESHOLD cfg)) = false
  ∧ B64.ltb (B64.opp_roi opp) (B64.of_Q (MIN_ROI_THRESHOLD cfg)) = false
  ∧ B64.calculate_stakes cfg (B64.of_Q (DEFAULT_TOTAL_INVESTMENT cfg))
      (map B64.bet_odds (B64.bets opp))
    = B64.Returned (B64.stakes opp).
Proof.
  intros Hfind Hin.
  assert (Hb : ∃ (legs : list B64.Bet) (rounded : list Z),
    opp = B64.make_opportunity event
            (B64.mul (B64.sub (B64.div B64.one (B64.implied_total legs)) B64.one)
                     (B64.of_Z 100))
            legs rounded
    ∧ Forall (fun l => B64.ltb B64.zero (B64.bet_odds l) = true) legs
    ∧ B64.eqb (B64.implied_total legs) B64.zero = false
    ∧ B64.ltb (B64.implied_total legs) B64.one = true
    ∧ B64.gtb (B64.opp_roi opp) (B64.of_Q (MAX_ROI_THRESHOLD cfg)) = false
    ∧ B64.ltb (B64.opp_roi opp) (B64.of_Q (MIN_ROI_THRESHOLD cfg)) = false
    ∧ B64.calculate_stakes cfg (B64.of_Q (DEFAULT_TOTAL_INVESTMENT cfg))
        (map B64.bet_odds legs)
      = B64.Returned rounded).
  { unfold B64.find_arbitrage_opportunities in Hfind.
    destruct (B64.track_entries _ _ _ _) as [[[]|e] st]; [|discriminate].
    destruct (B64.group_by_outcome parsed_odds)
      as [|[oa ea] [|[ob eb] [|[oc ec] [|? ?]]]];
      inversion Hfind as [[Hloop Hst]]; clear Hfind;
      try (subst opps; contradiction).
    - destruct (b64_for_each_In _ _ _ _ Hloop Hin) as (a & chunk_a & Hia & Ha & Hin_a).
      destruct (b64_for_each_In _ _ _ _ Ha Hin_a) as (b & chunk_b & Hib & Hb & Hin_b).
      exact (b64_two_way_candidate_built _ _ _ _ _ _ _ _ Hb Hin_b).
    - destruct (b64_for_each_In _ _ _ _ Hloop Hin) as (e1 & chunk_1 & Hi1 & H1 & Hin_1).
      destruct (b64_for_each_In _ _ _ _ H1 Hin_1) as (ex & chunk_x & Hix & Hx & Hin_x).
      destruct (b64_for_each_In _ _ _ _ Hx Hin_x) as (e2 & chunk_2 & Hi2 & H2 & Hin_2).
      exact (b64_three_way_candidate_built _ _ _ _ _ _ _ _ _ _ H2 Hin_2). }
  destruct Hb as (legs & rounded & -> & H1 & H2 & H3 & H4 & H5 & H6).
  cbn [B64.make_opportunity B64.opp_event_id B64.bets B64.opp_roi B64.stakes] in *.
  repeat split; assumption.
Qed.

Lemma binary64_opportunities_sound_witness :
  ∃ (opp : B64.Opportunity) (after : gmap string B64.SharpPrice),
    B64.find_arbitrage_opportunities settings ∅ two_way_event
      [ {| B64.bookmaker := "bookmaker_x"; B64.outcome := "A";
           B64.odds := B64.of_Q 2.10 |};
        {| B64.bookmaker := "bookmaker_y"; B64.outcome := "B";
           B64.odds := B64.of_Q 2.05 |} ]
    = (B64.Returned [opp], after)
    ∧ B64.opp_event_id opp = id two_way_event
    ∧ Forall (fun l => B64.ltb B64.zero (B64.bet_odds l) = true) (B64.bets opp)
    ∧ B64.eqb (B64.implied_total (B64.bets opp)) B64.zero = false
    ∧ B64.ltb (B64.implied_total (B64.bets opp)) B64.one = true
    ∧ B64.opp_roi opp
      = B64.mul (B64.sub (B64.div B64.one (B64.implied_total (B64.bets opp))) B64.one)
                (B64.of_Z 100)
    ∧ B64.gtb (B64.opp_roi opp) (B64.of_Q (MAX_ROI_THRESHOLD settings)) = false
    ∧ B64.ltb (B64.opp_roi opp) (B64.of_Q (MIN_ROI_THRESHOLD settings)) = false
    ∧ B64.calculate_stakes settings (B64.of_Q (DEFAULT_TOTAL_INVESTMENT settings))
        (map B64.bet_odds (B64.bets opp))
      = B64.Returned (B64.stakes opp).
Proof.
  eexists _, _. split; [vm_compute; reflexivity|].
  eapply (binary64_opportunities_sound settings ∅ _ two_way_event
            [ {| B64.bookmaker := "bookmaker_x"; B64.outcome := "A";
                 B64.odds := B64.of_Q 2.10 |};
              {| B64.bookmaker := "bookmaker_y"; B64.outcome := "B";
                 B64.odds := B64.of_Q 2.05 |} ]).
  - vm_compute. reflexivity.
  - left. reflexivity.
Defined.

(** The two prices 1.26 and 5.22 pass the filters: the ROI the code
    computes is not below the minimum of 1.5 percent. *)
Example binary64_opportunity_at_floor :
  ∃ (opp : B64.Opportunity) (after : gmap string B64.SharpPrice),
    B64.find_arbitrage_opportunities settings ∅ two_way_event
      [ {| B64.bookmaker := "bookmaker_x"; B64.outcome := "A";
           B64.odds := B64.of_Q 1.26 |};
        {| B64.bookmaker := "bookmaker_y"; B64.outcome := "B";
           B64.odds := B64.of_Q 5.22 |} ]
    = (B64.Returned [opp], after).
Proof. eexists _, _. vm_compute. reflexivity. Qed.

(** ** Implied probability in binary64 *)

(** X6. [calculate_implied_probability] raises [ZeroDivisionError]
    exactly on a zero of either sign; on every other float it returns
    [(1 / odds) * 100] with both operations rounded to binary64, and for
    odds that compare above zero the result never compares below zero. *)
Theorem binary64_implied_probability (odds : B64.float) :
  (B64.calculate_implied_probability odds = B64.Raised B64.ZeroDivisionError
   ↔ B64.eqb odds B64.zero = true)
  ∧ (B64.eqb odds B64.zero = false →
     B64.calculate_implied_probability odds
     = B64.Returned (B64.mul (B64.div B64.one odds) (B64.of_Z 100)))
  ∧ (B64.ltb B64.zero odds = true →
     ∃ p, B64.calculate_implied_probability odds = B64.Returned p
          ∧ B64.ltb p B64.zero = false).
Proof.
  unfold B64.calculate_implied_probability.
  split; [|split].
  - unfold B64.truediv. destruct (B64.eqb odds B64.zero); split;
      try reflexivity; discriminate.
  - intros H. now rewrite (b64_truediv_Returned _ _ H).
  - intros H. rewrite (b64_truediv_Returned _ _ (b64_ltb_zero_eqb _ H)).
    eexists. split; [reflexivity|].
    apply b64_mul_not_negative; [|reflexivity].
    now apply b64_inverse_not_negative.
Qed.

Lemma binary64_implied_probability_witness :
  B64.calculate_implied_probability (B64.of_Z 2)
  = B64.Returned (B64.of_Z 50)
  ∧ ∃ p, B64.calculate_implied_probability (B64.of_Q 2.10) = B64.Returned p
         ∧ B64.ltb p B64.zero = false.
Proof.
  split.
  - apply (proj1 (proj2 (binary64_implied_probability (B64.of_Z 2)))).
    vm_compute. reflexivity.
  - apply (proj2 (proj2 (binary64_implied_probability (B64.of_Q 2.10)))).
    vm_compute. reflexivity.
Defined.
